(** * Ticker indicator/scoring engine: shallow embedding and properties

    The repository holds two variants of the [Ticker] class: a cron-driven
    one (daily extremes, proximity-aware classifier, full-history level
    tracker, historical refill) and an interval-driven one (plain
    classifier, 20-sample level tracker).  Both are embedded below, method
    by method, over IEEE-754 binary64 numbers ([PrimFloat]), which is what
    a JavaScript [number] is. *)

From Stdlib Require Import ZArith List Bool Lia String Ascii Floats Uint63.
Import ListNotations.

Set Warnings "-inexact-float,-register-all".

(** ** JavaScript values and built-ins used by the class *)

Module JS.

Open Scope float_scope.

(** A class field declared without initialiser holds [undefined] until it
    is first assigned: [None].  [ToNumber(undefined)] is NaN. *)
Definition toNumber (v : option float) : float :=
  match v with
  | Some x => x
  | None => nan
  end.

(** Relational and equality operators on numbers. *)
Definition lt (a b : float) : bool := PrimFloat.ltb a b.
Definition gt (a b : float) : bool := PrimFloat.ltb b a.
Definition le (a b : float) : bool := PrimFloat.leb a b.
Definition ge (a b : float) : bool := PrimFloat.leb b a.
Definition strictEq (a b : float) : bool := PrimFloat.eqb a b.

(** [===] where the left operand may be [undefined] and the right one is a
    number. *)
Definition strictEqOpt (a : option float) (b : float) : bool :=
  match a with
  | Some x => strictEq x b
  | None => false
  end.

(** SameValueZero, the comparison of [Array.prototype.includes]. *)
Definition sameValueZero (a b : float) : bool :=
  PrimFloat.eqb a b || (is_nan a && is_nan b).

Definition isNegZero (x : float) : bool :=
  match classify x with
  | NZero => true
  | _ => false
  end.

Definition isPosZero (x : float) : bool :=
  match classify x with
  | PZero => true
  | _ => false
  end.

(** [Math.min(...xs)]: starts from +Infinity, any NaN argument makes the
    result NaN, -0 is below +0. *)
Fixpoint minLoop (lowest : float) (xs : list float) : float :=
  match xs with
  | [] => lowest
  | x :: rest =>
      if is_nan x then nan
      else
        let lowest := if isNegZero x && isPosZero lowest then x else lowest in
        let lowest := if lt x lowest then x else lowest in
        minLoop lowest rest
  end.

Definition Math_min (xs : list float) : float := minLoop infinity xs.

(** [Math.max(...xs)]: starts from -Infinity. *)
Fixpoint maxLoop (highest : float) (xs : list float) : float :=
  match xs with
  | [] => highest
  | x :: rest =>
      if is_nan x then nan
      else
        let highest := if isPosZero x && isNegZero highest then x else highest in
        let highest := if gt x highest then x else highest in
        maxLoop highest rest
  end.

Definition Math_max (xs : list float) : float := maxLoop neg_infinity xs.

(** [Math.pow(x, 2)], taken as the correctly rounded square. *)
Definition pow2 (x : float) : float := x * x.

Definition Math_sqrt (x : float) : float := PrimFloat.sqrt x.

(** [arr.length] as a number. *)
Definition lengthNum {A : Type} (l : list A) : float :=
  of_uint63 (Uint63.of_Z (Z.of_nat (List.length l))).

(** [arr.reduce((acc, x) => acc + x, 0)]. *)
Definition sum (xs : list float) : float :=
  fold_left (fun acc x => acc + x) xs 0.

(** [arr.slice(start)] for an integral [start]. *)
Definition slice {A : Type} (start : Z) (l : list A) : list A :=
  let len := Z.of_nat (List.length l) in
  let k := if (start <? 0)%Z then Z.max (len + start) 0 else Z.min start len in
  skipn (Z.to_nat k) l.

(** [arr.push(x)] and [arr.shift()] (the array after the call). *)
Definition push {A : Type} (l : list A) (x : A) : list A := l ++ [x].
Definition shift {A : Type} (l : list A) : list A := tl l.

(** [arr.includes(x)] on an array of numbers. *)
Definition includes (l : list float) (x : float) : bool :=
  existsb (fun e => sameValueZero e x) l.

(** [arr.some(f)]. *)
Definition some {A : Type} (f : A -> bool) (l : list A) : bool := existsb f l.

(** [s.split(",")]. *)
Fixpoint splitComma (s : string) : list string :=
  match s with
  | EmptyString => [EmptyString]
  | String c rest =>
      if Ascii.eqb c ","%char then EmptyString :: splitComma rest
      else
        match splitComma rest with
        | h :: t => String c h :: t
        | [] => [String c EmptyString]
        end
  end.

(** Whether a string holds a comma. *)
Fixpoint hasComma (s : string) : bool :=
  match s with
  | EmptyString => false
  | String c rest => Ascii.eqb c ","%char || hasComma rest
  end.

(** A [Date] is its time value, milliseconds since the epoch. *)
Definition Date := Z.

(** [d.getDate()]: day of the month, with the host time zone taken as
    UTC (days-to-civil conversion of the proleptic Gregorian calendar). *)
Definition getDate (d : Date) : Z :=
  let z := (d / 86400000 + 719468)%Z in
  let era := (z / 146097)%Z in
  let doe := (z - era * 146097)%Z in
  let yoe := ((doe - doe / 1460 + doe / 36524 - doe / 146096) / 365)%Z in
  let doy := (doe - (365 * yoe + yoe / 4 - yoe / 100))%Z in
  let mp := ((5 * doy + 2) / 153)%Z in
  (doy - (153 * mp + 2) / 5 + 1)%Z.

(** Parsed JSON documents. *)
Inductive JSON : Type :=
| JNull
| JBool (b : bool)
| JNumber (x : float)
| JString (s : string)
| JArray (items : list JSON)
| JObject (members : list (string * JSON)).

(** Truthiness, as tested by [!v]. *)
Definition truthy (v : JSON) : bool :=
  match v with
  | JNull => false
  | JBool b => b
  | JNumber x => negb (PrimFloat.eqb x 0 || is_nan x)
  | JString s => negb (String.eqb s EmptyString)
  | JArray _ => true
  | JObject _ => true
  end.

Fixpoint lookupMember (k : string) (members : list (string * JSON)) (found : option JSON)
  : option JSON :=
  match members with
  | [] => found
  | (k', v) :: rest =>
      lookupMember k rest (if String.eqb k k' then Some v else found)
  end.

(** [v[0]] on a value that is neither [null] nor [undefined]; [None] is
    [undefined]. *)
Definition index0 (v : JSON) : option JSON :=
  match v with
  | JArray items => nth_error items 0
  | JString (String c _) => Some (JString (String c EmptyString))
  | JObject members => lookupMember "0" members None
  | _ => None
  end.

(** An HTTP response as [fetchPrice] consumes it; [body = None] when the
    body is not JSON, so that [response.json()] rejects. *)
Record Response : Type := {
  ok : bool;
  status : Z;
  body : option JSON
}.

End JS.

Import JS.
Open Scope float_scope.

Inductive Signal : Type := BUY | SELL | NEUTRAL.

Inductive Trend : Type := UP | DOWN | TREND_NEUTRAL.

(** What the [catch] block of [fetchPrice] logs. *)
Inductive FetchError : Type :=
| NetworkError
| RequestFailed (status : Z)
| JsonSyntaxError
| InvalidOrEmptyResponse
| SplitIsNotAFunction
| DateIsUndefined.

Record PriceEntry : Type := {
  pe_price : float;
  pe_timestamp : option Date
}.

Record ScoreEntry : Type := {
  se_score : Signal;
  se_timestamp : option Date
}.

(** The last [k] elements of a list, oldest first. *)
Definition lastN {A : Type} (k : nat) (l : list A) : list A :=
  skipn (List.length l - k) l.

(** A push followed by the conditional shift of the bounded histories. *)
Definition pushBounded {A : Type} (h : list A) (x : A) : list A :=
  let h' := push h x in
  if (100 <? List.length h')%nat then shift h' else h'.

(** ** Magnitudes of binary64 numbers

    A finite number of mantissa [m] and exponent [e] lies, in absolute
    value, in the interval from 2^(mag m e - 1) to 2^(mag m e). *)

Definition mag (m : positive) (e : Z) : Z := (Zpos (digits2_pos m) + e)%Z.

(** A positive number of magnitude at least [k], or +Infinity. *)
Definition posBig (k : Z) (x : spec_float) : Prop :=
  match x with
  | S754_infinity false => True
  | S754_finite false m e => (k <= mag m e)%Z
  | _ => False
  end.

(** A number of either sign of magnitude at least [k], or an infinity. *)
Definition absBig (k : Z) (x : spec_float) : Prop :=
  match x with
  | S754_infinity _ => True
  | S754_finite _ m e => (k <= mag m e)%Z
  | _ => False
  end.

(** +0, a positive number or +Infinity. *)
Definition nonneg (x : spec_float) : Prop :=
  match x with
  | S754_zero false | S754_infinity false | S754_finite false _ _ => True
  | _ => False
  end.

Definition nanOrNonneg (x : float) : Prop :=
  Prim2SF x = S754_nan \/ nonneg (Prim2SF x).

(** The level-set update shared by both trackers: the price joins the set
    when it is strictly equal to the window's extreme and not yet included. *)
Definition levelAfter (extreme : float) (price : option float) (levels : list float)
  : list float :=
  if strictEqOpt price extreme && negb (includes levels (toNumber price))
  then push levels (toNumber price)
  else levels.

(** No two levels of a set are [===]-equal. *)
Definition distinctLevels (levels : list float) : Prop :=
  ForallOrdPairs (fun a b => strictEq a b = false) levels.

(** One step of a level set over an accepted sample of price [p]: the set
    stays as it is, or it gains [p] at its end, and then [p] is strictly
    equal to the extreme of the tracked window and was not included. *)
Definition levelStep (levels levels' : list float) (p extreme : float) : Prop :=
  levels' = levels
  \/ (levels' = levels ++ [p]
      /\ strictEq p extreme = true
      /\ includes levels p = false).

(** ** The cron-driven ticker *)

Module CronTicker.

Record Ticker : Type := {
  symbol : string;
  price : option float;
  previousPrice : option float;
  date : option Date;
  score : Signal;
  currency : string;
  endPoint : string;
  lowPriceOfTheDay : float;
  highPriceOfTheDay : float;
  priceHistory : list PriceEntry;
  scoreHistory : list ScoreEntry;
  supportLevels : list float;
  resistanceLevels : list float;
  trendDirection : Trend
}.

(** Field assignments [this.f = v]. *)
Definition set_price (v : option float) (t : Ticker) : Ticker :=
  {| symbol := symbol t;
     price := v;
     previousPrice := previousPrice t;
     date := date t;
     score := score t;
     currency := currency t;
     endPoint := endPoint t;
     lowPriceOfTheDay := lowPriceOfTheDay t;
     highPriceOfTheDay := highPriceOfTheDay t;
     priceHistory := priceHistory t;
     scoreHistory := scoreHistory t;
     supportLevels := supportLevels t;
     resistanceLevels := resistanceLevels t;
     trendDirection := trendDirection t |}.

Definition set_previousPrice (v : option float) (t : Ticker) : Ticker :=
  {| symbol := symbol t;
     price := price t;
     previousPrice := v;
     date := date t;
     score := score t;
     currency := currency t;
     endPoint := endPoint t;
     lowPriceOfTheDay := lowPriceOfTheDay t;
     highPriceOfTheDay := highPriceOfTheDay t;
     priceHistory := priceHistory t;
     scoreHistory := scoreHistory t;
     supportLevels := supportLevels t;
     resistanceLevels := resistanceLevels t;
     trendDirection := trendDirection t |}.

Definition set_date (v : option Date) (t : Ticker) : Ticker :=
  {| symbol := symbol t;
     price := price t;
     previousPrice := previousPrice t;
     date := v;
     score := score t;
     currency := currency t;
     endPoint := endPoint t;
     lowPriceOfTheDay := lowPriceOfTheDay t;
     highPriceOfTheDay := highPriceOfTheDay t;
     priceHistory := priceHistory t;
     scoreHistory := scoreHistory t;
     supportLevels := supportLevels t;
     resistanceLevels := resistanceLevels t;
     trendDirection := trendDirection t |}.

Definition set_lowPriceOfTheDay (v : float) (t : Ticker) : Ticker :=
  {| symbol := symbol t;
     price := price t;
     previousPrice := previousPrice t;
     date := date t;
     score := score t;
     currency := currency t;
     endPoint := endPoint t;
     lowPriceOfTheDay := v;
     highPriceOfTheDay := highPriceOfTheDay t;
     priceHistory := priceHistory t;
     scoreHistory := scoreHistory t;
     supportLevels := supportLevels t;
     resistanceLevels := resistanceLevels t;
     trendDirection := trendDirection t |}.

Definition set_highPriceOfTheDay (v : float) (t : Ticker) : Ticker :=
  {| symbol := symbol t;
     price := price t;
     previousPrice := previousPrice t;
     date := date t;
     score := score t;
     currency := currency t;
     endPoint := endPoint t;
     lowPriceOfTheDay := lowPriceOfTheDay t;
     highPriceOfTheDay := v;
     priceHistory := priceHistory t;
     scoreHistory := scoreHistory t;
     supportLevels := supportLevels t;
     resistanceLevels := resistanceLevels t;
     trendDirection := trendDirection t |}.

Definition set_priceHistory (v : list PriceEntry) (t : Ticker) : Ticker :=
  {| symbol := symbol t;
     price := price t;
     previousPrice := previousPrice t;
     date := date t;
     score := score t;
     currency := currency t;
     endPoint := endPoint t;
     lowPriceOfTheDay := lowPriceOfTheDay t;
     highPriceOfTheDay := highPriceOfTheDay t;
     priceHistory := v;
     scoreHistory := scoreHistory t;
     supportLevels := supportLevels t;
     resistanceLevels := resistanceLevels t;
     trendDirection := trendDirection t |}.

Definition set_scoreHistory (v : list ScoreEntry) (t : Ticker) : Ticker :=
  {| symbol := symbol t;
     price := price t;
     previousPrice := previousPrice t;
     date := date t;
     score := score t;
     currency := currency t;
     endPoint := endPoint t;
     lowPriceOfTheDay := lowPriceOfTheDay t;
     highPriceOfTheDay := highPriceOfTheDay t;
     priceHistory := priceHistory t;
     scoreHistory := v;
     supportLevels := supportLevels t;
     resistanceLevels := resistanceLevels t;
     trendDirection := trendDirection t |}.

Definition set_supportLevels (v : list float) (t : Ticker) : Ticker :=
  {| symbol := symbol t;
     price := price t;
     previousPrice := previousPrice t;
     date := date t;
     score := score t;
     currency := currency t;
     endPoint := endPoint t;
     lowPriceOfTheDay := lowPriceOfTheDay t;
     highPriceOfTheDay := highPriceOfTheDay t;
     priceHistory := priceHistory t;
     scoreHistory := scoreHistory t;
     supportLevels := v;
     resistanceLevels := resistanceLevels t;
     trendDirection := trendDirection t |}.

Definition set_resistanceLevels (v : list float) (t : Ticker) : Ticker :=
  {| symbol := symbol t;
     price := price t;
     previousPrice := previousPrice t;
     date := date t;
     score := score t;
     currency := currency t;
     endPoint := endPoint t;
     lowPriceOfTheDay := lowPriceOfTheDay t;
     highPriceOfTheDay := highPriceOfTheDay t;
     priceHistory := priceHistory t;
     scoreHistory := scoreHistory t;
     supportLevels := supportLevels t;
     resistanceLevels := v;
     trendDirection := trendDirection t |}.

Definition set_trendDirection (v : Trend) (t : Ticker) : Ticker :=
  {| symbol := symbol t;
     price := price t;
     previousPrice := previousPrice t;
     date := date t;
     score := score t;
     currency := currency t;
     endPoint := endPoint t;
     lowPriceOfTheDay := lowPriceOfTheDay t;
     highPriceOfTheDay := highPriceOfTheDay t;
     priceHistory := priceHistory t;
     scoreHistory := scoreHistory t;
     supportLevels := supportLevels t;
     resistanceLevels := resistanceLevels t;
     trendDirection := v |}.


(** [new Ticker(symbol, currency)]; the constructor's [addHistory()] call
    only starts a request, whose answer arrives later ([addHistoryData]). *)
Definition newTicker (symbol currency : string) : Ticker :=
  {| symbol := symbol;
     price := None;
     previousPrice := Some 0;
     date := None;
     score := NEUTRAL;
     currency := currency;
     endPoint := "https://data-asg.goldprice.org/GetData/" ++ currency ++ "-" ++ symbol ++ "/1";
     lowPriceOfTheDay := infinity;
     highPriceOfTheDay := neg_infinity;
     priceHistory := [];
     scoreHistory := [];
     supportLevels := [];
     resistanceLevels := [];
     trendDirection := TREND_NEUTRAL |}.

(** The body of [updatePriceOfTheDay] for a date field holding [d]. *)
Definition updatePriceOfTheDayOn (d : Date) (t : Ticker) : Ticker :=
  let currentDay := getDate d in
  let lastPriceDate := d in
  let t :=
    if negb (getDate d =? currentDay)%Z
    then set_highPriceOfTheDay neg_infinity (set_lowPriceOfTheDay infinity t)
    else t in
  let t :=
    if lt (toNumber (price t)) (lowPriceOfTheDay t)
    then set_lowPriceOfTheDay (toNumber (price t)) t
    else t in
  if gt (toNumber (price t)) (highPriceOfTheDay t)
  then set_highPriceOfTheDay (toNumber (price t)) t
  else t.

(** [updatePriceOfTheDay]; [None] is the TypeError of calling [getDate] on
    an unset date field. *)
Definition updatePriceOfTheDay (t : Ticker) : option Ticker :=
  match date t with
  | None => None
  | Some d => Some (updatePriceOfTheDayOn d t)
  end.

Definition getPriceHistory (count : Z) (t : Ticker) : list float :=
  map pe_price (slice (- count) (priceHistory t)).

Definition updateSupportResistanceLevels (t : Ticker) : Ticker :=
  let allPrices := map pe_price (priceHistory t) in
  let minPrice := Math_min allPrices in
  let maxPrice := Math_max allPrices in
  let t :=
    if strictEqOpt (price t) minPrice
       && negb (includes (supportLevels t) (toNumber (price t)))
    then set_supportLevels (push (supportLevels t) (toNumber (price t))) t
    else t in
  if strictEqOpt (price t) maxPrice
     && negb (includes (resistanceLevels t) (toNumber (price t)))
  then set_resistanceLevels (push (resistanceLevels t) (toNumber (price t))) t
  else t.

(** [storePriceData]; the entry holds the price field, which [fetchPrice]
    has just assigned a number. *)
Definition storePriceData (t : Ticker) : Ticker :=
  let t :=
    set_priceHistory
      (push (priceHistory t)
         {| pe_price := toNumber (price t); pe_timestamp := date t |}) t in
  let t :=
    if (100 <? List.length (priceHistory t))%nat
    then set_priceHistory (shift (priceHistory t)) t
    else t in
  updateSupportResistanceLevels t.

Definition calculateVolatility (t : Ticker) : float :=
  let priceHistory := getPriceHistory 10 t in
  let mean := sum priceHistory / lengthNum priceHistory in
  let variance :=
    fold_left (fun acc price => acc + pow2 (price - mean)) priceHistory 0
    / lengthNum priceHistory in
  Math_sqrt variance.

Definition calculateTrendStrength (t : Ticker) : float :=
  let prices := getPriceHistory 10 t in
  let sma := sum prices / lengthNum prices in
  let trendStrength := toNumber (price t) - sma in
  if le (toNumber (price t)) (Math_min (supportLevels t))
  then trendStrength * 1.2
  else if ge (toNumber (price t)) (Math_max (resistanceLevels t))
  then trendStrength * (-1.2)
  else trendStrength.

Definition isNearSupport (t : Ticker) : bool :=
  some (fun level => le (toNumber (price t)) (level * 1.01)) (supportLevels t).

Definition isNearResistance (t : Ticker) : bool :=
  some (fun level => ge (toNumber (price t)) (level * 0.99)) (resistanceLevels t).

Definition calculateScore (t : Ticker) : Signal :=
  let priceChange := toNumber (price t) - toNumber (previousPrice t) in
  let volatility := calculateVolatility t in
  let trendStrength := calculateTrendStrength t in
  if gt priceChange 0 && lt volatility 0.02 && gt trendStrength 0.5
     && negb (isNearResistance t)
  then BUY
  else if lt priceChange 0 && lt volatility 0.02 && lt trendStrength (-0.5)
          && negb (isNearSupport t)
  then SELL
  else NEUTRAL.

(** [storeScore]: the computed score goes to a local and to the history. *)
Definition storeScore (t : Ticker) : Ticker :=
  let score := calculateScore t in
  let t :=
    set_scoreHistory
      (push (scoreHistory t) {| se_score := score; se_timestamp := date t |}) t in
  if (100 <? List.length (scoreHistory t))%nat
  then set_scoreHistory (shift (scoreHistory t)) t
  else t.

Definition detectBOS (t : Ticker) : Ticker :=
  let recentHigh := Math_max (getPriceHistory 10 t) in
  let recentLow := Math_min (getPriceHistory 10 t) in
  if gt (toNumber (price t)) recentHigh then set_trendDirection UP t
  else if lt (toNumber (price t)) recentLow then set_trendDirection DOWN t
  else t.

Definition detectCOC (t : Ticker) : Ticker :=
  match trendDirection t with
  | UP =>
      if lt (toNumber (price t)) (toNumber (previousPrice t))
      then set_trendDirection TREND_NEUTRAL t
      else t
  | DOWN =>
      if gt (toNumber (price t)) (toNumber (previousPrice t))
      then set_trendDirection TREND_NEUTRAL t
      else t
  | TREND_NEUTRAL => t
  end.

(** The three assignments that open the update cycle of [fetchPrice]. *)
Definition assignDate (now : Date) (t : Ticker) : Ticker :=
  set_previousPrice (price t) (set_date (Some now) t).

(** The method calls that close it; a throw keeps the state reached. *)
Definition updateCycle (t : Ticker) : Ticker * option FetchError :=
  match updatePriceOfTheDay t with
  | None => (t, Some DateIsUndefined)
  | Some t => (detectCOC (detectBOS (storeScore (storePriceData t))), None)
  end.

(** One accepted sample: the update cycle run with the parsed price. *)
Definition acceptSample (now : Date) (p : float) (t : Ticker) : Ticker :=
  fst (updateCycle (set_price (Some p) (assignDate now t))).

(** The state on which [storeScore] runs within the update cycle. *)
Definition scoredState (now : Date) (p : float) (t : Ticker) : Ticker :=
  storePriceData (updatePriceOfTheDayOn now (set_price (Some p) (assignDate now t))).

Section FetchPrice.

(** The global [parseFloat]. *)
Variable parseFloat : string -> float.

(** [fetchPrice], given what [fetch] answered ([None]: the request itself
    failed) and the clock reading of [new Date()].  The second component is
    what the [catch] block reports. *)
Definition fetchPrice (answer : option Response) (now : Date) (t : Ticker)
  : Ticker * option FetchError :=
  match answer with
  | None => (t, Some NetworkError)
  | Some response =>
      if negb (ok response) then (t, Some (RequestFailed (status response)))
      else
        match body response with
        | None => (t, Some JsonSyntaxError)
        | Some data =>
            if negb (truthy data) then (t, Some InvalidOrEmptyResponse)
            else
              match index0 data with
              | None => (t, Some InvalidOrEmptyResponse)
              | Some first =>
                  if negb (truthy first) then (t, Some InvalidOrEmptyResponse)
                  else
                    let t := assignDate now t in
                    match first with
                    | JString s =>
                        let field :=
                          match nth_error (splitComma s) 1 with
                          | Some f => f
                          | None => "0"%string
                          end in
                        updateCycle (set_price (Some (parseFloat field)) t)
                    | _ => (t, Some SplitIsNotAFunction)
                    end
              end
        end
  end.

End FetchPrice.

(** One bar of the historical feed: [entry[0]] and [entry[4]]. *)
Record Bar : Type := {
  bar_timestamp : Z;
  bar_close : float
}.

(** The body of [data.forEach] in [addHistory]. *)
Definition addHistoryEntry (t : Ticker) (entry : Bar) : Ticker :=
  let timestamp := bar_timestamp entry in
  let closePrice := bar_close entry in
  let date := timestamp in
  let t :=
    set_priceHistory
      (push (priceHistory t) {| pe_price := closePrice; pe_timestamp := Some date |}) t in
  let t := updateSupportResistanceLevels t in
  if (100 <? List.length (priceHistory t))%nat
  then set_priceHistory (shift (priceHistory t)) t
  else t.

(** [addHistory] once the historical bars have arrived. *)
Definition addHistoryData (data : list Bar) (t : Ticker) : Ticker :=
  fold_left addHistoryEntry data t.

(** [getAllData]: the fields handed to callers. *)
Record Snapshot : Type := {
  snap_symbol : string;
  snap_price : option float;
  snap_previousPrice : option float;
  snap_date : option Date;
  snap_score : Signal;
  snap_currency : string;
  snap_priceHistory : list PriceEntry;
  snap_scoreHistory : list ScoreEntry;
  snap_supportLevels : list float;
  snap_resistanceLevels : list float;
  snap_trendDirection : Trend;
  snap_lowPriceOfTheDay : float;
  snap_highPriceOfTheDay : float
}.

Definition getAllData (t : Ticker) : Snapshot :=
  {| snap_symbol := symbol t;
     snap_price := price t;
     snap_previousPrice := previousPrice t;
     snap_date := date t;
     snap_score := score t;
     snap_currency := currency t;
     snap_priceHistory := priceHistory t;
     snap_scoreHistory := scoreHistory t;
     snap_supportLevels := supportLevels t;
     snap_resistanceLevels := resistanceLevels t;
     snap_trendDirection := trendDirection t;
     snap_lowPriceOfTheDay := lowPriceOfTheDay t;
     snap_highPriceOfTheDay := highPriceOfTheDay t |}.

(** Samples fed one after the other. *)
Definition feed (samples : list (Date * float)) (t : Ticker) : Ticker :=
  fold_left (fun t s => acceptSample (fst s) (snd s) t) samples t.

(** What reaches a ticker over its life: accepted samples, and the bars of
    the historical refill, which arrive between update cycles. *)
Inductive Event : Type :=
| Sample (now : Date) (p : float)
| HistoryBar (entry : Bar).

Definition applyEvent (t : Ticker) (e : Event) : Ticker :=
  match e with
  | Sample now p => acceptSample now p t
  | HistoryBar entry => addHistoryEntry t entry
  end.

Definition run (events : list Event) (t : Ticker) : Ticker :=
  fold_left applyEvent events t.

Arguments Sample now%_Z p%_float.
Arguments acceptSample now%_Z p%_float t.
Arguments scoredState now%_Z p%_float t.
Arguments fetchPrice parseFloat answer now%_Z t.
Arguments Build_Bar bar_timestamp%_Z bar_close%_float.

(** The signal-history entry an event appends: accepted samples append
    one, refill bars none. *)
Definition signalOf (e : Event) : list ScoreEntry :=
  match e with
  | Sample now _ => [{| se_score := NEUTRAL; se_timestamp := Some now |}]
  | HistoryBar _ => []
  end.

(** The history entry an event pushes. *)
Definition entryOf (e : Event) : PriceEntry :=
  match e with
  | Sample now p => {| pe_price := p; pe_timestamp := Some now |}
  | HistoryBar entry =>
      {| pe_price := bar_close entry; pe_timestamp := Some (bar_timestamp entry) |}
  end.

(** The level sets after [updateSupportResistanceLevels], for a tracked
    window [w]. *)
Definition supportAfter (w : list float) (t : Ticker) : list float :=
  levelAfter (Math_min w) (price t) (supportLevels t).

Definition resistanceAfter (w : list float) (t : Ticker) : list float :=
  levelAfter (Math_max w) (price t) (resistanceLevels t).

(** The running extremes after [updatePriceOfTheDay]. *)
Definition lowAfter (t : Ticker) : float :=
  if lt (toNumber (price t)) (lowPriceOfTheDay t)
  then toNumber (price t) else lowPriceOfTheDay t.

Definition highAfter (t : Ticker) : float :=
  if gt (toNumber (price t)) (highPriceOfTheDay t)
  then toNumber (price t) else highPriceOfTheDay t.

(** The classifier as the specification words it: the conditions under
    which the signal is BUY, or SELL. *)
Definition buyCondition (t : Ticker) : Prop :=
  gt (toNumber (price t) - toNumber (previousPrice t)) 0 = true
  /\ lt (calculateVolatility t) 0.02 = true
  /\ gt (calculateTrendStrength t) 0.5 = true
  /\ ~ (exists level,
          In level (resistanceLevels t)
          /\ ge (toNumber (price t)) (level * 0.99) = true).

Definition sellCondition (t : Ticker) : Prop :=
  lt (toNumber (price t) - toNumber (previousPrice t)) 0 = true
  /\ lt (calculateVolatility t) 0.02 = true
  /\ lt (calculateTrendStrength t) (-0.5) = true
  /\ ~ (exists level,
          In level (supportLevels t)
          /\ le (toNumber (price t)) (level * 1.01) = true).

End CronTicker.

(** ** The interval-driven ticker *)

Module IntervalTicker.

Record Ticker : Type := {
  symbol : string;
  price : option float;
  previousPrice : option float;
  date : option Date;
  score : Signal;
  currency : string;
  endPoint : string;
  priceHistory : list PriceEntry;
  scoreHistory : list ScoreEntry;
  supportLevels : list float;
  resistanceLevels : list float;
  trendDirection : Trend
}.

(** Field assignments [this.f = v]. *)
Definition set_price (v : option float) (t : Ticker) : Ticker :=
  {| symbol := symbol t;
     price := v;
     previousPrice := previousPrice t;
     date := date t;
     score := score t;
     currency := currency t;
     endPoint := endPoint t;
     priceHistory := priceHistory t;
     scoreHistory := scoreHistory t;
     supportLevels := supportLevels t;
     resistanceLevels := resistanceLevels t;
     trendDirection := trendDirection t |}.

Definition set_previousPrice (v : option float) (t : Ticker) : Ticker :=
  {| symbol := symbol t;
     price := price t;
     previousPrice := v;
     date := date t;
     score := score t;
     currency := currency t;
     endPoint := endPoint t;
     priceHistory := priceHistory t;
     scoreHistory := scoreHistory t;
     supportLevels := supportLevels t;
     resistanceLevels := resistanceLevels t;
     trendDirection := trendDirection t |}.

Definition set_date (v : option Date) (t : Ticker) : Ticker :=
  {| symbol := symbol t;
     price := price t;
     previousPrice := previousPrice t;
     date := v;
     score := score t;
     currency := currency t;
     endPoint := endPoint t;
     priceHistory := priceHistory t;
     scoreHistory := scoreHistory t;
     supportLevels := supportLevels t;
     resistanceLevels := resistanceLevels t;
     trendDirection := trendDirection t |}.

Definition set_priceHistory (v : list PriceEntry) (t : Ticker) : Ticker :=
  {| symbol := symbol t;
     price := price t;
     previousPrice := previousPrice t;
     date := date t;
     score := score t;
     currency := currency t;
     endPoint := endPoint t;
     priceHistory := v;
     scoreHistory := scoreHistory t;
     supportLevels := supportLevels t;
     resistanceLevels := resistanceLevels t;
     trendDirection := trendDirection t |}.

Definition set_scoreHistory (v : list ScoreEntry) (t : Ticker) : Ticker :=
  {| symbol := symbol t;
     price := price t;
     previousPrice := previousPrice t;
     date := date t;
     score := score t;
     currency := currency t;
     endPoint := endPoint t;
     priceHistory := priceHistory t;
     scoreHistory := v;
     supportLevels := supportLevels t;
     resistanceLevels := resistanceLevels t;
     trendDirection := trendDirection t |}.

Definition set_supportLevels (v : list float) (t : Ticker) : Ticker :=
  {| symbol := symbol t;
     price := price t;
     previousPrice := previousPrice t;
     date := date t;
     score := score t;
     currency := currency t;
     endPoint := endPoint t;
     priceHistory := priceHistory t;
     scoreHistory := scoreHistory t;
     supportLevels := v;
     resistanceLevels := resistanceLevels t;
     trendDirection := trendDirection t |}.

Definition set_resistanceLevels (v : list float) (t : Ticker) : Ticker :=
  {| symbol := symbol t;
     price := price t;
     previousPrice := previousPrice t;
     date := date t;
     score := score t;
     currency := currency t;
     endPoint := endPoint t;
     priceHistory := priceHistory t;
     scoreHistory := scoreHistory t;
     supportLevels := supportLevels t;
     resistanceLevels := v;
     trendDirection := trendDirection t |}.

Definition set_trendDirection (v : Trend) (t : Ticker) : Ticker :=
  {| symbol := symbol t;
     price := price t;
     previousPrice := previousPrice t;
     date := date t;
     score := score t;
     currency := currency t;
     endPoint := endPoint t;
     priceHistory := priceHistory t;
     scoreHistory := scoreHistory t;
     supportLevels := supportLevels t;
     resistanceLevels := resistanceLevels t;
     trendDirection := v |}.


(** [new Ticker(symbol, currency)]. *)
Definition newTicker (symbol currency : string) : Ticker :=
  {| symbol := symbol;
     price := None;
     previousPrice := Some 0;
     date := None;
     score := NEUTRAL;
     currency := currency;
     endPoint := "https://data-asg.goldprice.org/GetData/" ++ currency ++ "-" ++ symbol ++ "/1";
     priceHistory := [];
     scoreHistory := [];
     supportLevels := [];
     resistanceLevels := [];
     trendDirection := TREND_NEUTRAL |}.

Definition getPriceHistory (count : Z) (t : Ticker) : list float :=
  map pe_price (slice (- count) (priceHistory t)).

(** The level tracker of this variant looks at the last 20 prices. *)
Definition updateSupportResistanceLevels (t : Ticker) : Ticker :=
  let recentPrices := getPriceHistory 20 t in
  let minPrice := Math_min recentPrices in
  let maxPrice := Math_max recentPrices in
  let t :=
    if strictEqOpt (price t) minPrice
       && negb (includes (supportLevels t) (toNumber (price t)))
    then set_supportLevels (push (supportLevels t) (toNumber (price t))) t
    else t in
  if strictEqOpt (price t) maxPrice
     && negb (includes (resistanceLevels t) (toNumber (price t)))
  then set_resistanceLevels (push (resistanceLevels t) (toNumber (price t))) t
  else t.

Definition storePriceData (t : Ticker) : Ticker :=
  let t :=
    set_priceHistory
      (push (priceHistory t)
         {| pe_price := toNumber (price t); pe_timestamp := date t |}) t in
  let t :=
    if (100 <? List.length (priceHistory t))%nat
    then set_priceHistory (shift (priceHistory t)) t
    else t in
  updateSupportResistanceLevels t.

Definition calculateVolatility (t : Ticker) : float :=
  let priceHistory := getPriceHistory 10 t in
  let mean := sum priceHistory / lengthNum priceHistory in
  let variance :=
    fold_left (fun acc price => acc + pow2 (price - mean)) priceHistory 0
    / lengthNum priceHistory in
  Math_sqrt variance.

Definition calculateTrendStrength (t : Ticker) : float :=
  let prices := getPriceHistory 10 t in
  let sma := sum prices / lengthNum prices in
  let trendStrength := toNumber (price t) - sma in
  trendStrength.

(** The classifier of this variant has no proximity guards. *)
Definition calculateScore (t : Ticker) : Signal :=
  let priceChange := toNumber (price t) - toNumber (previousPrice t) in
  let volatility := calculateVolatility t in
  let trendStrength := calculateTrendStrength t in
  if gt priceChange 0 && lt volatility 0.02 && gt trendStrength 0.5
  then BUY
  else if lt priceChange 0 && lt volatility 0.02 && lt trendStrength (-0.5)
  then SELL
  else NEUTRAL.

Definition storeScore (t : Ticker) : Ticker :=
  let score := calculateScore t in
  let t :=
    set_scoreHistory
      (push (scoreHistory t) {| se_score := score; se_timestamp := date t |}) t in
  if (100 <? List.length (scoreHistory t))%nat
  then set_scoreHistory (shift (scoreHistory t)) t
  else t.

Definition detectBOS (t : Ticker) : Ticker :=
  let recentHigh := Math_max (getPriceHistory 10 t) in
  let recentLow := Math_min (getPriceHistory 10 t) in
  if gt (toNumber (price t)) recentHigh then set_trendDirection UP t
  else if lt (toNumber (price t)) recentLow then set_trendDirection DOWN t
  else t.

Definition detectCOC (t : Ticker) : Ticker :=
  match trendDirection t with
  | UP =>
      if lt (toNumber (price t)) (toNumber (previousPrice t))
      then set_trendDirection TREND_NEUTRAL t
      else t
  | DOWN =>
      if gt (toNumber (price t)) (toNumber (previousPrice t))
      then set_trendDirection TREND_NEUTRAL t
      else t
  | TREND_NEUTRAL => t
  end.

Definition assignDate (now : Date) (t : Ticker) : Ticker :=
  set_previousPrice (price t) (set_date (Some now) t).

Definition updateCycle (t : Ticker) : Ticker :=
  detectCOC (detectBOS (storeScore (storePriceData t))).

(** One accepted sample: the update cycle run with the parsed price. *)
Definition acceptSample (now : Date) (p : float) (t : Ticker) : Ticker :=
  updateCycle (set_price (Some p) (assignDate now t)).

(** The state on which [storeScore] runs within the update cycle. *)
Definition scoredState (now : Date) (p : float) (t : Ticker) : Ticker :=
  storePriceData (set_price (Some p) (assignDate now t)).

Section FetchPrice.

Variable parseFloat : string -> float.

(** [fetchPrice]; a missing second field defaults to the number 0, which
    [parseFloat] reads through its string form. *)
Definition fetchPrice (answer : option Response) (now : Date) (t : Ticker)
  : Ticker * option FetchError :=
  match answer with
  | None => (t, Some NetworkError)
  | Some response =>
      if negb (ok response) then (t, Some (RequestFailed (status response)))
      else
        match body response with
        | None => (t, Some JsonSyntaxError)
        | Some data =>
            if negb (truthy data) then (t, Some InvalidOrEmptyResponse)
            else
              match index0 data with
              | None => (t, Some InvalidOrEmptyResponse)
              | Some first =>
                  if negb (truthy first) then (t, Some InvalidOrEmptyResponse)
                  else
                    let t := assignDate now t in
                    match first with
                    | JString s =>
                        let field :=
                          match nth_error (splitComma s) 1 with
                          | Some f => f
                          | None => "0"%string
                          end in
                        (updateCycle (set_price (Some (parseFloat field)) t), None)
                    | _ => (t, Some SplitIsNotAFunction)
                    end
              end
        end
  end.

End FetchPrice.

Definition feed (samples : list (Date * float)) (t : Ticker) : Ticker :=
  fold_left (fun t s => acceptSample (fst s) (snd s) t) samples t.

(** The level sets after [updateSupportResistanceLevels], for a tracked
    window [w]. *)
Definition supportAfter (w : list float) (t : Ticker) : list float :=
  levelAfter (Math_min w) (price t) (supportLevels t).

Definition resistanceAfter (w : list float) (t : Ticker) : list float :=
  levelAfter (Math_max w) (price t) (resistanceLevels t).

Arguments acceptSample now%_Z p%_float t.
Arguments scoredState now%_Z p%_float t.
Arguments fetchPrice parseFloat answer now%_Z t.

(** The classifier as the specification words it: the conditions under
    which the signal is BUY, or SELL. *)
Definition buyCondition (t : Ticker) : Prop :=
  gt (toNumber (price t) - toNumber (previousPrice t)) 0 = true
  /\ lt (calculateVolatility t) 0.02 = true
  /\ gt (calculateTrendStrength t) 0.5 = true
  /\ ~ (exists level,
          In level (resistanceLevels t)
          /\ ge (toNumber (price t)) (level * 0.99) = true).

Definition sellCondition (t : Ticker) : Prop :=
  lt (toNumber (price t) - toNumber (previousPrice t)) 0 = true
  /\ lt (calculateVolatility t) 0.02 = true
  /\ lt (calculateTrendStrength t) (-0.5) = true
  /\ ~ (exists level,
          In level (supportLevels t)
          /\ le (toNumber (price t)) (level * 1.01) = true).

(** The price history is empty, or its last entry holds the price field. *)
Definition endsWithPrice (t : Ticker) : Prop :=
  priceHistory t = []
  \/ exists older e,
       priceHistory t = older ++ [e] /\ price t = Some (pe_price e).

(** The states a ticker goes through: a new ticker, then one [fetchPrice]
    after the other, whatever the answers. *)
Inductive reachable : Ticker -> Prop :=
| reach_new (symbol currency : string) : reachable (newTicker symbol currency)
| reach_fetch (parseFloat : string -> float) (answer : option Response)
    (now : Date) (t : Ticker) :
    reachable t -> reachable (fst (fetchPrice parseFloat answer now t)).

End IntervalTicker.

(** ** The wallet and the HTTP handlers

    The wallet and the handlers work with whichever [Ticker] class the
    application loads; they use its [getSymbol] and [getAllData] only. *)

(** The [symbol] query parameter as the router parses it: a string, or a
    repeated or nested parameter. *)
Inductive QueryValue : Type :=
| QString (s : string)
| QArray (items : list string)
| QNested.

(** A JSON reply [{ message }] with its status code. *)
Record Reply : Type := {
  reply_status : Z;
  reply_message : string
}.

Module Wallet.

Section WithTicker.

Variable Ticker : Type.
Variable getSymbol : Ticker -> string.

(** The [tickers] array of a wallet. *)
Definition Wallet : Type := list Ticker.

Definition newWallet : Wallet := [].

(** [addTicker]: [ticker.scrapePrice()] starts a request or a timer and
    returns; the wallet itself only gains the ticker. *)
Definition addTicker (w : Wallet) (ticker : Ticker) : Wallet := push w ticker.

Definition getTickers (w : Wallet) : list Ticker := w.

(** [getTicker]: [Array.prototype.find], the first ticker of that symbol. *)
Definition getTicker (symbol : string) (w : Wallet) : option Ticker :=
  find (fun t => String.eqb (getSymbol t) symbol) w.

(** [String.prototype.toUpperCase]. *)
Variable toUpperCase : string -> string.

(** [new Ticker(symbol)]: the ticker, or the message of the error the
    constructor throws. *)
Variable construct : string -> Ticker + string.

Variable Snapshot : Type.
Variable getAllData : Ticker -> Snapshot.

(** The handler of [GET /add-ticker]. *)
Definition addTickerHandler (symbol : option QueryValue) (w : Wallet) : Wallet * Reply :=
  match symbol with
  | Some (QString s) =>
      if String.eqb s EmptyString
      then (w, {| reply_status := 400;
                  reply_message := "Symbol is required and must be a string." |})
      else
        match getTicker s w with
        | Some _ =>
            (w, {| reply_status := 400;
                   reply_message := "Ticker already exists in the wallet." |})
        | None =>
            let tickerSymbol := toUpperCase s in
            match construct tickerSymbol with
            | inl ticker =>
                (addTicker w ticker,
                 {| reply_status := 200;
                    reply_message := tickerSymbol ++ " added to the wallet" |})
            | inr message =>
                (w, {| reply_status := 500;
                       reply_message :=
                         if String.eqb message EmptyString
                         then "An unexpected error occurred."
                         else message |})
            end
        end
  | _ =>
      (w, {| reply_status := 400;
             reply_message := "Symbol is required and must be a string." |})
  end.

(** The handler of [GET /get/:symbol]: the status and the body. *)
Definition getHandler (symbol : string) (w : Wallet) : Z * (string + Snapshot) :=
  match getTicker symbol w with
  | None => (404%Z, inl "Ticker not found"%string)
  | Some ticker => (200%Z, inr (getAllData ticker))
  end.

End WithTicker.

End Wallet.

(** ASCII upper-casing, the restriction of [toUpperCase] to ASCII text. *)
Definition asciiUpper (c : ascii) : ascii :=
  let n := nat_of_ascii c in
  if ((97 <=? n) && (n <=? 122))%nat then ascii_of_nat (n - 32) else c.

Fixpoint asciiToUpperCase (s : string) : string :=
  match s with
  | EmptyString => EmptyString
  | String c rest => String (asciiUpper c) (asciiToUpperCase rest)
  end.
(** ** Facts about the array operations *)

Section ArrayFacts.

Context {A : Type}.
Implicit Types (l h : list A) (x : A).

Lemma lastN_length (k : nat) l : List.length (lastN k l) = Nat.min k (List.length l).
Proof. unfold lastN. rewrite length_skipn. lia. Qed.

Lemma lastN_min (k : nat) l : lastN (Nat.min k (List.length l)) l = lastN k l.
Proof. unfold lastN. f_equal. lia. Qed.

Lemma lastN_all (k : nat) l : (List.length l <= k)%nat -> lastN k l = l.
Proof.
  intros Hle. unfold lastN.
  replace (List.length l - k)%nat with 0%nat by lia. reflexivity.
Qed.

Lemma lastN_is_suffix (k : nat) l : firstn (List.length l - k) l ++ lastN k l = l.
Proof. apply firstn_skipn. Qed.

Lemma slice_negative (n : Z) l : (1 <= n)%Z -> slice (- n) l = lastN (Z.to_nat n) l.
Proof.
  intros Hn. unfold slice, lastN.
  destruct (Z.ltb_spec (- n) 0) as [_ | Hge]; [| lia].
  f_equal. lia.
Qed.

Lemma slice_zero l : slice (- 0) l = l.
Proof.
  unfold slice. cbn [Z.opp Z.ltb Z.compare].
  replace (Z.to_nat (Z.min 0 (Z.of_nat (List.length l)))) with 0%nat by lia.
  reflexivity.
Qed.

Lemma lastN_snoc (k : nat) l x :
  (1 <= k)%nat -> lastN k (l ++ [x]) = lastN (k - 1) l ++ [x].
Proof.
  intros Hk. unfold lastN. rewrite length_app. cbn [List.length].
  rewrite skipn_app.
  replace (List.length l + 1 - k)%nat with (List.length l - (k - 1))%nat by lia.
  replace (List.length l - (k - 1) - List.length l)%nat with 0%nat by lia.
  reflexivity.
Qed.

Lemma pushBounded_snoc h x : exists older, pushBounded h x = older ++ [x].
Proof.
  unfold pushBounded, push, shift.
  destruct (Nat.ltb_spec 100 (List.length (h ++ [x]))) as [Hlt | Hge].
  - destruct h as [| a h']; [cbn in Hlt; lia |].
    exists h'. reflexivity.
  - exists h. reflexivity.
Qed.

Lemma pushBounded_length h x :
  (List.length h <= 100)%nat -> (List.length (pushBounded h x) <= 100)%nat.
Proof.
  intros Hle. unfold pushBounded, push, shift.
  destruct (Nat.ltb_spec 100 (List.length (h ++ [x]))) as [Hlt | Hge]; [| exact Hge].
  rewrite length_app in Hlt. cbn in Hlt.
  destruct h as [| a h']; cbn in *; [lia |].
  rewrite length_app. cbn. lia.
Qed.

Lemma pushBounded_lastN l x : pushBounded (lastN 100 l) x = lastN 100 (l ++ [x]).
Proof.
  rewrite lastN_snoc by lia.
  unfold pushBounded, push, shift.
  rewrite length_app, lastN_length. cbn [List.length].
  destruct (Nat.ltb_spec 100 (Nat.min 100 (List.length l) + 1)) as [Hlt | Hge].
  - unfold lastN.
    replace (List.length l - (100 - 1))%nat with (S (List.length l - 100)) by lia.
    assert (Hnth : (List.length l - 100 < List.length l)%nat) by lia.
    revert Hnth. generalize (List.length l - 100)%nat as k.
    clear Hlt. induction l as [| a l IH]; intros k Hk; [cbn in Hk; lia |].
    destruct k as [| k]; [reflexivity |].
    cbn [skipn]. apply IH. cbn in Hk. lia.
  - unfold lastN. do 2 f_equal. lia.
Qed.

Lemma slice_negative_snoc (n : Z) l x :
  (1 <= n)%Z -> slice (- n) (l ++ [x]) = lastN (Z.to_nat n - 1) l ++ [x].
Proof.
  intros Hn. rewrite slice_negative by exact Hn.
  apply lastN_snoc. lia.
Qed.

Lemma NoDup_snoc l x : NoDup l -> ~ In x l -> NoDup (l ++ [x]).
Proof.
  intros Hnd Hin. induction Hnd as [| a l Ha Hnd IH]; cbn.
  - constructor; [intros [] | constructor].
  - constructor.
    + rewrite in_app_iff. cbn. intros [H | [H | []]]; [contradiction |].
      subst. apply Hin. left. reflexivity.
    + apply IH. intros H. apply Hin. right. exact H.
Qed.

Lemma ForallOrdPairs_snoc (R : A -> A -> Prop) l x :
  ForallOrdPairs R l -> (forall a, In a l -> R a x) -> ForallOrdPairs R (l ++ [x]).
Proof.
  intros Hl Hx. induction Hl as [| a l Ha Hl IH]; cbn.
  - constructor; constructor.
  - constructor.
    + apply Forall_app. split; [exact Ha |].
      constructor; [| constructor]. apply Hx. left. reflexivity.
    + apply IH. intros b Hb. apply Hx. right. exact Hb.
Qed.

Lemma in_skipn (n : nat) l x : In x (skipn n l) -> In x l.
Proof.
  intros Hin. rewrite <- (firstn_skipn n l). apply in_or_app. right. exact Hin.
Qed.

Lemma in_lastN (k : nat) l x : In x (lastN k l) -> In x l.
Proof. apply in_skipn. Qed.

Lemma slice_nonnegative (start : Z) l :
  (0 <= start)%Z -> slice start l = skipn (Z.to_nat start) l.
Proof.
  intros Hs. unfold slice.
  destruct (Z.ltb_spec start 0) as [Hlt | _]; [lia |].
  destruct (Z_le_gt_dec start (Z.of_nat (List.length l))) as [Hle | Hgt].
  - f_equal. lia.
  - rewrite !skipn_all2 by lia. reflexivity.
Qed.

End ArrayFacts.

(** ** Facts about number comparisons *)

Section ComparisonFacts.

Lemma sameValueZero_refl (x : float) : sameValueZero x x = true.
Proof.
  unfold sameValueZero, is_nan.
  destruct (PrimFloat.eqb x x); reflexivity.
Qed.

Lemma includes_false_not_In (l : list float) (x : float) :
  includes l x = false -> ~ In x l.
Proof.
  unfold includes. intros Hex Hin.
  assert (Htrue : existsb (fun e => sameValueZero e x) l = true).
  { apply existsb_exists. exists x. split; [exact Hin | apply sameValueZero_refl]. }
  congruence.
Qed.

Lemma includes_false_strictEq (l : list float) (x : float) :
  includes l x = false -> forall e, In e l -> strictEq e x = false.
Proof.
  unfold includes. intros Hex e Hin.
  destruct (strictEq e x) eqn:E; [| reflexivity].
  assert (Htrue : existsb (fun e => sameValueZero e x) l = true).
  { apply existsb_exists. exists e. split; [exact Hin |].
    unfold sameValueZero. unfold strictEq in E. rewrite E. reflexivity. }
  congruence.
Qed.

(** A number is not both above and below zero. *)
Lemma gt_zero_not_lt_zero (x : float) : gt x 0 = true -> lt x 0 = false.
Proof.
  unfold gt, lt. rewrite !FloatAxioms.ltb_spec.
  destruct (Prim2SF x) as [[] | [] | | [] m e]; cbn; congruence.
Qed.

(** ** Facts about the level-set update *)

Lemma levelAfter_cases (extreme : float) (price : option float) (levels : list float) :
  levelAfter extreme price levels = levels
  \/ exists p,
       price = Some p
       /\ levelAfter extreme price levels = levels ++ [p]
       /\ strictEq p extreme = true
       /\ includes levels p = false.
Proof.
  unfold levelAfter.
  destruct price as [p |]; cbn [strictEqOpt toNumber]; [| left; reflexivity].
  destruct (strictEq p extreme) eqn:Heq; [| left; reflexivity].
  destruct (includes levels p) eqn:Hinc; [left; reflexivity |].
  right. exists p. cbn [negb andb]. repeat split; assumption || reflexivity.
Qed.

Lemma levelAfter_NoDup extreme price levels :
  NoDup levels -> NoDup (levelAfter extreme price levels).
Proof.
  intros Hnd.
  destruct (levelAfter_cases extreme price levels)
    as [-> | (p & _ & -> & _ & Hinc)]; [exact Hnd |].
  apply NoDup_snoc; [exact Hnd |].
  apply includes_false_not_In. exact Hinc.
Qed.

Lemma levelAfter_distinct extreme price levels :
  distinctLevels levels -> distinctLevels (levelAfter extreme price levels).
Proof.
  intros Hd.
  destruct (levelAfter_cases extreme price levels)
    as [-> | (p & _ & -> & _ & Hinc)]; [exact Hd |].
  apply ForallOrdPairs_snoc; [exact Hd |].
  apply includes_false_strictEq. exact Hinc.
Qed.

Lemma levelAfter_step extreme p levels :
  levelStep levels (levelAfter extreme (Some p) levels) p extreme.
Proof.
  destruct (levelAfter_cases extreme (Some p) levels)
    as [H | (q & Hq & H & Heq & Hinc)].
  - left. exact H.
  - injection Hq as <-. right. repeat split; assumption.
Qed.

Lemma levelStep_length levels levels' p extreme :
  levelStep levels levels' p extreme ->
  (List.length levels <= List.length levels')%nat.
Proof.
  intros [-> | (-> & _)]; [lia |].
  rewrite length_app. cbn. lia.
Qed.

End ComparisonFacts.

(** ** The cron-driven ticker: which fields each method writes *)

Module CronFacts.

Import CronTicker.

Ltac split_ifs :=
  repeat match goal with
         | |- context [if ?b then _ else _] => destruct b
         end.

Lemma set_same (t : Ticker) :
  set_trendDirection (trendDirection t) t = t
  /\ set_resistanceLevels (resistanceLevels t) (set_supportLevels (supportLevels t) t) = t
  /\ set_highPriceOfTheDay (highPriceOfTheDay t)
       (set_lowPriceOfTheDay (lowPriceOfTheDay t) t) = t.
Proof. destruct t; repeat split; reflexivity. Qed.

Ltac fields :=
  cbn [symbol price previousPrice date score currency endPoint priceHistory
       scoreHistory supportLevels resistanceLevels trendDirection
       set_price set_previousPrice set_date set_priceHistory set_scoreHistory
       set_supportLevels set_resistanceLevels set_trendDirection lowPriceOfTheDay highPriceOfTheDay set_lowPriceOfTheDay set_highPriceOfTheDay].

Lemma detectBOS_shape (t : Ticker) :
  detectBOS t = set_trendDirection (trendDirection (detectBOS t)) t.
Proof.
  unfold detectBOS; cbv zeta; split_ifs; destruct t; reflexivity.
Qed.

Lemma detectCOC_shape (t : Ticker) :
  detectCOC t = set_trendDirection (trendDirection (detectCOC t)) t.
Proof.
  unfold detectCOC; destruct t as [? ? ? ? ? ? ? ? ? ? ? ? ? []]; cbn;
    split_ifs; reflexivity.
Qed.

Lemma storeScore_shape (t : Ticker) :
  storeScore t =
  set_scoreHistory
    (pushBounded (scoreHistory t)
       {| se_score := calculateScore t; se_timestamp := date t |}) t.
Proof.
  unfold storeScore, pushBounded; cbv zeta; cbn [scoreHistory set_scoreHistory].
  split_ifs; reflexivity.
Qed.

Lemma updateSupportResistanceLevels_shape (t : Ticker) :
  updateSupportResistanceLevels t =
  set_resistanceLevels (resistanceAfter (map pe_price (priceHistory t)) t)
    (set_supportLevels (supportAfter (map pe_price (priceHistory t)) t) t).
Proof.
  unfold updateSupportResistanceLevels, supportAfter, resistanceAfter, levelAfter;
    cbv zeta.
  destruct (strictEqOpt (price t) (Math_min _) && _); destruct t;
    cbn [price priceHistory supportLevels resistanceLevels
         set_supportLevels set_resistanceLevels];
    split_ifs; reflexivity.
Qed.

Lemma storePriceData_shape (t : Ticker) :
  let h := pushBounded (priceHistory t)
             {| pe_price := toNumber (price t); pe_timestamp := date t |} in
  let t1 := set_priceHistory h t in
  storePriceData t =
  set_resistanceLevels (resistanceAfter (map pe_price h) t1)
    (set_supportLevels (supportAfter (map pe_price h) t1) t1).
Proof.
  cbv zeta. unfold storePriceData; cbv zeta.
  rewrite updateSupportResistanceLevels_shape.
  unfold pushBounded; cbv zeta. cbn [priceHistory set_priceHistory].
  match goal with
  | |- context [(100 <? ?n)%nat] => destruct (100 <? n)%nat
  end; reflexivity.
Qed.

Lemma updatePriceOfTheDayOn_shape (d : Date) (t : Ticker) :
  updatePriceOfTheDayOn d t =
  set_highPriceOfTheDay (highAfter t) (set_lowPriceOfTheDay (lowAfter t) t).
Proof.
  unfold updatePriceOfTheDayOn, lowAfter, highAfter; cbv zeta.
  rewrite Z.eqb_refl. cbn [negb].
  destruct (lt (toNumber (price t)) (lowPriceOfTheDay t)); destruct t;
    cbn [price lowPriceOfTheDay highPriceOfTheDay
         set_lowPriceOfTheDay set_highPriceOfTheDay];
    split_ifs; reflexivity.
Qed.

Lemma updateCycle_dated (t : Ticker) (d : Date) :
  date t = Some d ->
  updateCycle t =
  (detectCOC (detectBOS (storeScore (storePriceData (updatePriceOfTheDayOn d t)))),
   None).
Proof.
  intros Hd. unfold updateCycle, updatePriceOfTheDay. rewrite Hd. reflexivity.
Qed.

Lemma acceptSample_eq (now : Date) (p : float) (t : Ticker) :
  acceptSample now p t =
  detectCOC (detectBOS (storeScore (storePriceData
    (updatePriceOfTheDayOn now (set_price (Some p) (assignDate now t)))))).
Proof.
  unfold acceptSample.
  rewrite (updateCycle_dated _ now) by reflexivity. reflexivity.
Qed.

(** The update cycle with the day test, which compares a day with
    itself, resolved. *)
Lemma acceptSample_tightens (now : Date) (p : float) (t : Ticker) :
  acceptSample now p t =
  let b := set_price (Some p) (assignDate now t) in
  detectCOC (detectBOS (storeScore (storePriceData
    (set_highPriceOfTheDay (highAfter b) (set_lowPriceOfTheDay (lowAfter b) b))))).
Proof.
  rewrite acceptSample_eq, updatePriceOfTheDayOn_shape. reflexivity.
Qed.

(** Rewriting a method call into the fields it writes. *)
Ltac shapes :=
  repeat first
    [ rewrite detectCOC_shape
    | rewrite detectBOS_shape
    | rewrite storeScore_shape
    | rewrite storePriceData_shape
    | rewrite updatePriceOfTheDayOn_shape ].

Lemma acceptSample_price now p t : price (acceptSample now p t) = Some p.
Proof.
  rewrite acceptSample_eq.
  rewrite detectCOC_shape, detectBOS_shape, storeScore_shape, storePriceData_shape,
    updatePriceOfTheDayOn_shape.
  fields. reflexivity.
Qed.

Lemma acceptSample_priceHistory now p t :
  priceHistory (acceptSample now p t) =
  pushBounded (priceHistory t) {| pe_price := p; pe_timestamp := Some now |}.
Proof.
  rewrite acceptSample_eq.
  rewrite detectCOC_shape, detectBOS_shape, storeScore_shape, storePriceData_shape,
    updatePriceOfTheDayOn_shape.
  fields. reflexivity.
Qed.

Lemma acceptSample_score now p t : score (acceptSample now p t) = score t.
Proof.
  rewrite acceptSample_eq.
  rewrite detectCOC_shape, detectBOS_shape, storeScore_shape, storePriceData_shape,
    updatePriceOfTheDayOn_shape.
  fields. reflexivity.
Qed.

Lemma acceptSample_previousPrice now p t :
  previousPrice (acceptSample now p t) = price t.
Proof.
  rewrite acceptSample_eq.
  rewrite detectCOC_shape, detectBOS_shape, storeScore_shape, storePriceData_shape,
    updatePriceOfTheDayOn_shape.
  fields. reflexivity.
Qed.

Lemma acceptSample_supportLevels now p t :
  supportLevels (acceptSample now p t) =
  supportAfter (map pe_price (priceHistory (acceptSample now p t)))
    (set_price (Some p) t).
Proof.
  rewrite acceptSample_priceHistory.
  rewrite acceptSample_eq.
  rewrite detectCOC_shape, detectBOS_shape, storeScore_shape, storePriceData_shape,
    updatePriceOfTheDayOn_shape.
  fields. reflexivity.
Qed.

Lemma acceptSample_resistanceLevels now p t :
  resistanceLevels (acceptSample now p t) =
  resistanceAfter (map pe_price (priceHistory (acceptSample now p t)))
    (set_price (Some p) t).
Proof.
  rewrite acceptSample_priceHistory.
  rewrite acceptSample_eq.
  rewrite detectCOC_shape, detectBOS_shape, storeScore_shape, storePriceData_shape,
    updatePriceOfTheDayOn_shape.
  fields. reflexivity.
Qed.

Lemma acceptSample_lowPriceOfTheDay now p t :
  lowPriceOfTheDay (acceptSample now p t) =
  if lt p (lowPriceOfTheDay t) then p else lowPriceOfTheDay t.
Proof.
  rewrite acceptSample_eq.
  rewrite detectCOC_shape, detectBOS_shape, storeScore_shape, storePriceData_shape,
    updatePriceOfTheDayOn_shape.
  fields. reflexivity.
Qed.

Lemma acceptSample_highPriceOfTheDay now p t :
  highPriceOfTheDay (acceptSample now p t) =
  if gt p (highPriceOfTheDay t) then p else highPriceOfTheDay t.
Proof.
  rewrite acceptSample_eq.
  rewrite detectCOC_shape, detectBOS_shape, storeScore_shape, storePriceData_shape,
    updatePriceOfTheDayOn_shape.
  fields. reflexivity.
Qed.

(** The classifier reads the two prices, the history and the level sets. *)
Lemma calculateScore_ext t t' :
  price t = price t' ->
  previousPrice t = previousPrice t' ->
  priceHistory t = priceHistory t' ->
  supportLevels t = supportLevels t' ->
  resistanceLevels t = resistanceLevels t' ->
  calculateScore t = calculateScore t'.
Proof.
  intros Hp Hpp Hh Hs Hr.
  unfold calculateScore, calculateVolatility, calculateTrendStrength,
    isNearSupport, isNearResistance, getPriceHistory.
  rewrite Hp, Hpp, Hh, Hs, Hr. reflexivity.
Qed.

Lemma acceptSample_scored now p t :
  acceptSample now p t =
  detectCOC (detectBOS (storeScore (scoredState now p t))).
Proof. unfold scoredState. apply acceptSample_eq. Qed.

Lemma calculateScore_acceptSample now p t :
  calculateScore (acceptSample now p t) = calculateScore (scoredState now p t).
Proof.
  rewrite acceptSample_scored.
  generalize (scoredState now p t) as s. intros s.
  apply calculateScore_ext;
    rewrite detectCOC_shape, detectBOS_shape, storeScore_shape; reflexivity.
Qed.

Lemma acceptSample_scoreHistory now p t :
  scoreHistory (acceptSample now p t) =
  pushBounded (scoreHistory t)
    {| se_score := calculateScore (acceptSample now p t); se_timestamp := Some now |}.
Proof.
  rewrite calculateScore_acceptSample.
  rewrite acceptSample_scored.
  rewrite detectCOC_shape, detectBOS_shape, storeScore_shape.
  unfold scoredState.
  rewrite storePriceData_shape, updatePriceOfTheDayOn_shape.
  fields. reflexivity.
Qed.

Lemma addHistoryEntry_shape t entry :
  let h := push (priceHistory t) (entryOf (HistoryBar entry)) in
  let t1 := set_priceHistory h t in
  addHistoryEntry t entry =
  set_priceHistory (pushBounded (priceHistory t) (entryOf (HistoryBar entry)))
    (set_resistanceLevels (resistanceAfter (map pe_price h) t1)
       (set_supportLevels (supportAfter (map pe_price h) t1) t1)).
Proof.
  cbv zeta. unfold addHistoryEntry; cbv zeta.
  rewrite updateSupportResistanceLevels_shape.
  unfold pushBounded, entryOf; cbv zeta.
  cbn [priceHistory set_priceHistory set_supportLevels set_resistanceLevels].
  match goal with
  | |- context [(100 <? ?n)%nat] => destruct (100 <? n)%nat
  end; reflexivity.
Qed.

Lemma applyEvent_priceHistory t e :
  priceHistory (applyEvent t e) = pushBounded (priceHistory t) (entryOf e).
Proof.
  destruct e as [now p | entry]; cbn [applyEvent].
  - apply acceptSample_priceHistory.
  - rewrite addHistoryEntry_shape. fields. reflexivity.
Qed.

Lemma applyEvent_score t e : score (applyEvent t e) = score t.
Proof.
  destruct e as [now p | entry]; cbn [applyEvent].
  - apply acceptSample_score.
  - rewrite addHistoryEntry_shape. fields. reflexivity.
Qed.

Lemma run_snoc events e t : run (events ++ [e]) t = applyEvent (run events t) e.
Proof. unfold run. rewrite fold_left_app. reflexivity. Qed.

Lemma run_priceHistory events symbol currency :
  priceHistory (run events (newTicker symbol currency)) =
  lastN 100 (map entryOf events).
Proof.
  induction events as [| e events IH] using rev_ind; [reflexivity |].
  rewrite run_snoc, applyEvent_priceHistory, IH, map_app.
  apply pushBounded_lastN.
Qed.

Lemma run_score events symbol currency :
  score (run events (newTicker symbol currency)) = NEUTRAL.
Proof.
  induction events as [| e events IH] using rev_ind; [reflexivity |].
  rewrite run_snoc, applyEvent_score. exact IH.
Qed.

Lemma feed_is_run samples t :
  feed samples t = run (map (fun s => Sample (fst s) (snd s)) samples) t.
Proof.
  revert t. induction samples as [| s samples IH]; intros t; [reflexivity |].
  unfold feed, run in *. cbn [map fold_left applyEvent]. apply IH.
Qed.

Lemma applyEvent_levels t e :
  exists w pr,
    supportLevels (applyEvent t e) = levelAfter (Math_min w) pr (supportLevels t)
    /\ resistanceLevels (applyEvent t e) = levelAfter (Math_max w) pr (resistanceLevels t).
Proof.
  destruct e as [now p | entry]; cbn [applyEvent].
  - exists (map pe_price (priceHistory (acceptSample now p t))), (Some p).
    rewrite acceptSample_supportLevels, acceptSample_resistanceLevels.
    split; reflexivity.
  - exists (map pe_price (push (priceHistory t) (entryOf (HistoryBar entry)))), (price t).
    rewrite addHistoryEntry_shape. fields. split; reflexivity.
Qed.

Lemma run_levels_ok events symbol currency :
  let t := run events (newTicker symbol currency) in
  NoDup (supportLevels t) /\ NoDup (resistanceLevels t)
  /\ distinctLevels (supportLevels t) /\ distinctLevels (resistanceLevels t).
Proof.
  cbv zeta. induction events as [| e events IH] using rev_ind.
  - cbn. repeat split; constructor.
  - destruct IH as (Hs & Hr & Hds & Hdr).
    rewrite run_snoc.
    destruct (applyEvent_levels (run events (newTicker symbol currency)) e)
      as (w & pr & -> & ->).
    repeat split;
      [ apply levelAfter_NoDup | apply levelAfter_NoDup
      | apply levelAfter_distinct | apply levelAfter_distinct ]; assumption.
Qed.

Lemma acceptSample_history_last now p t :
  exists older,
    priceHistory (acceptSample now p t)
    = older ++ [{| pe_price := p; pe_timestamp := Some now |}].
Proof. rewrite acceptSample_priceHistory. apply pushBounded_snoc. Qed.

Lemma acceptSample_window_last now p t n :
  (1 <= n)%Z -> exists older, getPriceHistory n (acceptSample now p t) = older ++ [p].
Proof.
  intros Hn. unfold getPriceHistory.
  destruct (acceptSample_history_last now p t) as (older & ->).
  rewrite slice_negative_snoc by exact Hn.
  rewrite map_app. eexists. reflexivity.
Qed.

End CronFacts.

(** ** The interval-driven ticker: which fields each method writes *)

Module IntervalFacts.

Import IntervalTicker.

Ltac split_ifs :=
  repeat match goal with
         | |- context [if ?b then _ else _] => destruct b
         end.

Ltac fields :=
  cbn [symbol price previousPrice date score currency endPoint priceHistory
       scoreHistory supportLevels resistanceLevels trendDirection
       set_price set_previousPrice set_date set_priceHistory set_scoreHistory
       set_supportLevels set_resistanceLevels set_trendDirection].

Lemma interval_detectBOS_shape (t : Ticker) :
  detectBOS t = set_trendDirection (trendDirection (detectBOS t)) t.
Proof.
  unfold detectBOS; cbv zeta; split_ifs; destruct t; reflexivity.
Qed.

Lemma interval_detectCOC_shape (t : Ticker) :
  detectCOC t = set_trendDirection (trendDirection (detectCOC t)) t.
Proof.
  unfold detectCOC; destruct t as [? ? ? ? ? ? ? ? ? ? ? []]; cbn;
    split_ifs; reflexivity.
Qed.

Lemma interval_storeScore_shape (t : Ticker) :
  storeScore t =
  set_scoreHistory
    (pushBounded (scoreHistory t)
       {| se_score := calculateScore t; se_timestamp := date t |}) t.
Proof.
  unfold storeScore, pushBounded; cbv zeta; cbn [scoreHistory set_scoreHistory].
  split_ifs; reflexivity.
Qed.

Lemma interval_updateSupportResistanceLevels_shape (t : Ticker) :
  updateSupportResistanceLevels t =
  set_resistanceLevels (resistanceAfter (getPriceHistory 20 t) t)
    (set_supportLevels (supportAfter (getPriceHistory 20 t) t) t).
Proof.
  unfold updateSupportResistanceLevels, supportAfter, resistanceAfter, levelAfter;
    cbv zeta.
  destruct (strictEqOpt (price t) (Math_min _) && _); destruct t;
    cbn [price priceHistory supportLevels resistanceLevels
         set_supportLevels set_resistanceLevels];
    split_ifs; reflexivity.
Qed.

Lemma interval_storePriceData_shape (t : Ticker) :
  let h := pushBounded (priceHistory t)
             {| pe_price := toNumber (price t); pe_timestamp := date t |} in
  let t1 := set_priceHistory h t in
  storePriceData t =
  set_resistanceLevels (resistanceAfter (getPriceHistory 20 t1) t1)
    (set_supportLevels (supportAfter (getPriceHistory 20 t1) t1) t1).
Proof.
  cbv zeta. unfold storePriceData; cbv zeta.
  rewrite interval_updateSupportResistanceLevels_shape.
  unfold pushBounded; cbv zeta. cbn [priceHistory set_priceHistory].
  match goal with
  | |- context [(100 <? ?n)%nat] => destruct (100 <? n)%nat
  end; reflexivity.
Qed.

Lemma interval_acceptSample_scored now p t :
  acceptSample now p t =
  detectCOC (detectBOS (storeScore (scoredState now p t))).
Proof. unfold scoredState, acceptSample, updateCycle. reflexivity. Qed.

Lemma interval_acceptSample_price now p t : price (acceptSample now p t) = Some p.
Proof.
  rewrite interval_acceptSample_scored. unfold scoredState.
  rewrite interval_detectCOC_shape, interval_detectBOS_shape, interval_storeScore_shape, interval_storePriceData_shape.
  fields. reflexivity.
Qed.

Lemma interval_acceptSample_priceHistory now p t :
  priceHistory (acceptSample now p t) =
  pushBounded (priceHistory t) {| pe_price := p; pe_timestamp := Some now |}.
Proof.
  rewrite interval_acceptSample_scored. unfold scoredState.
  rewrite interval_detectCOC_shape, interval_detectBOS_shape, interval_storeScore_shape, interval_storePriceData_shape.
  fields. reflexivity.
Qed.

Lemma interval_acceptSample_score now p t : score (acceptSample now p t) = score t.
Proof.
  rewrite interval_acceptSample_scored. unfold scoredState.
  rewrite interval_detectCOC_shape, interval_detectBOS_shape, interval_storeScore_shape, interval_storePriceData_shape.
  fields. reflexivity.
Qed.

Lemma getPriceHistory_ext count t t' :
  priceHistory t = priceHistory t' -> getPriceHistory count t = getPriceHistory count t'.
Proof. unfold getPriceHistory. intros ->. reflexivity. Qed.

Lemma interval_acceptSample_supportLevels now p t :
  supportLevels (acceptSample now p t) =
  supportAfter (getPriceHistory 20 (acceptSample now p t)) (set_price (Some p) t).
Proof.
  unfold supportAfter, getPriceHistory.
  rewrite interval_acceptSample_priceHistory.
  rewrite interval_acceptSample_scored. unfold scoredState.
  rewrite interval_detectCOC_shape, interval_detectBOS_shape, interval_storeScore_shape, interval_storePriceData_shape.
  unfold supportAfter, getPriceHistory. fields. reflexivity.
Qed.

Lemma interval_acceptSample_resistanceLevels now p t :
  resistanceLevels (acceptSample now p t) =
  resistanceAfter (getPriceHistory 20 (acceptSample now p t)) (set_price (Some p) t).
Proof.
  unfold resistanceAfter, getPriceHistory.
  rewrite interval_acceptSample_priceHistory.
  rewrite interval_acceptSample_scored. unfold scoredState.
  rewrite interval_detectCOC_shape, interval_detectBOS_shape, interval_storeScore_shape, interval_storePriceData_shape.
  unfold resistanceAfter, getPriceHistory. fields. reflexivity.
Qed.

Lemma feed_snoc samples s t :
  feed (samples ++ [s]) t = acceptSample (fst s) (snd s) (feed samples t).
Proof. unfold feed. rewrite fold_left_app. reflexivity. Qed.

Lemma feed_levels_ok samples symbol currency :
  let t := feed samples (newTicker symbol currency) in
  NoDup (supportLevels t) /\ NoDup (resistanceLevels t)
  /\ distinctLevels (supportLevels t) /\ distinctLevels (resistanceLevels t).
Proof.
  cbv zeta. induction samples as [| s samples IH] using rev_ind.
  - cbn. repeat split; constructor.
  - destruct IH as (Hs & Hr & Hds & Hdr).
    rewrite feed_snoc, interval_acceptSample_supportLevels, interval_acceptSample_resistanceLevels.
    unfold supportAfter, resistanceAfter.
    repeat split;
      [ apply levelAfter_NoDup | apply levelAfter_NoDup
      | apply levelAfter_distinct | apply levelAfter_distinct ]; assumption.
Qed.

Lemma interval_acceptSample_history_last now p t :
  exists older,
    priceHistory (acceptSample now p t)
    = older ++ [{| pe_price := p; pe_timestamp := Some now |}].
Proof. rewrite interval_acceptSample_priceHistory. apply pushBounded_snoc. Qed.

Lemma interval_acceptSample_window_last now p t n :
  (1 <= n)%Z -> exists older, getPriceHistory n (acceptSample now p t) = older ++ [p].
Proof.
  intros Hn. unfold getPriceHistory.
  destruct (interval_acceptSample_history_last now p t) as (older & ->).
  rewrite slice_negative_snoc by exact Hn.
  rewrite map_app. eexists. reflexivity.
Qed.

End IntervalFacts.

(** ** Rounding: how the IEEE operations move magnitudes *)

Module Rounding.

Local Open Scope Z_scope.

Lemma digits2_pos_size (p : positive) : digits2_pos p = Pos.size p.
Proof. induction p as [p IH | p IH |]; cbn; try rewrite IH; reflexivity. Qed.

Lemma digits2_log2 (p : positive) : Zpos (digits2_pos p) = Z.log2 (Zpos p) + 1.
Proof.
  rewrite digits2_pos_size.
  destruct p as [p | p |]; cbn; try reflexivity; lia.
Qed.

Lemma Zdigits2_log2 (m : Z) : 0 < m -> Zdigits2 m = Z.log2 m + 1.
Proof. destruct m as [| p | p]; try lia. intros _. apply digits2_log2. Qed.

Lemma fexp_eq (x : Z) : fexp prec emax x = Z.max (x - 53) (-1074).
Proof. reflexivity. Qed.

Lemma shr_1_m (mrs : shr_record) :
  0 <= shr_m mrs -> shr_m (shr_1 mrs) = Z.div2 (shr_m mrs).
Proof.
  destruct mrs as [m r s]. cbn [shr_m]. intros Hm.
  destruct m as [| [p | p |] | p]; try reflexivity. lia.
Qed.

Lemma iter_shr_1_m (p : positive) (mrs : shr_record) :
  0 <= shr_m mrs ->
  shr_m (iter_pos shr_1 p mrs) = Z.shiftr (shr_m mrs) (Zpos p).
Proof.
  revert mrs. induction p as [p IH | p IH |]; intros mrs Hm; cbn [iter_pos].
  - assert (H1 : 0 <= shr_m (shr_1 mrs)).
    { rewrite shr_1_m by exact Hm. apply Z.div2_nonneg. exact Hm. }
    assert (H2 : 0 <= shr_m (iter_pos shr_1 p (shr_1 mrs))).
    { rewrite IH by exact H1. apply Z.shiftr_nonneg. exact H1. }
    rewrite IH by exact H2. rewrite IH by exact H1.
    rewrite shr_1_m by exact Hm. rewrite Z.div2_spec.
    rewrite !Z.shiftr_shiftr by lia. f_equal. lia.
  - assert (H2 : 0 <= shr_m (iter_pos shr_1 p mrs)).
    { rewrite IH by exact Hm. apply Z.shiftr_nonneg. exact Hm. }
    rewrite IH by exact H2. rewrite IH by exact Hm.
    rewrite !Z.shiftr_shiftr by lia. f_equal. lia.
  - rewrite shr_1_m by exact Hm. apply Z.div2_spec.
Qed.

Lemma shr_record_of_loc_m (m : Z) (l : location) : shr_m (shr_record_of_loc m l) = m.
Proof. destruct l as [| []]; reflexivity. Qed.

(** The truncation step: the mantissa is shifted right by the excess
    over the target exponent. *)
Lemma shr_fexp_spec (m e : Z) (l : location) :
  0 <= m ->
  let n := Z.max (fexp prec emax (Zdigits2 m + e) - e) 0 in
  shr_m (fst (shr_fexp prec emax m e l)) = Z.shiftr m n
  /\ snd (shr_fexp prec emax m e l) = e + n.
Proof.
  intros Hm n. subst n. unfold shr_fexp, shr.
  destruct (fexp prec emax (Zdigits2 m + e) - e) as [| p | p] eqn:E; cbn [fst snd].
  - rewrite shr_record_of_loc_m. cbn. split; [reflexivity | lia].
  - rewrite iter_shr_1_m by (rewrite shr_record_of_loc_m; exact Hm).
    rewrite shr_record_of_loc_m.
    replace (Z.max (Z.pos p) 0) with (Z.pos p) by lia. split; reflexivity.
  - rewrite shr_record_of_loc_m.
    replace (Z.max (Z.neg p) 0) with 0 by lia. cbn. split; [reflexivity | lia].
Qed.

Lemma round_nearest_even_cases (m : Z) (l : location) :
  round_nearest_even m l = m \/ round_nearest_even m l = m + 1.
Proof.
  destruct l as [| []]; cbn; auto. destruct (Z.even m); auto.
Qed.

Lemma shiftr_pos_log2 (m n : Z) :
  0 < m -> 0 <= n -> n <= Z.log2 m ->
  0 < Z.shiftr m n /\ Z.log2 (Z.shiftr m n) = Z.log2 m - n.
Proof.
  intros Hm Hn Hle. split.
  - assert (H0 : 0 <= Z.shiftr m n) by (apply Z.shiftr_nonneg; lia).
    assert (Hne : Z.shiftr m n <> 0).
    { intros H. apply Z.shiftr_eq_0_iff in H. lia. }
    lia.
  - rewrite Z.log2_shiftr by exact Hm. lia.
Qed.

Lemma shiftr_zero_log2 (m n : Z) :
  0 < m -> Z.log2 m < n -> Z.shiftr m n = 0.
Proof. intros Hm Hlt. apply Z.shiftr_eq_0; lia. Qed.

Lemma mag_log2 (m : positive) (e : Z) : mag m e = Z.log2 (Zpos m) + 1 + e.
Proof. unfold mag. rewrite digits2_log2. reflexivity. Qed.

Lemma binary_round_aux_spec (sx : bool) (mx ex : Z) (lx : location) :
  0 < mx ->
  let M := Z.log2 mx + 1 + ex in
  match binary_round_aux prec emax sx mx ex lx with
  | S754_zero s => s = sx /\ M <= -1074
  | S754_finite s m e =>
      s = sx /\ mag m e <= Z.max M (-1074) + 1 /\ (-1074 < M -> M <= mag m e)
  | S754_infinity s => s = sx /\ 971 < M
  | S754_nan => False
  end.
Proof.
  intros Hmx M. unfold binary_round_aux.
  destruct (shr_fexp_spec mx ex lx) as [Hm1 He1]; [lia |].
  destruct (shr_fexp prec emax mx ex lx) as [mrs1 e1]. cbn [fst snd] in Hm1, He1.
  rewrite Zdigits2_log2, fexp_eq in Hm1, He1 by exact Hmx.
  fold M in Hm1, He1.
  set (n1 := Z.max (Z.max (M - 53) (-1074) - ex) 0) in *.
  set (m1 := shr_m mrs1) in *.
  assert (Hlog := Z.log2_nonneg mx).
  assert (Hm1cases :
            (0 < m1 /\ Z.log2 m1 + e1 = Z.log2 mx + ex)
            \/ (m1 = 0 /\ M <= -1074 /\ e1 = -1074)).
  { destruct (Z_le_gt_dec n1 (Z.log2 mx)) as [Hle | Hgt].
    - left. destruct (shiftr_pos_log2 mx n1) as [Hp Hl]; [lia | unfold n1; lia | lia |].
      rewrite Hm1. split; [exact Hp | lia].
    - right. rewrite Hm1. split; [apply shiftr_zero_log2; lia |]. lia. }
  assert (He1min : -1074 <= e1) by lia.
  set (m2 := round_nearest_even m1 (loc_of_shr_record mrs1)).
  assert (Hm2 : m2 = m1 \/ m2 = m1 + 1) by apply round_nearest_even_cases.
  assert (Hm2nn : 0 <= m2) by lia.
  destruct (shr_fexp_spec m2 e1 loc_Exact Hm2nn) as [Hm3 He3].
  destruct (shr_fexp prec emax m2 e1 loc_Exact) as [mrs3 e3]. cbn [fst snd] in Hm3, He3.
  rewrite fexp_eq in Hm3, He3.
  destruct (Z.eq_dec m2 0) as [Hz | Hnz].
  - rewrite Hz in Hm3. rewrite Z.shiftr_0_l in Hm3. rewrite Hm3.
    split; [reflexivity | lia].
  - assert (Hm2pos : 0 < m2) by lia.
    rewrite Zdigits2_log2 in Hm3, He3 by exact Hm2pos.
    assert (Hlog2 := Z.log2_nonneg m2).
    set (n3 := Z.max (Z.max (Z.log2 m2 + 1 + e1 - 53) (-1074) - e1) 0) in *.
    assert (Hn3 : 0 <= n3 <= Z.log2 m2) by (unfold n3; lia).
    destruct (shiftr_pos_log2 m2 n3) as [Hp3 Hl3]; [lia | lia | lia |].
    rewrite <- Hm3 in Hp3, Hl3.
    assert (Hmag2 : Z.log2 m2 + 1 + e1 <= Z.max M (-1074) + 1
                    /\ (-1074 < M -> M <= Z.log2 m2 + 1 + e1)).
    { destruct Hm1cases as [[Hp Hl] | (H0 & HM & He)].
      - assert (Z.log2 m1 <= Z.log2 m2) by (apply Z.log2_le_mono; lia).
        assert (Z.log2 m2 <= Z.log2 m1 + 1).
        { destruct Hm2 as [-> | ->]; [lia |].
          apply (Z.log2_succ_le m1). }
        unfold M. lia.
      - assert (H21 : m2 = 1) by lia.
        assert (Hl21 : Z.log2 m2 = 0) by (rewrite H21; reflexivity).
        lia. }
    destruct (shr_m mrs3) as [| p | p] eqn:E3; [lia | | lia].
    destruct (Z.leb_spec e3 (emax - prec)) as [Hle | Hgt].
    + rewrite mag_log2. split; [reflexivity |]. lia.
    + split; [reflexivity |].
      assert (Hl := Z.log2_nonneg (Z.pos p)).
      change (emax - prec) with 971 in Hgt. lia.
Qed.

Lemma iter_xO_spec (m d : positive) :
  Zpos (Pos.iter xO m d) = Zpos m * 2 ^ Zpos d.
Proof.
  induction d as [| d IH] using Pos.peano_ind.
  - cbn. lia.
  - rewrite Pos.iter_succ, Pos2Z.inj_xO, IH, Pos2Z.inj_succ.
    rewrite Z.pow_succ_r by lia. lia.
Qed.

Lemma shl_align_spec (mx : positive) (ex ex' : Z) :
  Z.log2 (Zpos (fst (shl_align mx ex ex'))) + snd (shl_align mx ex ex')
  = Z.log2 (Zpos mx) + ex
  /\ (ex' <= ex -> snd (shl_align mx ex ex') = ex').
Proof.
  unfold shl_align. destruct (ex' - ex) as [| d | d] eqn:E; cbn [fst snd].
  - split; [reflexivity | lia].
  - split; [reflexivity | lia].
  - split; [| reflexivity].
    rewrite iter_xO_spec, Z.log2_mul_pow2 by lia. lia.
Qed.

Lemma binary_round_spec (sx : bool) (mx : positive) (ex : Z) :
  let M := mag mx ex in
  match binary_round prec emax sx mx ex with
  | S754_zero s => s = sx /\ M <= -1074
  | S754_finite s m e =>
      s = sx /\ mag m e <= Z.max M (-1074) + 1 /\ (-1074 < M -> M <= mag m e)
  | S754_infinity s => s = sx /\ 971 < M
  | S754_nan => False
  end.
Proof.
  intros M. unfold binary_round.
  destruct (shl_align_spec mx ex (fexp prec emax (Z.pos (digits2_pos mx) + ex)))
    as [Hl _].
  destruct (shl_align mx ex _) as [mz ez]. cbn [fst snd] in Hl.
  assert (HM : M = Z.log2 (Z.pos mz) + 1 + ez).
  { unfold M. rewrite mag_log2. lia. }
  rewrite HM. apply binary_round_aux_spec. lia.
Qed.

(** Adding a large positive number to a non-negative one. *)
Lemma SFadd_nonneg_big (k : Z) (x y : spec_float) :
  -1074 < k -> nonneg x -> posBig k y -> posBig k (SFadd prec emax x y).
Proof.
  intros Hk Hx Hy.
  destruct x as [[] | [] | | [] mx ex]; try contradiction;
    destruct y as [[] | [] | | [] my ey]; try contradiction; cbn [SFadd]; try exact Hy;
    try exact I.
  cbn [posBig] in Hy. cbn [cond_Zopp].
  destruct (shl_align_spec mx ex (Z.min ex ey)) as [Hlx Hsx].
  destruct (shl_align_spec my ey (Z.min ex ey)) as [Hly Hsy].
  destruct (shl_align mx ex (Z.min ex ey)) as [mx' ex'].
  destruct (shl_align my ey (Z.min ex ey)) as [my' ey'].
  cbn [fst snd] in *.
  specialize (Hsx ltac:(lia)). specialize (Hsy ltac:(lia)).
  change (Z.pos mx' + Z.pos my') with (Z.pos (mx' + my')).
  cbn [binary_normalize].
  assert (Hspec := binary_round_spec false (mx' + my') (Z.min ex ey)).
  cbv zeta in Hspec.
  assert (Hmag : k <= mag (mx' + my') (Z.min ex ey)).
  { rewrite mag_log2. rewrite mag_log2 in Hy.
    assert (Z.log2 (Z.pos my') <= Z.log2 (Z.pos (mx' + my')))
      by (apply Z.log2_le_mono; lia).
    lia. }
  destruct (binary_round prec emax false (mx' + my') (Z.min ex ey)) as [s | s | | s m e];
    cbn [posBig].
  - lia.
  - destruct Hspec as [-> _]. exact I.
  - exact Hspec.
  - destruct Hspec as (-> & _ & Hlow). lia.
Qed.

Lemma SFadd_nonneg (x y : spec_float) :
  nonneg x -> nonneg y ->
  SFadd prec emax x y = S754_nan \/ nonneg (SFadd prec emax x y).
Proof.
  intros Hx Hy. right.
  destruct x as [[] | [] | | [] mx ex]; try contradiction;
    destruct y as [[] | [] | | [] my ey]; try contradiction; cbn [SFadd]; try exact I.
  cbn [cond_Zopp].
  change (Z.pos (fst (shl_align mx ex (Z.min ex ey)))
          + Z.pos (fst (shl_align my ey (Z.min ex ey))))
    with (Z.pos (fst (shl_align mx ex (Z.min ex ey))
                 + fst (shl_align my ey (Z.min ex ey)))).
  cbn [binary_normalize].
  match goal with
  | |- nonneg (binary_round _ _ _ ?m ?e) =>
      assert (Hspec := binary_round_spec false m e);
      destruct (binary_round prec emax false m e) as [s | s | | s m' e']
  end; cbv zeta in Hspec; cbn [nonneg].
  - destruct Hspec as [-> _]. exact I.
  - destruct Hspec as [-> _]. exact I.
  - exact Hspec.
  - destruct Hspec as (-> & _). exact I.
Qed.

(** The square of a number: never negative, and large when the number is. *)
Lemma SFmul_square_nonneg (x : spec_float) :
  SFmul prec emax x x = S754_nan \/ nonneg (SFmul prec emax x x).
Proof.
  destruct x as [s | s | | s m e]; cbn [SFmul].
  - right. destruct s; exact I.
  - right. destruct s; exact I.
  - left. reflexivity.
  - right.
    assert (Hspec := binary_round_aux_spec (xorb s s) (Z.pos (m * m)) (e + e) loc_Exact
                       ltac:(lia)).
    cbv zeta in Hspec. rewrite xorb_nilpotent in *.
    destruct (binary_round_aux prec emax false (Z.pos (m * m)) (e + e) loc_Exact)
      as [s' | s' | | s' m' e']; cbn [nonneg].
    + destruct Hspec as [-> _]. exact I.
    + destruct Hspec as [-> _]. exact I.
    + exact Hspec.
    + destruct Hspec as (-> & _). exact I.
Qed.

Lemma SFmul_square_big (k : Z) (x : spec_float) :
  -1074 < 2 * k - 1 -> absBig k x -> posBig (2 * k - 1) (SFmul prec emax x x).
Proof.
  intros Hk Hx.
  destruct x as [s | s | | s m e]; cbn [absBig] in Hx; try contradiction; cbn [SFmul].
  - rewrite xorb_nilpotent. exact I.
  - assert (Hspec := binary_round_aux_spec (xorb s s) (Z.pos (m * m)) (e + e) loc_Exact
                       ltac:(lia)).
    cbv zeta in Hspec. rewrite xorb_nilpotent in *.
    rewrite mag_log2 in Hx.
    assert (Hlog : Z.log2 (Z.pos m) + Z.log2 (Z.pos m) <= Z.log2 (Z.pos (m * m))).
    { rewrite Pos2Z.inj_mul. apply Z.log2_mul_below; lia. }
    destruct (binary_round_aux prec emax false (Z.pos (m * m)) (e + e) loc_Exact)
      as [s' | s' | | s' m' e']; cbn [posBig].
    + lia.
    + destruct Hspec as [-> _]. exact I.
    + exact Hspec.
    + destruct Hspec as (-> & _ & Hlow). lia.
Qed.

(** A product with a factor below 2 in magnitude is large only when the
    other factor is. *)
Lemma SFmul_big_factor (k : Z) (x c : spec_float) (s : bool) (mc : positive) (ec : Z) :
  c = S754_finite s mc ec -> mag mc ec <= 1 -> -1073 < k <= 970 ->
  absBig k (SFmul prec emax x c) -> absBig (k - 2) x.
Proof.
  intros -> Hc Hk Hbig.
  destruct x as [sx | sx | | sx m e]; cbn [SFmul] in Hbig; cbn [absBig] in *;
    try contradiction; try exact I.
  assert (Hspec := binary_round_aux_spec (xorb sx s) (Z.pos (m * mc)) (e + ec) loc_Exact
                     ltac:(lia)).
  cbv zeta in Hspec.
  rewrite mag_log2 in Hc |- *.
  assert (Hlog : Z.log2 (Z.pos (m * mc)) <= Z.log2 (Z.pos m) + Z.log2 (Z.pos mc) + 1).
  { rewrite Pos2Z.inj_mul. apply Z.log2_mul_above; lia. }
  destruct (binary_round_aux prec emax (xorb sx s) (Z.pos (m * mc)) (e + ec) loc_Exact)
    as [s' | s' | | s' m' e']; cbn [absBig] in Hbig.
  - contradiction.
  - destruct Hspec as [_ Hspec].
    revert Hspec Hlog Hc. generalize (Z.log2 (Z.pos (m * mc))), (Z.log2 (Z.pos m)),
      (Z.log2 (Z.pos mc)). lia.
  - contradiction.
  - destruct Hspec as (_ & Hup & _).
    revert Hup Hlog Hc Hbig. rewrite mag_log2.
    generalize (Z.log2 (Z.pos (m * mc))), (Z.log2 (Z.pos m)),
      (Z.log2 (Z.pos mc)), (Z.log2 (Z.pos m')). lia.
Qed.

Lemma SFdiv_core_binary_spec (mx : positive) (ex : Z) (my : positive) (ey : Z) :
  -1073 <= mag mx ex - mag my ey ->
  let '(q, e', _) := SFdiv_core_binary prec emax (Z.pos mx) ex (Z.pos my) ey in
  0 < q /\ mag mx ex - mag my ey <= Z.log2 q + 1 + e'.
Proof.
  intros Hk. unfold SFdiv_core_binary.
  rewrite !Zdigits2_log2 by lia. rewrite fexp_eq.
  rewrite !mag_log2 in Hk. rewrite !mag_log2.
  set (lx := Z.log2 (Z.pos mx)) in *. set (ly := Z.log2 (Z.pos my)) in *.
  assert (Hlx : 0 <= lx) by apply Z.log2_nonneg.
  assert (Hly : 0 <= ly) by apply Z.log2_nonneg.
  set (e' := Z.min (Z.max (lx + 1 + ex - (ly + 1 + ey) - 53) (-1074)) (ex - ey)).
  set (s := ex - ey - e').
  assert (Hs : 0 <= s) by (unfold s, e'; lia).
  set (m' := match s with
             | 0 => Z.pos mx
             | Z.pos _ => Z.shiftl (Z.pos mx) s
             | Z.neg _ => 0
             end).
  assert (Hm' : m' = Z.shiftl (Z.pos mx) s).
  { unfold m'. destruct s; [reflexivity | reflexivity | lia]. }
  assert (Hm'pos : 0 < m').
  { rewrite Hm', Z.shiftl_mul_pow2 by exact Hs.
    apply Z.mul_pos_pos; [lia | apply Z.pow_pos_nonneg; lia]. }
  assert (Hlm' : Z.log2 m' = lx + s).
  { rewrite Hm'. apply Z.log2_shiftl; lia. }
  assert (Hge : ly + 1 <= Z.log2 m') by (rewrite Hlm'; unfold s, e'; lia).
  destruct (Z.div_eucl m' (Z.pos my)) as [q r] eqn:Ediv.
  assert (Hq : q = m' / Z.pos my) by (unfold Z.div; rewrite Ediv; reflexivity).
  assert (Hmy : Z.pos my <= 2 ^ (ly + 1)).
  { destruct (Z.log2_spec (Z.pos my)) as [_ Hlt]; [lia |]. fold ly in Hlt.
    unfold Z.succ in Hlt. lia. }
  assert (Hqge : Z.shiftr m' (ly + 1) <= q).
  { rewrite Z.shiftr_div_pow2 by lia. rewrite Hq.
    apply Z.div_le_compat_l; lia. }
  destruct (shiftr_pos_log2 m' (ly + 1)) as [Hp Hl]; [lia | lia | lia |].
  assert (Hlq : Z.log2 (Z.shiftr m' (ly + 1)) <= Z.log2 q)
    by (apply Z.log2_le_mono; exact Hqge).
  split; [lia |]. unfold s in *. lia.
Qed.

(** Dividing a large positive number by a small positive one. *)
Lemma SFdiv_big (k j : Z) (x : spec_float) (my : positive) (ey : Z) :
  -1073 <= k - j -> posBig k x -> mag my ey <= j ->
  posBig (k - j) (SFdiv prec emax x (S754_finite false my ey)).
Proof.
  intros Hk Hx Hy.
  destruct x as [[] | [] | | [] mx ex]; cbn [posBig] in Hx; try contradiction;
    cbn [SFdiv xorb]; [exact I |].
  assert (Hcore := SFdiv_core_binary_spec mx ex my ey ltac:(lia)).
  destruct (SFdiv_core_binary prec emax (Z.pos mx) ex (Z.pos my) ey) as [[q e'] l].
  destruct Hcore as [Hq HM].
  assert (Hspec := binary_round_aux_spec false q e' l Hq). cbv zeta in Hspec.
  destruct (binary_round_aux prec emax false q e' l) as [s | s | | s m e]; cbn [posBig].
  - lia.
  - destruct Hspec as [-> _]. exact I.
  - exact Hspec.
  - destruct Hspec as (-> & _ & Hlow). lia.
Qed.

Lemma SFsqrt_core_binary_spec (mx : positive) (ex : Z) :
  let '(q, e', _) := SFsqrt_core_binary prec emax (Z.pos mx) ex in
  0 < q /\ mag mx ex <= 2 * (Z.log2 q + 1 + e').
Proof.
  unfold SFsqrt_core_binary.
  rewrite Zdigits2_log2 by lia. rewrite fexp_eq. rewrite mag_log2.
  set (lx := Z.log2 (Z.pos mx)).
  assert (Hlx : 0 <= lx) by apply Z.log2_nonneg.
  rewrite !Z.div2_div.
  set (e' := Z.min (Z.max ((lx + 1 + ex + 1) / 2 - 53) (-1074)) (ex / 2)).
  set (s := ex - 2 * e').
  assert (Hex : 2 * (ex / 2) <= ex) by (apply Z.mul_div_le; lia).
  assert (Hs : 0 <= s) by (unfold s, e'; lia).
  set (m' := match s with
             | 0 => Z.pos mx
             | Z.pos _ => Z.shiftl (Z.pos mx) s
             | Z.neg _ => 0
             end).
  assert (Hm' : m' = Z.shiftl (Z.pos mx) s).
  { unfold m'. destruct s; [reflexivity | reflexivity | lia]. }
  assert (Hm'pos : 0 < m').
  { rewrite Hm', Z.shiftl_mul_pow2 by exact Hs.
    apply Z.mul_pos_pos; [lia | apply Z.pow_pos_nonneg; lia]. }
  assert (Hlm' : Z.log2 m' = lx + s).
  { rewrite Hm'. apply Z.log2_shiftl; lia. }
  destruct (Z.sqrtrem m') as [q r] eqn:Esqrt.
  assert (Hq : q = Z.sqrt m') by (rewrite <- Z.sqrtrem_sqrt, Esqrt; reflexivity).
  set (j := (lx + s) / 2).
  assert (Hj : 0 <= j) by (apply Z.div_pos; lia).
  assert (Hj2 : 2 * j <= lx + s) by (apply Z.mul_div_le; lia).
  assert (Hj3 : lx + s < 2 * j + 2).
  { assert (H := Z.mod_pos_bound (lx + s) 2 ltac:(lia)).
    assert (H' := Z.div_mod (lx + s) 2 ltac:(lia)). fold j in H'. lia. }
  assert (Hpow : 2 ^ j * 2 ^ j <= m').
  { rewrite <- Z.pow_add_r by lia.
    destruct (Z.log2_spec m' Hm'pos) as [Hlow _].
    rewrite Hlm' in Hlow.
    assert (2 ^ (j + j) <= 2 ^ (lx + s)) by (apply Z.pow_le_mono_r; lia).
    lia. }
  assert (Hpj : 0 < 2 ^ j) by (apply Z.pow_pos_nonneg; lia).
  assert (Hle : 2 ^ j <= q).
  { rewrite Hq. apply Z.sqrt_le_square; lia. }
  assert (Hlq : j <= Z.log2 q).
  { apply Z.log2_le_pow2; lia. }
  split; [lia |]. unfold s in *. lia.
Qed.

(** The square root of a large positive number. *)
Lemma SFsqrt_big (k k' : Z) (x : spec_float) :
  -1074 < k' -> 2 * k' - 1 <= k -> posBig k x -> posBig k' (SFsqrt prec emax x).
Proof.
  intros Hk' Hk Hx.
  destruct x as [[] | [] | | [] mx ex]; cbn [posBig] in Hx; try contradiction;
    cbn [SFsqrt]; [exact I |].
  assert (Hcore := SFsqrt_core_binary_spec mx ex).
  destruct (SFsqrt_core_binary prec emax (Z.pos mx) ex) as [[q e'] l].
  destruct Hcore as [Hq HM].
  assert (Hspec := binary_round_aux_spec false q e' l Hq). cbv zeta in Hspec.
  destruct (binary_round_aux prec emax false q e' l) as [s | s | | s m e]; cbn [posBig].
  - lia.
  - destruct Hspec as [-> _]. exact I.
  - exact Hspec.
  - destruct Hspec as (-> & _ & Hlow). lia.
Qed.

Lemma valid_finite_canonical (s : bool) (m : positive) (e : Z) :
  valid_binary (S754_finite s m e) = true -> e = Z.max (mag m e - 53) (-1074).
Proof.
  cbn [SpecFloat.valid_binary]. unfold bounded, canonical_mantissa.
  rewrite fexp_eq. intros H. apply andb_true_iff in H. destruct H as [H _].
  apply Z.eqb_eq in H. unfold mag. lia.
Qed.

Lemma absBig_weaken (k k' : Z) (x : spec_float) : k' <= k -> absBig k x -> absBig k' x.
Proof. intros Hk. destruct x as [| | | s m e]; cbn; try tauto. lia. Qed.

Lemma posBig_absBig (k : Z) (x : spec_float) : posBig k x -> absBig k x.
Proof. destruct x as [[] | [] | | [] m e]; cbn; tauto. Qed.

(** A number above 0.5 or below -0.5 has magnitude at least 2^-1. *)
Lemma gt_half_big (x : float) : PrimFloat.ltb 0.5 x = true -> absBig 0 (Prim2SF x).
Proof.
  rewrite FloatAxioms.ltb_spec.
  change (Prim2SF 0.5) with (S754_finite false 4503599627370496 (-53)).
  assert (Hv := Prim2SF_valid x).
  destruct (Prim2SF x) as [s | s | | s m e]; unfold SFltb; cbn [SFcompare absBig].
  - destruct s; discriminate.
  - intros _. exact I.
  - discriminate.
  - apply valid_finite_canonical in Hv.
    destruct s; [discriminate |].
    destruct (Z.compare_spec (-53) e) as [He | He | He]; try discriminate; intros _; lia.
Qed.

Lemma lt_neg_half_big (x : float) : PrimFloat.ltb x (-0.5) = true -> absBig 0 (Prim2SF x).
Proof.
  rewrite FloatAxioms.ltb_spec.
  change (Prim2SF (-0.5)) with (S754_finite true 4503599627370496 (-53)).
  assert (Hv := Prim2SF_valid x).
  destruct (Prim2SF x) as [s | s | | s m e]; unfold SFltb; cbn [SFcompare absBig].
  - discriminate.
  - intros _. exact I.
  - discriminate.
  - apply valid_finite_canonical in Hv.
    destruct s; [| discriminate].
    destruct (Z.compare_spec e (-53)) as [He | He | He]; try discriminate; intros _; lia.
Qed.

(** A positive number of magnitude at least 2^-5 is not below 0.02. *)
Lemma big_not_lt_threshold (v : float) :
  posBig (-4) (Prim2SF v) -> PrimFloat.ltb v 0.02 = false.
Proof.
  rewrite FloatAxioms.ltb_spec.
  change (Prim2SF 0.02) with (S754_finite false 5764607523034235 (-58)).
  assert (Hv := Prim2SF_valid v).
  destruct (Prim2SF v) as [[] | [] | | [] m e]; cbn [posBig]; try contradiction;
    unfold SFltb; cbn [SFcompare]; intros Hbig; [reflexivity |].
  apply valid_finite_canonical in Hv.
  destruct (Z.compare_spec e (-58)) as [He | He | He]; try reflexivity; lia.
Qed.

Lemma nan_not_lt (v c : float) : Prim2SF v = S754_nan -> PrimFloat.ltb v c = false.
Proof. intros H. rewrite FloatAxioms.ltb_spec, H. reflexivity. Qed.

(** *** The order of binary64 numbers *)

Lemma SFltb_irrefl (x : spec_float) : SFltb x x = false.
Proof.
  unfold SFltb.
  destruct x as [[] | [] | | [] m e]; cbn [SFcompare]; try reflexivity;
    rewrite Z.compare_refl, Pos.compare_cont_refl; reflexivity.
Qed.

Lemma SFltb_finite_pos (m1 m2 : positive) (e1 e2 : Z) :
  SFltb (S754_finite false m1 e1) (S754_finite false m2 e2) = true
  <-> (e1 < e2 \/ (e1 = e2 /\ (m1 < m2)%positive)).
Proof.
  unfold SFltb; cbn [SFcompare].
  change (Pos.compare_cont Eq m1 m2) with (Pos.compare m1 m2).
  destruct (Z.compare_spec e1 e2); destruct (Pos.compare_spec m1 m2);
    split; intros H'; try discriminate; try reflexivity; lia.
Qed.

Lemma SFltb_finite_neg (m1 m2 : positive) (e1 e2 : Z) :
  SFltb (S754_finite true m1 e1) (S754_finite true m2 e2) = true
  <-> (e2 < e1 \/ (e1 = e2 /\ (m2 < m1)%positive)).
Proof.
  unfold SFltb; cbn [SFcompare].
  change (Pos.compare_cont Eq m1 m2) with (Pos.compare m1 m2).
  destruct (Z.compare_spec e1 e2); destruct (Pos.compare_spec m1 m2);
    cbn [CompOpp]; split; intros H'; try discriminate; try reflexivity; lia.
Qed.

Lemma SFltb_trans (x y z : spec_float) :
  SFltb x y = true -> SFltb y z = true -> SFltb x z = true.
Proof.
  destruct x as [[] | [] | | [] m1 e1]; destruct y as [[] | [] | | [] m2 e2];
    try (unfold SFltb; cbn [SFcompare]; discriminate);
    destruct z as [[] | [] | | [] m3 e3];
    try (unfold SFltb; cbn [SFcompare]; intros; congruence).
  - rewrite !SFltb_finite_neg. lia.
  - rewrite !SFltb_finite_pos. lia.
Qed.




Lemma SFleb_SFltb_trans (x y z : spec_float) :
  SFleb x y = true -> SFltb y z = true -> SFltb x z = true.
Proof.
  destruct x as [[] | [] | | [] m1 e1]; destruct y as [[] | [] | | [] m2 e2];
    try (unfold SFleb; cbn [SFcompare]; discriminate);
    destruct z as [[] | [] | | [] m3 e3];
    try (unfold SFltb, SFleb; cbn [SFcompare]; intros; congruence).
  - rewrite !SFltb_finite_neg. unfold SFleb; cbn [SFcompare].
    change (Pos.compare_cont Eq m1 m2) with (Pos.compare m1 m2).
    destruct (Z.compare_spec e1 e2); destruct (Pos.compare_spec m1 m2);
      cbn [CompOpp]; intros H'; try discriminate; lia.
  - rewrite !SFltb_finite_pos. unfold SFleb; cbn [SFcompare].
    change (Pos.compare_cont Eq m1 m2) with (Pos.compare m1 m2).
    destruct (Z.compare_spec e1 e2); destruct (Pos.compare_spec m1 m2);
      intros H'; try discriminate; lia.
Qed.

End Rounding.

(** ** The order of numbers, [Math.max] and [Math.min] *)

Section NumberOrder.

Import Rounding.

Lemma lt_irrefl (x : float) : lt x x = false.
Proof. unfold lt. rewrite FloatAxioms.ltb_spec. apply SFltb_irrefl. Qed.

Lemma lt_trans (x y z : float) : lt x y = true -> lt y z = true -> lt x z = true.
Proof. unfold lt. rewrite !FloatAxioms.ltb_spec. apply SFltb_trans. Qed.

Lemma is_nan_spec (x : float) : is_nan x = true <-> Prim2SF x = S754_nan.
Proof.
  unfold is_nan. rewrite FloatAxioms.eqb_spec. unfold SFeqb.
  destruct (Prim2SF x) as [s | s | | s m e].
  - destruct s; cbn; split; discriminate.
  - destruct s; cbn; split; discriminate.
  - cbn. split; reflexivity.
  - destruct s; cbn [SFcompare];
      rewrite Z.compare_refl, Pos.compare_cont_refl; cbn; split; discriminate.
Qed.

Lemma is_nan_false_spec (x : float) : is_nan x = false <-> Prim2SF x <> S754_nan.
Proof.
  rewrite <- is_nan_spec. destruct (is_nan x); split; congruence.
Qed.

Lemma nan_lt_l (y : float) : lt nan y = false.
Proof. unfold lt. rewrite FloatAxioms.ltb_spec. reflexivity. Qed.

Lemma nan_lt_r (x : float) : lt x nan = false.
Proof.
  unfold lt. rewrite FloatAxioms.ltb_spec.
  change (Prim2SF nan) with S754_nan.
  destruct (Prim2SF x) as [[] | [] | | [] m e]; reflexivity.
Qed.

Lemma strictEq_nan_r (x : float) : strictEq x nan = false.
Proof.
  unfold strictEq. rewrite FloatAxioms.eqb_spec.
  change (Prim2SF nan) with S754_nan.
  destruct (Prim2SF x) as [[] | [] | | [] m e]; reflexivity.
Qed.

Lemma strictEq_true_not_nan (x y : float) : strictEq x y = true -> is_nan x = false.
Proof.
  unfold strictEq. rewrite FloatAxioms.eqb_spec. intros H.
  apply is_nan_false_spec. intros Hn. rewrite Hn in H. discriminate.
Qed.





(** The two zeros compare alike with every number. *)
Lemma zeros_compare_alike (x h y : float) :
  isPosZero x = true -> isNegZero h = true ->
  lt x y = lt h y /\ lt y x = lt y h.
Proof.
  unfold isPosZero, isNegZero, lt.
  rewrite !FloatAxioms.classify_spec, !FloatAxioms.ltb_spec.
  unfold SF64classify, SFclassify.
  destruct (Prim2SF x) as [[] | [] | | [] mx ex]; try discriminate;
    try (destruct (Z.pos (digits2_pos mx) =? prec)%Z; discriminate).
  destruct (Prim2SF h) as [[] | [] | | [] mh eh]; try discriminate;
    try (destruct (Z.pos (digits2_pos mh) =? prec)%Z; discriminate).
  intros _ _. destruct (Prim2SF y) as [[] | [] | | [] my ey]; split; reflexivity.
Qed.

(** [Math.max] is below none of its arguments. *)
Lemma maxLoop_not_below (xs seen : list float) (highest : float) :
  (forall y, In y seen -> lt highest y = false) ->
  forall y, In y (seen ++ xs) -> lt (maxLoop highest xs) y = false.
Proof.
  revert seen highest. induction xs as [| x xs IH]; intros seen highest Hseen y Hy.
  - rewrite app_nil_r in Hy. apply Hseen. exact Hy.
  - cbn [maxLoop]. destruct (is_nan x) eqn:Hnan; [apply nan_lt_l |].
    change (seen ++ x :: xs) with (seen ++ [x] ++ xs) in Hy.
    rewrite app_assoc in Hy.
    apply (IH (seen ++ [x])); [| exact Hy].
    clear y Hy. intros y Hy.
    set (h1 := if isPosZero x && isNegZero highest then x else highest).
    assert (Hh1 : forall z, lt h1 z = lt highest z).
    { intros z. unfold h1.
      destruct (isPosZero x) eqn:Hp; [| reflexivity].
      destruct (isNegZero highest) eqn:Hz; [| reflexivity].
      apply (zeros_compare_alike x highest z Hp Hz). }
    change (gt x h1) with (lt h1 x).
    apply in_app_or in Hy. destruct Hy as [Hy | [<- | []]].
    + destruct (lt h1 x) eqn:Hlt.
      * destruct (lt x y) eqn:Hxy; [| reflexivity].
        rewrite <- (Hseen y Hy), <- Hh1. symmetry. apply (lt_trans h1 x y); assumption.
      * rewrite Hh1. apply Hseen. exact Hy.
    + destruct (lt h1 x) eqn:Hlt; [apply lt_irrefl | exact Hlt].
Qed.

Lemma Math_max_not_below (xs : list float) (y : float) :
  In y xs -> gt y (Math_max xs) = false.
Proof.
  intros Hy. unfold gt, Math_max.
  apply (maxLoop_not_below xs [] neg_infinity); [intros z [] | exact Hy].
Qed.

(** [Math.min] is above none of its arguments. *)
Lemma minLoop_not_above (xs seen : list float) (lowest : float) :
  (forall y, In y seen -> lt y lowest = false) ->
  forall y, In y (seen ++ xs) -> lt y (minLoop lowest xs) = false.
Proof.
  revert seen lowest. induction xs as [| x xs IH]; intros seen lowest Hseen y Hy.
  - rewrite app_nil_r in Hy. apply Hseen. exact Hy.
  - cbn [minLoop]. destruct (is_nan x) eqn:Hnan; [apply nan_lt_r |].
    change (seen ++ x :: xs) with (seen ++ [x] ++ xs) in Hy.
    rewrite app_assoc in Hy.
    apply (IH (seen ++ [x])); [| exact Hy].
    clear y Hy. intros y Hy.
    set (l1 := if isNegZero x && isPosZero lowest then x else lowest).
    assert (Hl1 : forall z, lt z l1 = lt z lowest).
    { intros z. unfold l1.
      destruct (isNegZero x) eqn:Hz; [| reflexivity].
      destruct (isPosZero lowest) eqn:Hp; [| reflexivity].
      symmetry. apply (zeros_compare_alike lowest x z Hp Hz). }
    apply in_app_or in Hy. destruct Hy as [Hy | [<- | []]].
    + destruct (lt x l1) eqn:Hlt.
      * destruct (lt y x) eqn:Hyx; [| reflexivity].
        rewrite <- (Hseen y Hy), <- Hl1. symmetry. apply (lt_trans y x l1); assumption.
      * rewrite Hl1. apply Hseen. exact Hy.
    + destruct (lt x l1) eqn:Hlt; [apply lt_irrefl | exact Hlt].
Qed.

Lemma Math_min_not_above (xs : list float) (y : float) :
  In y xs -> lt y (Math_min xs) = false.
Proof.
  intros Hy. unfold Math_min.
  apply (minLoop_not_above xs [] infinity); [intros z [] | exact Hy].
Qed.

(** A NaN argument makes [Math.min] and [Math.max] NaN. *)
Lemma minLoop_nan (xs : list float) (lowest : float) :
  (exists x, In x xs /\ is_nan x = true) -> minLoop lowest xs = nan.
Proof.
  revert lowest. induction xs as [| x xs IH]; intros lowest (z & Hin & Hz).
  - destruct Hin.
  - cbn [minLoop]. destruct (is_nan x) eqn:Hx; [reflexivity |].
    apply IH. exists z. split; [| exact Hz].
    destruct Hin as [-> | Hin]; [congruence | exact Hin].
Qed.

Lemma maxLoop_nan (xs : list float) (highest : float) :
  (exists x, In x xs /\ is_nan x = true) -> maxLoop highest xs = nan.
Proof.
  revert highest. induction xs as [| x xs IH]; intros highest (z & Hin & Hz).
  - destruct Hin.
  - cbn [maxLoop]. destruct (is_nan x) eqn:Hx; [reflexivity |].
    apply IH. exists z. split; [| exact Hz].
    destruct Hin as [-> | Hin]; [congruence | exact Hin].
Qed.

Lemma strictEq_refl (x : float) : is_nan x = false -> strictEq x x = true.
Proof.
  unfold is_nan, strictEq. destruct (PrimFloat.eqb x x); [reflexivity | discriminate].
Qed.

Lemma sub_nan_r (x : float) : x - nan = nan.
Proof.
  apply Prim2SF_inj. rewrite FloatAxioms.sub_spec.
  change (Prim2SF nan) with S754_nan.
  destruct (Prim2SF x) as [[] | [] | | [] m e]; reflexivity.
Qed.

(** [Math.min] and [Math.max] of one number are that number. *)
Lemma Math_min_singleton (p : float) :
  is_nan p = false -> strictEq p (Math_min [p]) = true.
Proof.
  intros Hp. unfold Math_min. cbn [minLoop]. rewrite Hp.
  change (isPosZero infinity) with false. rewrite andb_false_r.
  destruct (lt p infinity) eqn:Hlt; [apply strictEq_refl; exact Hp |].
  apply is_nan_false_spec in Hp. revert Hlt. unfold lt, strictEq.
  rewrite FloatAxioms.ltb_spec, FloatAxioms.eqb_spec.
  change (Prim2SF infinity) with (S754_infinity false).
  destruct (Prim2SF p) as [[] | [] | | [] m e]; try discriminate; try congruence;
    reflexivity.
Qed.

Lemma Math_max_singleton (p : float) :
  is_nan p = false -> strictEq p (Math_max [p]) = true.
Proof.
  intros Hp. unfold Math_max. cbn [maxLoop]. rewrite Hp.
  change (isNegZero neg_infinity) with false. rewrite andb_false_r.
  destruct (gt p neg_infinity) eqn:Hgt; [apply strictEq_refl; exact Hp |].
  apply is_nan_false_spec in Hp. revert Hgt. unfold gt, strictEq.
  rewrite FloatAxioms.ltb_spec, FloatAxioms.eqb_spec.
  change (Prim2SF neg_infinity) with (S754_infinity true).
  destruct (Prim2SF p) as [[] | [] | | [] m e]; try discriminate; try congruence;
    reflexivity.
Qed.

Lemma levelAfter_origin (extreme : float) (pr : option float) (levels : list float)
  (level : float) :
  In level (levelAfter extreme pr levels) ->
  In level levels \/ (pr = Some level /\ is_nan level = false).
Proof.
  intros Hin.
  destruct (levelAfter_cases extreme pr levels) as [Heq | (q & Hq & Heq & Hs & _)];
    rewrite Heq in Hin; [left; exact Hin |].
  apply in_app_or in Hin. destruct Hin as [Hin | [<- | []]]; [left; exact Hin |].
  right. split; [exact Hq | apply (strictEq_true_not_nan _ _ Hs)].
Qed.

End NumberOrder.

(** ** The classifier on a window that ends with the current price *)

Section QuietWindow.

Import Rounding.

Lemma lengthNum_small {A : Type} (l : list A) :
  (1 <= List.length l <= 10)%nat ->
  exists my ey,
    Prim2SF (lengthNum l) = S754_finite false my ey /\ (mag my ey <= 4)%Z.
Proof.
  intros Hlen. unfold lengthNum.
  destruct (List.length l) as [| n]; [lia |].
  do 10 (destruct n as [| n];
         [eexists; eexists; split; [vm_compute; reflexivity | vm_compute; discriminate] |]).
  lia.
Qed.

Lemma add_square_nanOrNonneg (acc d : float) :
  nanOrNonneg acc -> nanOrNonneg (acc + pow2 d).
Proof.
  unfold nanOrNonneg, pow2. intros Hacc.
  rewrite FloatAxioms.add_spec, FloatAxioms.mul_spec. unfold SF64add, SF64mul.
  destruct Hacc as [-> | Hacc]; [left; reflexivity |].
  destruct (SFmul_square_nonneg (Prim2SF d)) as [-> | Hsq].
  - left. destruct (Prim2SF acc) as [[] | [] | | [] m e]; reflexivity.
  - apply SFadd_nonneg; assumption.
Qed.

Lemma sum_squares_nanOrNonneg (mean : float) (l : list float) (acc : float) :
  nanOrNonneg acc ->
  nanOrNonneg (fold_left (fun acc price => acc + pow2 (price - mean)) l acc).
Proof.
  revert acc. induction l as [| x l IH]; intros acc Hacc; cbn [fold_left].
  - exact Hacc.
  - apply IH. apply add_square_nanOrNonneg. exact Hacc.
Qed.

Lemma sqrt_nan (x : float) : Prim2SF x = S754_nan -> Prim2SF (PrimFloat.sqrt x) = S754_nan.
Proof. intros H. rewrite FloatAxioms.sqrt_spec, H. reflexivity. Qed.

Lemma div_nan (x y : float) : Prim2SF x = S754_nan -> Prim2SF (x / y) = S754_nan.
Proof. intros H. rewrite FloatAxioms.div_spec, H. reflexivity. Qed.

Lemma add_nan (x y : float) : Prim2SF x = S754_nan -> Prim2SF (x + y) = S754_nan.
Proof. intros H. rewrite FloatAxioms.add_spec, H. reflexivity. Qed.

(** A deviation of magnitude at least 2^-3 at the end of a window of at
    most ten prices keeps the standard deviation at or above 0.02. *)
Lemma deviation_bounds_volatility (older : list float) (p mean : float) :
  (List.length (older ++ [p]) <= 10)%nat ->
  absBig (-2) (Prim2SF (p - mean)) ->
  lt (Math_sqrt
        (fold_left (fun acc price => acc + pow2 (price - mean)) (older ++ [p]) 0
         / lengthNum (older ++ [p]))) 0.02 = false.
Proof.
  intros Hlen Hdev. unfold lt, Math_sqrt.
  rewrite fold_left_app. cbn [fold_left].
  set (acc := fold_left (fun acc price => acc + pow2 (price - mean)) older 0).
  assert (Hacc : nanOrNonneg acc).
  { apply sum_squares_nanOrNonneg. right. exact I. }
  destruct Hacc as [Hnan | Hnn].
  - apply nan_not_lt. apply sqrt_nan, div_nan, add_nan. exact Hnan.
  - apply big_not_lt_threshold.
    destruct (lengthNum_small (older ++ [p])) as (my & ey & Hn & Hmag).
    { rewrite length_app in *. cbn in *. lia. }
    rewrite FloatAxioms.sqrt_spec, FloatAxioms.div_spec, FloatAxioms.add_spec, Hn. unfold pow2. rewrite FloatAxioms.mul_spec.
    apply (SFsqrt_big (-9)); [lia | lia |].
    change (-9)%Z with (-5 - 4)%Z.
    apply SFdiv_big; [lia | | exact Hmag].
    apply SFadd_nonneg_big; [lia | exact Hnn |].
    change (-5)%Z with (2 * -2 - 1)%Z.
    apply SFmul_square_big; [lia | exact Hdev].
Qed.

(** The trend strength, adjusted or not, is large only when the deviation
    of the price from the moving average is. *)
Lemma adjusted_big_deviation (ts adj : float) :
  adj = ts \/ adj = ts * 1.2 \/ adj = ts * (-1.2) ->
  absBig 0 (Prim2SF adj) -> absBig (-2) (Prim2SF ts).
Proof.
  intros [-> | [-> | ->]] Hbig.
  - apply (absBig_weaken 0); [lia | exact Hbig].
  - rewrite FloatAxioms.mul_spec in Hbig.
    apply (SFmul_big_factor 0 _ (Prim2SF 1.2) false 5404319552844595 (-52));
      [reflexivity | vm_compute; discriminate | lia | exact Hbig].
  - rewrite FloatAxioms.mul_spec in Hbig.
    apply (SFmul_big_factor 0 _ (Prim2SF (-1.2)) true 5404319552844595 (-52));
      [reflexivity | vm_compute; discriminate | lia | exact Hbig].
Qed.

(** On a window of at most ten prices that ends with the price, a standard
    deviation below 0.02 leaves the trend strength, adjusted or not, within
    -0.5 and 0.5. *)
Lemma quiet_window_small_trend (older : list float) (p adj : float) :
  let w := older ++ [p] in
  let mean := sum w / lengthNum w in
  let volatility :=
    Math_sqrt (fold_left (fun acc price => acc + pow2 (price - mean)) w 0
               / lengthNum w) in
  (List.length w <= 10)%nat ->
  adj = p - mean \/ adj = (p - mean) * 1.2 \/ adj = (p - mean) * (-1.2) ->
  lt volatility 0.02 = true ->
  gt adj 0.5 = false /\ lt adj (-0.5) = false.
Proof.
  intros w mean volatility Hlen Hadj Hvol.
  assert (Hsmall : ~ absBig 0 (Prim2SF adj)).
  { intros Hbig.
    assert (Hdev := adjusted_big_deviation _ _ Hadj Hbig).
    assert (H := deviation_bounds_volatility older p mean Hlen Hdev).
    fold w in H. fold volatility in H. congruence. }
  split.
  - destruct (gt adj 0.5) eqn:E; [| reflexivity].
    exfalso. apply Hsmall. apply gt_half_big. exact E.
  - destruct (lt adj (-0.5)) eqn:E; [| reflexivity].
    exfalso. apply Hsmall. apply lt_neg_half_big. exact E.
Qed.

End QuietWindow.

(** ** Properties of the cron-driven ticker *)

Module CronProperties.

Import CronTicker CronFacts.

Lemma lastN_map {A B : Type} (f : A -> B) (k : nat) (l : list A) :
  lastN k (map f l) = map f (lastN k l).
Proof. unfold lastN. rewrite length_map. apply skipn_map. Qed.

Lemma getPriceHistory_lastN (n : Z) (t : Ticker) :
  (1 <= n)%Z ->
  getPriceHistory n t =
  lastN (Nat.min (Z.to_nat n) (List.length (priceHistory t)))
    (map pe_price (priceHistory t)).
Proof.
  intros Hn. unfold getPriceHistory.
  rewrite slice_negative by exact Hn.
  rewrite lastN_map, lastN_min. reflexivity.
Qed.

(** C6 (as stated, at n = 0): after one accepted sample, [getPriceHistory(0)]
    is not the empty list of the last [min(0, length)] prices. *)
Lemma window_zero_returns_whole_history :
  let t := run [Sample 0 5] (newTicker "XAU" "USD") in
  getPriceHistory 0 t
  <> lastN (Nat.min (Z.to_nat 0) (List.length (priceHistory t)))
       (map pe_price (priceHistory t)).
Proof. vm_compute. discriminate. Qed.

(** C6 (amended): over every sequence of accepted samples (and refill bars)
    the price history holds at most 100 entries, namely the last 100 pushed
    in arrival order, and for every n >= 1 [getPriceHistory(n)] is the last
    [min(n, length)] prices, oldest first. *)
Theorem history_bounded_fifo_window
  (events : list Event) (symbol currency : string) (n : Z) :
  (1 <= n)%Z ->
  let t := run events (newTicker symbol currency) in
  (List.length (priceHistory t) <= 100)%nat
  /\ priceHistory t = lastN 100 (map entryOf events)
  /\ getPriceHistory n t =
     lastN (Nat.min (Z.to_nat n) (List.length (priceHistory t)))
       (map pe_price (priceHistory t)).
Proof.
  intros Hn t. subst t. repeat split.
  - rewrite run_priceHistory, lastN_length. lia.
  - apply run_priceHistory.
  - apply getPriceHistory_lastN. exact Hn.
Qed.

Lemma history_bounded_fifo_window_witness :
  (1 <= 2)%Z
  /\ (let t := run [Sample 0 5; Sample 60000 6; Sample 120000 7]
                 (newTicker "XAU" "USD") in
      (List.length (priceHistory t) <= 100)%nat
      /\ priceHistory t
         = lastN 100 (map entryOf [Sample 0 5; Sample 60000 6; Sample 120000 7])
      /\ getPriceHistory 2 t =
         lastN (Nat.min (Z.to_nat 2) (List.length (priceHistory t)))
           (map pe_price (priceHistory t))).
Proof.
  split; [lia |].
  apply (history_bounded_fifo_window
           [Sample 0 5; Sample 60000 6; Sample 120000 7] "XAU" "USD" 2).
  lia.
Defined.

(** C3: the daily extremes are never reset.  Every accepted sample only
    tightens them, and two samples one day apart (1 and 2 January 1970)
    leave the first day's low in place. *)
Theorem day_bounds_never_reset :
  (forall now p t,
      lowPriceOfTheDay (acceptSample now p t)
      = (if lt p (lowPriceOfTheDay t) then p else lowPriceOfTheDay t)
      /\ highPriceOfTheDay (acceptSample now p t)
         = (if gt p (highPriceOfTheDay t) then p else highPriceOfTheDay t))
  /\ (let t1 := acceptSample 0 5 (newTicker "XAU" "USD") in
      let t2 := acceptSample 86400000 7 t1 in
      getDate 0%Z = 1%Z /\ getDate 86400000%Z = 2%Z
      /\ lowPriceOfTheDay t2 = 5 /\ highPriceOfTheDay t2 = 7).
Proof.
  split.
  - intros now p t. split.
    + apply acceptSample_lowPriceOfTheDay.
    + apply acceptSample_highPriceOfTheDay.
  - vm_compute. repeat split; reflexivity.
Qed.

(** C2: after the sample 1, the sample 2 exceeds the maximum of the window
    that precedes it, yet the BOS step leaves the trend NEUTRAL: the window
    it inspects already holds the sample. *)
Theorem bos_window_includes_current_sample :
  let t1 := acceptSample 0 1 (newTicker "XAU" "USD") in
  let scored := storeScore (scoredState 60000 2 t1) in
  gt 2 (Math_max (getPriceHistory 10 t1)) = true
  /\ getPriceHistory 10 scored = [1; 2]
  /\ trendDirection t1 = TREND_NEUTRAL
  /\ trendDirection (detectBOS scored) = TREND_NEUTRAL
  /\ trendDirection (acceptSample 60000 2 t1) = TREND_NEUTRAL.
Proof. vm_compute. repeat split; reflexivity. Qed.

(** C5 (as stated): the classifier's output on the last sample of
    10,10,10,10,10,10,10,10,10,11 is not BUY. *)
Lemma flat_then_up_is_not_buy :
  calculateScore
    (feed [(0%Z, 10); (60000%Z, 10); (120000%Z, 10); (180000%Z, 10);
           (240000%Z, 10); (300000%Z, 10); (360000%Z, 10); (420000%Z, 10);
           (480000%Z, 10); (540000%Z, 11)]
       (newTicker "XAU" "USD"))
  <> BUY.
Proof. vm_compute. discriminate. Qed.

(** C5 (amended): whatever the timestamps, the classifier's output on the
    last sample of 10,10,10,10,10,10,10,10,10,11 is NEUTRAL, and NEUTRAL is
    what the signal history records; the standard deviation of the window
    is 0.3, not below 0.02. *)
Theorem flat_then_up_is_neutral (d1 d2 d3 d4 d5 d6 d7 d8 d9 d10 : Date) :
  let t := feed [(d1, 10); (d2, 10); (d3, 10); (d4, 10); (d5, 10);
                 (d6, 10); (d7, 10); (d8, 10); (d9, 10); (d10, 11)]
             (newTicker "XAU" "USD") in
  calculateScore t = NEUTRAL
  /\ calculateVolatility t = 0.3
  /\ exists older,
       scoreHistory t = older ++ [{| se_score := NEUTRAL; se_timestamp := Some d10 |}].
Proof.
  cbv zeta. unfold feed. cbn [fold_left fst snd].
  rewrite !acceptSample_tightens.
  split; [| split].
  - vm_compute. reflexivity.
  - vm_compute. reflexivity.
  - eexists. vm_compute.
    match goal with
    | |- ?a :: ?b :: ?c :: ?d :: ?e :: ?f :: ?g :: ?h :: ?i :: [?j] = _ =>
        change (a :: b :: c :: d :: e :: f :: g :: h :: i :: [j])
          with ([a; b; c; d; e; f; g; h; i] ++ [j])
    end.
    reflexivity.
Qed.

(** A number is at most +Infinity, the value of [Math.min()] without
    arguments. *)
Lemma le_infinity (p : float) : is_nan p = false -> le p infinity = true.
Proof.
  unfold is_nan, le. rewrite FloatAxioms.eqb_spec, FloatAxioms.leb_spec.
  destruct (Prim2SF p) as [[] | [] | | [] m e]; cbn; try congruence; reflexivity.
Qed.

(** With no support level the first comparison of [calculateTrendStrength]
    holds for every number, and the trend strength is amplified. *)
Lemma trend_strength_without_support (t : Ticker) (p : float) :
  price t = Some p ->
  is_nan p = false ->
  supportLevels t = [] ->
  calculateTrendStrength t
  = (p - sum (getPriceHistory 10 t) / lengthNum (getPriceHistory 10 t)) * 1.2.
Proof.
  intros Hp Hnan Hs. unfold calculateTrendStrength; cbv zeta.
  rewrite Hp, Hs. cbn [toNumber Math_min minLoop].
  rewrite le_infinity by exact Hnan. reflexivity.
Qed.

(** C4: a ticker refilled with the bars 4 and 20 and then fed the sample 9
    has a three-price history and both level sets empty; the price minus
    the moving average is -2, yet [calculateTrendStrength] returns -2.4. *)
Theorem trend_strength_amplified_with_empty_levels :
  let t := acceptSample 1000 9
             (addHistoryData [ {| bar_timestamp := 0; bar_close := 4 |};
                               {| bar_timestamp := 1; bar_close := 20 |} ]
                (newTicker "XAU" "USD")) in
  supportLevels t = [] /\ resistanceLevels t = []
  /\ getPriceHistory 10 t = [4; 20; 9]
  /\ toNumber (price t)
       - sum (getPriceHistory 10 t) / lengthNum (getPriceHistory 10 t) = -2
  /\ calculateTrendStrength t = -2.4.
Proof. vm_compute. repeat split; reflexivity. Qed.

Section FetchFacts.

Variable parseFloat : string -> float.

(** The failures raised before the first assignment keep the state. *)
Lemma fetchPrice_guarded (answer : option Response) (now : Date) (t : Ticker) :
  match snd (fetchPrice parseFloat answer now t) with
  | Some NetworkError | Some (RequestFailed _) | Some JsonSyntaxError
  | Some InvalidOrEmptyResponse => fst (fetchPrice parseFloat answer now t) = t
  | _ => True
  end.
Proof.
  unfold fetchPrice.
  destruct answer as [response |]; [| reflexivity].
  destruct (ok response); cbn [negb]; [| reflexivity].
  destruct (body response) as [data |]; [| reflexivity].
  destruct (truthy data); cbn [negb]; [| reflexivity].
  destruct (index0 data) as [first |]; [| reflexivity].
  destruct (truthy first); cbn [negb]; [| reflexivity].
  destruct first; cbn [snd]; try exact I.
  all: unfold updateCycle, updatePriceOfTheDay; cbn; exact I.
Qed.

(** A payload whose first element is a string is an accepted sample. *)
Lemma fetchPrice_accepts (s : string) (rest : list JSON) (now : Date) (t : Ticker) :
  truthy (JString s) = true ->
  fetchPrice parseFloat
    (Some {| ok := true; status := 200; body := Some (JArray (JString s :: rest)) |})
    now t
  = (acceptSample now
       (parseFloat (match nth_error (splitComma s) 1 with
                    | Some f => f
                    | None => "0"%string
                    end)) t,
     None).
Proof.
  intros Hs. unfold fetchPrice.
  cbn [ok body negb index0 nth_error].
  change (truthy (JArray (JString s :: rest))) with true.
  cbn [negb]. rewrite Hs. cbn [negb].
  rewrite acceptSample_eq.
  rewrite (updateCycle_dated _ now) by reflexivity. reflexivity.
Qed.

End FetchFacts.

(** C9: on the payload [[42]] the parse throws after the date and the
    previous price have been assigned.  The error is reported, and the
    state and the snapshot of a ticker that held one sample are changed. *)
Theorem malformed_payload_mutates_state :
  (forall parseFloat now t,
      fetchPrice parseFloat
        (Some {| ok := true; status := 200; body := Some (JArray [JNumber 42]) |})
        now t
      = (set_previousPrice (price t) (set_date (Some now) t),
         Some SplitIsNotAFunction))
  /\ (forall parseFloat,
        let t := acceptSample 0 5 (newTicker "XAU" "USD") in
        let r := fetchPrice parseFloat
                   (Some {| ok := true; status := 200;
                            body := Some (JArray [JNumber 42]) |})
                   60000%Z t in
        previousPrice t = None /\ previousPrice (fst r) = Some 5
        /\ date t = Some 0%Z /\ date (fst r) = Some 60000%Z
        /\ price (fst r) = price t
        /\ priceHistory (fst r) = priceHistory t
        /\ getAllData (fst r) <> getAllData t).
Proof.
  split.
  - intros parseFloat now t. reflexivity.
  - intros parseFloat. cbv zeta.
    repeat match goal with
           | |- _ /\ _ => split
           end; try (vm_compute; reflexivity).
    vm_compute. discriminate.
Qed.

(** On a state whose last ten prices end with the current price, the
    classifier answers NEUTRAL. *)
Lemma calculateScore_after_push (t : Ticker) (older : list float) (p : float) :
  price t = Some p ->
  getPriceHistory 10 t = older ++ [p] ->
  calculateScore t = NEUTRAL.
Proof.
  intros Hp Hw.
  assert (Hlen : (List.length (older ++ [p]) <= 10)%nat).
  { rewrite <- Hw, getPriceHistory_lastN by lia.
    rewrite lastN_length. lia. }
  unfold calculateScore; cbv zeta.
  destruct (lt (calculateVolatility t) 0.02) eqn:Hvol.
  - assert (Hadj : gt (calculateTrendStrength t) 0.5 = false
                   /\ lt (calculateTrendStrength t) (-0.5) = false).
    { unfold calculateVolatility in Hvol; cbv zeta in Hvol.
      rewrite Hw in Hvol.
      apply (quiet_window_small_trend older p); [exact Hlen | | exact Hvol].
      unfold calculateTrendStrength; cbv zeta. rewrite Hw, Hp. cbn [toNumber].
      destruct (le p (Math_min (supportLevels t))); [right; left; reflexivity |].
      destruct (ge p (Math_max (resistanceLevels t)));
        [right; right; reflexivity | left; reflexivity]. }
    destruct Hadj as [-> ->].
    rewrite !andb_false_r. reflexivity.
  - rewrite !andb_false_r. reflexivity.
Qed.

Lemma applyEvent_scoreHistory_length t e :
  (List.length (scoreHistory t) <= 100)%nat ->
  (List.length (scoreHistory (applyEvent t e)) <= 100)%nat.
Proof.
  intros Hle. destruct e as [now p | entry]; cbn [applyEvent].
  - rewrite acceptSample_scoreHistory. apply pushBounded_length. exact Hle.
  - rewrite addHistoryEntry_shape. fields. exact Hle.
Qed.

Lemma run_scoreHistory_length events symbol currency :
  (List.length (scoreHistory (run events (newTicker symbol currency))) <= 100)%nat.
Proof.
  induction events as [| e events IH] using rev_ind; [cbn; lia |].
  rewrite run_snoc. apply applyEvent_scoreHistory_length. exact IH.
Qed.

(** C1: after the update cycle of an accepted sample, on any state a run of
    accepted samples and refill bars leads to, the [score] field, which
    [getAllData] returns, equals the classifier's output for the sample,
    and that output is the entry appended to the signal history, which
    stays within 100 entries.  The field is never written: it keeps its
    initial NEUTRAL, and NEUTRAL is all the classifier can answer on a
    window that ends with the current price. *)
Theorem score_field_equals_classifier_output
  (events : list Event) (symbol currency : string) (now : Date) (p : float) :
  let t := run events (newTicker symbol currency) in
  let t' := acceptSample now p t in
  score t' = calculateScore t'
  /\ snap_score (getAllData t') = calculateScore t'
  /\ calculateScore t' = calculateScore (scoredState now p t)
  /\ scoreHistory t'
     = pushBounded (scoreHistory t)
         {| se_score := calculateScore t'; se_timestamp := Some now |}
  /\ (exists older,
        scoreHistory t'
        = older ++ [{| se_score := calculateScore t'; se_timestamp := Some now |}])
  /\ (List.length (scoreHistory t') <= 100)%nat
  /\ calculateScore t' = NEUTRAL.
Proof.
  intros t t'.
  assert (Hneutral : calculateScore t' = NEUTRAL).
  { destruct (acceptSample_window_last now p t 10 ltac:(lia)) as (older & Hw).
    apply (calculateScore_after_push t' older p); [| exact Hw].
    apply acceptSample_price. }
  assert (Hscore : score t' = calculateScore t').
  { rewrite Hneutral. unfold t'. rewrite acceptSample_score. apply run_score. }
  split; [exact Hscore |]. split; [exact Hscore |].
  split; [apply calculateScore_acceptSample |].
  split; [apply acceptSample_scoreHistory |].
  split.
  - unfold t'. rewrite acceptSample_scoreHistory. apply pushBounded_snoc.
  - split; [| exact Hneutral].
    unfold t'. rewrite acceptSample_scoreHistory. apply pushBounded_length.
    apply run_scoreHistory_length.
Qed.

Lemma some_false_iff {A : Type} (f : A -> bool) (l : list A) :
  some f l = false <-> ~ (exists x, In x l /\ f x = true).
Proof.
  unfold some. split.
  - intros H Hex. apply existsb_exists in Hex. congruence.
  - intros H. destruct (existsb f l) eqn:E; [| reflexivity].
    exfalso. apply H. apply existsb_exists. exact E.
Qed.

End CronProperties.

(** ** Properties of the interval-driven ticker *)

Module IntervalProperties.

Import IntervalTicker IntervalFacts.

Lemma interval_getPriceHistory_lastN (n : Z) (t : Ticker) :
  (1 <= n)%Z ->
  getPriceHistory n t =
  lastN (Nat.min (Z.to_nat n) (List.length (priceHistory t)))
    (map pe_price (priceHistory t)).
Proof.
  intros Hn. unfold getPriceHistory.
  rewrite slice_negative by exact Hn.
  unfold lastN. rewrite length_map, skipn_map. do 2 f_equal. lia.
Qed.

(** On a state whose last ten prices end with the current price, the
    classifier answers NEUTRAL, and its BUY and SELL tests cannot hold. *)
Lemma quiet_and_trending_excluded (t : Ticker) (older : list float) (p : float) :
  price t = Some p ->
  getPriceHistory 10 t = older ++ [p] ->
  lt (calculateVolatility t) 0.02 = true ->
  gt (calculateTrendStrength t) 0.5 = false
  /\ lt (calculateTrendStrength t) (-0.5) = false.
Proof.
  intros Hp Hw Hvol.
  assert (Hlen : (List.length (older ++ [p]) <= 10)%nat).
  { rewrite <- Hw, interval_getPriceHistory_lastN by lia.
    unfold lastN. rewrite length_skipn, length_map. lia. }
  unfold calculateVolatility in Hvol; cbv zeta in Hvol. rewrite Hw in Hvol.
  apply (quiet_window_small_trend older p); [exact Hlen | | exact Hvol].
  unfold calculateTrendStrength; cbv zeta. rewrite Hw, Hp. left. reflexivity.
Qed.

Lemma empty_history_not_quiet (t : Ticker) :
  priceHistory t = [] -> lt (calculateVolatility t) 0.02 = false.
Proof.
  intros Hh. unfold calculateVolatility, getPriceHistory; cbv zeta.
  rewrite Hh. reflexivity.
Qed.

Lemma endsWithPrice_not_quiet_and_trending (t : Ticker) :
  endsWithPrice t ->
  lt (calculateVolatility t) 0.02 = true ->
  gt (calculateTrendStrength t) 0.5 = false
  /\ lt (calculateTrendStrength t) (-0.5) = false.
Proof.
  intros [Hempty | (older & e & Hh & Hp)] Hvol.
  - rewrite empty_history_not_quiet in Hvol by exact Hempty. discriminate.
  - assert (Hw : exists older', getPriceHistory 10 t = older' ++ [pe_price e]).
    { unfold getPriceHistory. rewrite Hh.
      rewrite slice_negative_snoc by lia. rewrite map_app. eexists. reflexivity. }
    destruct Hw as (older' & Hw).
    apply (quiet_and_trending_excluded t older' (pe_price e)); assumption.
Qed.

Lemma fetchPrice_cases (parseFloat : string -> float) (answer : option Response)
  (now : Date) (t : Ticker) :
  fst (fetchPrice parseFloat answer now t) = t
  \/ fst (fetchPrice parseFloat answer now t) = assignDate now t
  \/ exists p, fst (fetchPrice parseFloat answer now t) = acceptSample now p t.
Proof.
  unfold fetchPrice.
  destruct answer as [response |]; [| left; reflexivity].
  destruct (ok response); cbn [negb]; [| left; reflexivity].
  destruct (body response) as [data |]; [| left; reflexivity].
  destruct (truthy data); cbn [negb]; [| left; reflexivity].
  destruct (index0 data) as [first |]; [| left; reflexivity].
  destruct (truthy first); cbn [negb]; [| left; reflexivity].
  destruct first; cbn [fst]; try (right; left; reflexivity).
  right. right. eexists. unfold acceptSample. reflexivity.
Qed.

Lemma reachable_endsWithPrice (t : Ticker) : reachable t -> endsWithPrice t.
Proof.
  induction 1 as [symbol currency | parseFloat answer now t Hr IH].
  - left. reflexivity.
  - destruct (fetchPrice_cases parseFloat answer now t) as [-> | [-> | (p & ->)]].
    + exact IH.
    + exact IH.
    + right. destruct (interval_acceptSample_history_last now p t) as (older & Hh).
      exists older, {| pe_price := p; pe_timestamp := Some now |}.
      split; [exact Hh | apply interval_acceptSample_price].
Qed.

(** On a state that [fetchPrice] calls reach, the classifier of this
    variant answers neither BUY nor SELL, and neither [buyCondition] nor
    [sellCondition] holds: the equivalences below hold there with both
    sides false.  The proximity conditions have no counterpart in the code
    of this variant, so off the reachable states the equivalences can fail. *)
Lemma classifier_conditions_reachable (t : Ticker) :
  reachable t ->
  (calculateScore t = BUY <-> buyCondition t)
  /\ (calculateScore t = SELL <-> sellCondition t)
  /\ (calculateScore t = NEUTRAL <-> ~ buyCondition t /\ ~ sellCondition t).
Proof.
  intros Hr. apply reachable_endsWithPrice in Hr.
  assert (Hq := endsWithPrice_not_quiet_and_trending t Hr).
  unfold buyCondition, sellCondition, calculateScore; cbv zeta.
  destruct (lt (calculateVolatility t) 0.02).
  - destruct (Hq eq_refl) as [-> ->].
    rewrite !andb_false_r.
    repeat split; intros; try discriminate; try reflexivity; intuition discriminate.
  - rewrite !andb_false_r. cbn [andb].
    repeat split; intros; try discriminate; try reflexivity; intuition discriminate.
Qed.

End IntervalProperties.

(** ** Properties shared by the two variants *)

Lemma snoc_not_nil {A : Type} (l : list A) (x : A) : l ++ [x] <> [].
Proof. destruct l; discriminate. Qed.

(** C7: over every run of the cron-driven ticker (accepted samples and
    refill bars) and every run of accepted samples of the interval-driven
    one, the support and resistance sets hold no value twice, neither as
    Leibniz-equal nor as [===]-equal numbers; a further accepted sample
    leaves each set as it is or appends the sample's price, and appends it
    only when the price equals the minimum (for resistance, the maximum) of
    the tracked window and was not yet included; so no level is ever
    removed and the sizes never decrease. *)
Theorem levels_grow_without_duplicates :
  (forall events symbol currency now p,
      let t := CronTicker.run events (CronTicker.newTicker symbol currency) in
      let t' := CronTicker.acceptSample now p t in
      let window := map pe_price (CronTicker.priceHistory t') in
      (NoDup (CronTicker.supportLevels t) /\ NoDup (CronTicker.resistanceLevels t)
       /\ distinctLevels (CronTicker.supportLevels t)
       /\ distinctLevels (CronTicker.resistanceLevels t))
      /\ levelStep (CronTicker.supportLevels t) (CronTicker.supportLevels t')
           p (Math_min window)
      /\ levelStep (CronTicker.resistanceLevels t) (CronTicker.resistanceLevels t')
           p (Math_max window)
      /\ (List.length (CronTicker.supportLevels t)
          <= List.length (CronTicker.supportLevels t'))%nat
      /\ (List.length (CronTicker.resistanceLevels t)
          <= List.length (CronTicker.resistanceLevels t'))%nat)
  /\ (forall samples symbol currency now p,
        let t := IntervalTicker.feed samples (IntervalTicker.newTicker symbol currency) in
        let t' := IntervalTicker.acceptSample now p t in
        let window := IntervalTicker.getPriceHistory 20 t' in
        (NoDup (IntervalTicker.supportLevels t)
         /\ NoDup (IntervalTicker.resistanceLevels t)
         /\ distinctLevels (IntervalTicker.supportLevels t)
         /\ distinctLevels (IntervalTicker.resistanceLevels t))
        /\ levelStep (IntervalTicker.supportLevels t) (IntervalTicker.supportLevels t')
             p (Math_min window)
        /\ levelStep (IntervalTicker.resistanceLevels t)
             (IntervalTicker.resistanceLevels t') p (Math_max window)
        /\ (List.length (IntervalTicker.supportLevels t)
            <= List.length (IntervalTicker.supportLevels t'))%nat
        /\ (List.length (IntervalTicker.resistanceLevels t)
            <= List.length (IntervalTicker.resistanceLevels t'))%nat).
Proof.
  split.
  - intros events symbol currency now p t t' window.
    assert (Hs : levelStep (CronTicker.supportLevels t) (CronTicker.supportLevels t')
                   p (Math_min window)).
    { subst t' window. rewrite CronFacts.acceptSample_supportLevels.
      apply levelAfter_step. }
    assert (Hr : levelStep (CronTicker.resistanceLevels t)
                   (CronTicker.resistanceLevels t') p (Math_max window)).
    { subst t' window. rewrite CronFacts.acceptSample_resistanceLevels.
      apply levelAfter_step. }
    split; [apply CronFacts.run_levels_ok |].
    split; [exact Hs |]. split; [exact Hr |].
    split; eapply levelStep_length; eassumption.
  - intros samples symbol currency now p t t' window.
    assert (Hs : levelStep (IntervalTicker.supportLevels t)
                   (IntervalTicker.supportLevels t') p (Math_min window)).
    { subst t' window. rewrite IntervalFacts.interval_acceptSample_supportLevels.
      apply levelAfter_step. }
    assert (Hr : levelStep (IntervalTicker.resistanceLevels t)
                   (IntervalTicker.resistanceLevels t') p (Math_max window)).
    { subst t' window. rewrite IntervalFacts.interval_acceptSample_resistanceLevels.
      apply levelAfter_step. }
    split; [apply IntervalFacts.feed_levels_ok |].
    split; [exact Hs |]. split; [exact Hr |].
    split; eapply levelStep_length; eassumption.
Qed.

(** C10: after an accepted sample, from whatever state, the price field
    holds the sample's price, the price history is not empty and ends with
    the sample, and every [getPriceHistory(n)] with n >= 1 ends with the
    sample's price; in both variants. *)
Theorem current_price_is_last_of_history
  (now : Date) (p : float) (n : Z)
  (tc : CronTicker.Ticker) (ti : IntervalTicker.Ticker) :
  (1 <= n)%Z ->
  (let t' := CronTicker.acceptSample now p tc in
   CronTicker.price t' = Some p
   /\ CronTicker.priceHistory t' <> []
   /\ (exists older,
         CronTicker.priceHistory t'
         = older ++ [{| pe_price := p; pe_timestamp := Some now |}])
   /\ (exists older, CronTicker.getPriceHistory n t' = older ++ [p]))
  /\ (let t' := IntervalTicker.acceptSample now p ti in
      IntervalTicker.price t' = Some p
      /\ IntervalTicker.priceHistory t' <> []
      /\ (exists older,
            IntervalTicker.priceHistory t'
            = older ++ [{| pe_price := p; pe_timestamp := Some now |}])
      /\ (exists older, IntervalTicker.getPriceHistory n t' = older ++ [p])).
Proof.
  intros Hn. split; cbv zeta.
  - split; [apply CronFacts.acceptSample_price |].
    split.
    + destruct (CronFacts.acceptSample_history_last now p tc) as (older & ->).
      apply snoc_not_nil.
    + split; [apply CronFacts.acceptSample_history_last |].
      apply CronFacts.acceptSample_window_last. exact Hn.
  - split; [apply IntervalFacts.interval_acceptSample_price |].
    split.
    + destruct (IntervalFacts.interval_acceptSample_history_last now p ti) as (older & ->).
      apply snoc_not_nil.
    + split; [apply IntervalFacts.interval_acceptSample_history_last |].
      apply IntervalFacts.interval_acceptSample_window_last. exact Hn.
Qed.

(** C8: the classifier of the cron-driven ticker answers BUY exactly when
    the price change is positive, the volatility below 0.02, the trend
    strength above 0.5 and no resistance level [L] has [price >= L * 0.99];
    SELL exactly when the price change is negative, the volatility below
    0.02, the trend strength below -0.5 and no support level [L] has
    [price <= L * 1.01]; NEUTRAL exactly when neither set of conditions
    holds.  This holds of every state, so of every reachable one. *)
Theorem classifier_follows_conditions (t : CronTicker.Ticker) :
  (CronTicker.calculateScore t = BUY <-> CronTicker.buyCondition t)
  /\ (CronTicker.calculateScore t = SELL <-> CronTicker.sellCondition t)
  /\ (CronTicker.calculateScore t = NEUTRAL
      <-> ~ CronTicker.buyCondition t /\ ~ CronTicker.sellCondition t).
Proof.
  unfold CronTicker.buyCondition, CronTicker.sellCondition, CronTicker.calculateScore;
    cbv zeta.
  unfold CronTicker.isNearResistance, CronTicker.isNearSupport.
  rewrite <- !CronProperties.some_false_iff.
  set (pc := toNumber (CronTicker.price t) - toNumber (CronTicker.previousPrice t)).
  assert (Hex := gt_zero_not_lt_zero pc).
  destruct (gt pc 0); destruct (lt pc 0);
    destruct (lt (CronTicker.calculateVolatility t) 0.02);
    destruct (gt (CronTicker.calculateTrendStrength t) 0.5);
    destruct (lt (CronTicker.calculateTrendStrength t) (-0.5));
    destruct (some _ (CronTicker.resistanceLevels t));
    destruct (some _ (CronTicker.supportLevels t));
    cbn [andb negb];
    try (specialize (Hex eq_refl); discriminate Hex);
    repeat split; intros; try discriminate; try reflexivity; try tauto;
    intuition discriminate.
Qed.

Lemma classifier_follows_conditions_witness :
  let bought :=
    CronTicker.run
      ([CronTicker.Sample 0 20; CronTicker.Sample 60000 10; CronTicker.Sample 120000 12]
       ++ repeat (CronTicker.HistoryBar (CronTicker.Build_Bar 180000 10)) 10)
      (CronTicker.newTicker "XAU" "USD") in
  let sold :=
    CronTicker.run
      ([CronTicker.Sample 0 10; CronTicker.Sample 60000 20; CronTicker.Sample 120000 18]
       ++ repeat (CronTicker.HistoryBar (CronTicker.Build_Bar 180000 20)) 10)
      (CronTicker.newTicker "XAU" "USD") in
  (CronTicker.calculateScore bought = BUY /\ CronTicker.buyCondition bought)
  /\ (CronTicker.calculateScore sold = SELL /\ CronTicker.sellCondition sold).
Proof.
  intros bought sold.
  assert (Hb : CronTicker.calculateScore bought = BUY) by (vm_compute; reflexivity).
  assert (Hs : CronTicker.calculateScore sold = SELL) by (vm_compute; reflexivity).
  destruct (classifier_follows_conditions bought) as (Hbuy & _ & _).
  destruct (classifier_follows_conditions sold) as (_ & Hsell & _).
  split; (split; [assumption |]).
  - apply Hbuy. exact Hb.
  - apply Hsell. exact Hs.
Defined.

Lemma current_price_is_last_of_history_witness :
  (1 <= 1)%Z
  /\ CronTicker.price
       (CronTicker.acceptSample 0%Z 5 (CronTicker.newTicker "XAU" "USD")) = Some 5
  /\ (exists older,
        IntervalTicker.getPriceHistory 1
          (IntervalTicker.acceptSample 0%Z 5 (IntervalTicker.newTicker "XAU" "USD"))
        = older ++ [5]).
Proof.
  split; [lia |].
  split.
  - apply (current_price_is_last_of_history 0%Z 5 1%Z
             (CronTicker.newTicker "XAU" "USD") (IntervalTicker.newTicker "XAU" "USD")).
    lia.
  - apply (current_price_is_last_of_history 0%Z 5 1%Z
             (CronTicker.newTicker "XAU" "USD") (IntervalTicker.newTicker "XAU" "USD")).
    lia.
Defined.

(** ** Further properties of the cron-driven ticker *)

Module CronExtras.

Import CronTicker CronFacts CronProperties.

Lemma in_snoc_last {A : Type} (l : list A) (x : A) : In x (l ++ [x]).
Proof. apply in_or_app. right. left. reflexivity. Qed.

(** On a state whose last ten prices hold the current price, the BOS step
    changes nothing. *)
Lemma detectBOS_with_price_in_window (t : Ticker) (p : float) :
  price t = Some p -> In p (getPriceHistory 10 t) -> detectBOS t = t.
Proof.
  intros Hp Hin. unfold detectBOS; cbv zeta. rewrite Hp. cbn [toNumber].
  rewrite (Math_max_not_below _ p Hin), (Math_min_not_above _ p Hin).
  reflexivity.
Qed.

Lemma cron_getPriceHistory_ext (count : Z) (t t' : Ticker) :
  priceHistory t = priceHistory t' -> getPriceHistory count t = getPriceHistory count t'.
Proof. unfold getPriceHistory. intros ->. reflexivity. Qed.

Lemma scoredState_fields (now : Date) (p : float) (t : Ticker) :
  price (scoredState now p t) = Some p
  /\ previousPrice (scoredState now p t) = price t
  /\ trendDirection (scoredState now p t) = trendDirection t
  /\ priceHistory (scoredState now p t)
     = pushBounded (priceHistory t) {| pe_price := p; pe_timestamp := Some now |}.
Proof.
  unfold scoredState.
  rewrite storePriceData_shape, updatePriceOfTheDayOn_shape. unfold assignDate.
  fields.
  repeat match goal with |- _ /\ _ => split end; reflexivity.
Qed.

Lemma storeScore_frame (s : Ticker) :
  price (storeScore s) = price s
  /\ previousPrice (storeScore s) = previousPrice s
  /\ priceHistory (storeScore s) = priceHistory s
  /\ trendDirection (storeScore s) = trendDirection s.
Proof.
  rewrite storeScore_shape.
  repeat match goal with |- _ /\ _ => split end; reflexivity.
Qed.

Lemma detectBOS_in_cycle (now : Date) (p : float) (t : Ticker) :
  detectBOS (storeScore (scoredState now p t)) = storeScore (scoredState now p t).
Proof.
  destruct (scoredState_fields now p t) as (Hp & _ & _ & Hh).
  revert Hp Hh. generalize (scoredState now p t) as s. intros s Hp Hh.
  destruct (storeScore_frame s) as (Hp' & _ & Hh' & _).
  apply (detectBOS_with_price_in_window _ p).
  - rewrite Hp'. exact Hp.
  - unfold getPriceHistory. rewrite Hh', Hh.
    destruct (pushBounded_snoc (priceHistory t)
                {| pe_price := p; pe_timestamp := Some now |}) as (older & ->).
    rewrite slice_negative_snoc by lia. rewrite map_app. apply in_snoc_last.
Qed.

(** X1: in the update cycle of an accepted sample the BOS step never
    changes the trend, from whatever state: the trend after the cycle is
    the old trend, turned NEUTRAL by the COC step when it was UP and the
    price fell, or DOWN and the price rose.  Over every run of accepted
    samples and refill bars of a new ticker the trend is NEUTRAL. *)
Theorem trend_only_changes_by_coc :
  (forall now p t,
      detectBOS (storeScore (scoredState now p t)) = storeScore (scoredState now p t)
      /\ trendDirection (acceptSample now p t)
         = match trendDirection t with
           | UP => if lt p (toNumber (price t)) then TREND_NEUTRAL else UP
           | DOWN => if gt p (toNumber (price t)) then TREND_NEUTRAL else DOWN
           | TREND_NEUTRAL => TREND_NEUTRAL
           end)
  /\ (forall events symbol currency,
        trendDirection (run events (newTicker symbol currency)) = TREND_NEUTRAL).
Proof.
  assert (Hstep : forall now p t,
             trendDirection (acceptSample now p t)
             = match trendDirection t with
               | UP => if lt p (toNumber (price t)) then TREND_NEUTRAL else UP
               | DOWN => if gt p (toNumber (price t)) then TREND_NEUTRAL else DOWN
               | TREND_NEUTRAL => TREND_NEUTRAL
               end).
  { intros now p t. rewrite acceptSample_scored, detectBOS_in_cycle.
    destruct (scoredState_fields now p t) as (Hp & Hpp & Htr & _).
    revert Hp Hpp Htr. generalize (scoredState now p t) as s. intros s Hp Hpp Htr.
    destruct (storeScore_frame s) as (Hp' & Hpp' & _ & Htr').
    rewrite <- Hp', <- Hpp' in *. rewrite <- Htr' in Htr.
    revert Hp Hpp Htr. generalize (storeScore s) as s'. intros s' Hp Hpp Htr.
    unfold detectCOC. rewrite Htr, Hp, Hpp. cbn [toNumber].
    destruct (trendDirection t); [| | exact Htr].
    - destruct (lt p (toNumber (price t))); [reflexivity | exact Htr].
    - destruct (gt p (toNumber (price t))); [reflexivity | exact Htr]. }
  split.
  - intros now p t. split; [apply detectBOS_in_cycle | apply Hstep].
  - intros events symbol currency.
    induction events as [| e events IH] using rev_ind; [reflexivity |].
    rewrite run_snoc. destruct e as [now p | entry]; cbn [applyEvent].
    + rewrite Hstep, IH. reflexivity.
    + rewrite addHistoryEntry_shape. fields. exact IH.
Qed.

Lemma acceptSample_neutral (now : Date) (p : float) (t : Ticker) :
  calculateScore (acceptSample now p t) = NEUTRAL.
Proof.
  destruct (acceptSample_window_last now p t 10 ltac:(lia)) as (older & Hw).
  apply (calculateScore_after_push _ older p); [| exact Hw].
  apply acceptSample_price.
Qed.

(** X2: over every run of accepted samples and refill bars of a new
    ticker, the signal history is the last 100 accepted samples'
    timestamps, oldest first, each with the signal NEUTRAL, and the [score]
    field is NEUTRAL: the ticker never records BUY or SELL. *)
Theorem signal_history_is_neutral (events : list Event) (symbol currency : string) :
  let t := run events (newTicker symbol currency) in
  scoreHistory t = lastN 100 (flat_map signalOf events)
  /\ Forall (fun entry => se_score entry = NEUTRAL) (scoreHistory t)
  /\ score t = NEUTRAL.
Proof.
  cbv zeta.
  assert (Hh : scoreHistory (run events (newTicker symbol currency))
               = lastN 100 (flat_map signalOf events)).
  { induction events as [| e events IH] using rev_ind; [reflexivity |].
    rewrite run_snoc, flat_map_app. cbn [flat_map]. rewrite app_nil_r.
    destruct e as [now p | entry]; cbn [applyEvent signalOf].
    - rewrite acceptSample_scoreHistory, acceptSample_neutral, IH.
      apply pushBounded_lastN.
    - rewrite app_nil_r, <- IH. rewrite addHistoryEntry_shape. reflexivity. }
  split; [exact Hh |]. split; [| apply run_score].
  rewrite Hh. apply Forall_forall. intros entry Hin.
  apply in_lastN in Hin. apply in_flat_map in Hin.
  destruct Hin as (e & _ & He). destruct e as [now p | bar]; cbn in He.
  - destruct He as [<- | []]. reflexivity.
  - destruct He.
Qed.

Lemma addHistoryEntry_frame (t : Ticker) (entry : Bar) :
  price (addHistoryEntry t entry) = price t
  /\ previousPrice (addHistoryEntry t entry) = previousPrice t
  /\ date (addHistoryEntry t entry) = date t
  /\ score (addHistoryEntry t entry) = score t
  /\ scoreHistory (addHistoryEntry t entry) = scoreHistory t
  /\ trendDirection (addHistoryEntry t entry) = trendDirection t
  /\ lowPriceOfTheDay (addHistoryEntry t entry) = lowPriceOfTheDay t
  /\ highPriceOfTheDay (addHistoryEntry t entry) = highPriceOfTheDay t
  /\ symbol (addHistoryEntry t entry) = symbol t
  /\ currency (addHistoryEntry t entry) = currency t
  /\ endPoint (addHistoryEntry t entry) = endPoint t.
Proof.
  rewrite addHistoryEntry_shape.
  repeat match goal with |- _ /\ _ => split end; reflexivity.
Qed.




(** X4: [fetchPrice] has three outcomes.  It accepts a sample and reports
    nothing; or the parse throws, the error is reported and the state has
    only its date and previous price assigned; or a guard rejects the
    answer, the error is reported and the state is untouched. *)
Theorem fetchPrice_outcomes
  (parseFloat : string -> float) (answer : option Response) (now : Date) (t : Ticker) :
  let r := fetchPrice parseFloat answer now t in
  (snd r = None /\ exists p, fst r = acceptSample now p t)
  \/ (snd r = Some SplitIsNotAFunction /\ fst r = assignDate now t)
  \/ (fst r = t
      /\ (snd r = Some NetworkError
          \/ (exists status, snd r = Some (RequestFailed status))
          \/ snd r = Some JsonSyntaxError
          \/ snd r = Some InvalidOrEmptyResponse)).
Proof.
  cbv zeta. unfold fetchPrice.
  destruct answer as [response |]; [| right; right; split; [| left]; reflexivity].
  destruct (ok response); cbn [negb];
    [| right; right; split; [| right; left; eexists]; reflexivity].
  destruct (body response) as [data |];
    [| right; right; split; [| right; right; left]; reflexivity].
  destruct (truthy data); cbn [negb];
    [| right; right; split; [| right; right; right]; reflexivity].
  destruct (index0 data) as [first |];
    [| right; right; split; [| right; right; right]; reflexivity].
  destruct (truthy first); cbn [negb];
    [| right; right; split; [| right; right; right]; reflexivity].
  destruct first; try (right; left; split; reflexivity).
  left. rewrite (updateCycle_dated _ now) by reflexivity. cbn [fst snd].
  split; [reflexivity |]. eexists. rewrite acceptSample_eq. reflexivity.
Qed.

Lemma splitComma_no_comma (s : string) : hasComma s = false -> splitComma s = [s].
Proof.
  induction s as [| c s IH]; [reflexivity |].
  cbn [hasComma splitComma]. intros H. apply orb_false_iff in H. destruct H as [Hc Hs].
  rewrite Hc, (IH Hs). reflexivity.
Qed.

Lemma splitComma_field (a b : string) :
  hasComma a = false ->
  splitComma (String.append a (String ","%char b)) = a :: splitComma b.
Proof.
  induction a as [| c a IH]; intros H; [reflexivity |].
  cbn [hasComma] in H. apply orb_false_iff in H. destruct H as [Hc Ha].
  cbn [String.append splitComma]. rewrite Hc, (IH Ha). reflexivity.
Qed.

Lemma append_not_empty (a b : string) :
  String.eqb (String.append a (String ","%char b)) EmptyString = false.
Proof. destruct a; reflexivity. Qed.

(** X5: which text becomes the price.  When the first element of the
    payload is a string whose first two comma-separated fields are [a] and
    [b], the sample is accepted with the price [parseFloat(b)], whatever
    follows; when it is a non-empty string without comma, the sample is
    accepted with the price [parseFloat("0")]. *)
Theorem fetchPrice_parses_second_field
  (parseFloat : string -> float) (a b c s : string) (rest : list JSON)
  (now : Date) (t : Ticker) :
  hasComma a = false -> hasComma b = false ->
  hasComma s = false -> s <> EmptyString ->
  let answer payload :=
    Some {| ok := true; status := 200; body := Some (JArray (JString payload :: rest)) |} in
  fetchPrice parseFloat (answer (String.append a (String ","%char b))) now t
  = (acceptSample now (parseFloat b) t, None)
  /\ fetchPrice parseFloat
       (answer (String.append a (String ","%char (String.append b (String ","%char c)))))
       now t
     = (acceptSample now (parseFloat b) t, None)
  /\ fetchPrice parseFloat (answer s) now t
     = (acceptSample now (parseFloat "0"%string) t, None).
Proof.
  intros Ha Hb Hs Hne. cbv zeta.
  repeat match goal with |- _ /\ _ => split end.
  - rewrite fetchPrice_accepts
      by (cbn [truthy]; rewrite append_not_empty; reflexivity).
    rewrite (splitComma_field a b Ha), (splitComma_no_comma b Hb). reflexivity.
  - rewrite fetchPrice_accepts
      by (cbn [truthy]; rewrite append_not_empty; reflexivity).
    rewrite (splitComma_field a _ Ha), (splitComma_field b c Hb). reflexivity.
  - rewrite fetchPrice_accepts.
    + rewrite (splitComma_no_comma s Hs). reflexivity.
    + cbn [truthy]. destruct s; [congruence | reflexivity].
Qed.

Lemma fetchPrice_parses_second_field_witness :
  hasComma "1730000000"%string = false /\ hasComma "2745.5"%string = false
  /\ hasComma "abc"%string = false /\ "abc"%string <> EmptyString
  /\ fetchPrice (fun _ => 1)
       (Some {| ok := true; status := 200;
                body := Some (JArray [JString "1730000000,2745.5"]) |})
       0%Z (newTicker "XAU" "USD")
     = (acceptSample 0%Z 1 (newTicker "XAU" "USD"), None).
Proof.
  split; [reflexivity |]. split; [reflexivity |]. split; [reflexivity |].
  split; [discriminate |].
  apply (fetchPrice_parses_second_field (fun _ => 1)
           "1730000000"%string "2745.5"%string ""%string "abc"%string
           [] 0%Z (newTicker "XAU" "USD"));
    [reflexivity | reflexivity | reflexivity | discriminate].
Defined.

(** X6: a NaN price in the history blocks the level tracker.  When the
    history after the push holds a NaN price (the sample's own, or an older
    one), the accepted sample leaves both level sets as they were. *)
Theorem nan_in_history_blocks_levels (now : Date) (p : float) (t : Ticker) :
  (exists entry,
      In entry (priceHistory (acceptSample now p t))
      /\ is_nan (pe_price entry) = true) ->
  supportLevels (acceptSample now p t) = supportLevels t
  /\ resistanceLevels (acceptSample now p t) = resistanceLevels t.
Proof.
  intros (entry & Hin & Hnan).
  assert (Hex : exists x,
             In x (map pe_price (priceHistory (acceptSample now p t)))
             /\ is_nan x = true).
  { exists (pe_price entry). split; [apply in_map; exact Hin | exact Hnan]. }
  rewrite acceptSample_supportLevels, acceptSample_resistanceLevels.
  unfold supportAfter, resistanceAfter, levelAfter, Math_min, Math_max.
  rewrite (minLoop_nan _ _ Hex), (maxLoop_nan _ _ Hex).
  cbn [price set_price strictEqOpt]. rewrite strictEq_nan_r. cbn [andb].
  split; reflexivity.
Qed.

Lemma nan_in_history_blocks_levels_witness :
  (exists entry,
      In entry (priceHistory (acceptSample 0 nan (newTicker "XAU" "USD")))
      /\ is_nan (pe_price entry) = true)
  /\ supportLevels (acceptSample 0 nan (newTicker "XAU" "USD")) = [].
Proof.
  assert (H : exists entry,
             In entry (priceHistory (acceptSample 0 nan (newTicker "XAU" "USD")))
             /\ is_nan (pe_price entry) = true).
  { exists {| pe_price := nan; pe_timestamp := Some 0%Z |}.
    split; [vm_compute; left; reflexivity | reflexivity]. }
  split; [exact H |].
  apply (nan_in_history_blocks_levels 0%Z nan (newTicker "XAU" "USD") H).
Defined.

Lemma applyEvent_levels_origin (t : Ticker) (e : Event) :
  exists w,
    supportLevels (applyEvent t e)
    = levelAfter (Math_min w)
        (match e with Sample _ p => Some p | HistoryBar _ => price t end)
        (supportLevels t)
    /\ resistanceLevels (applyEvent t e)
       = levelAfter (Math_max w)
           (match e with Sample _ p => Some p | HistoryBar _ => price t end)
           (resistanceLevels t).
Proof.
  destruct e as [now p | entry]; cbn [applyEvent].
  - exists (map pe_price (priceHistory (acceptSample now p t))).
    rewrite acceptSample_supportLevels, acceptSample_resistanceLevels.
    split; reflexivity.
  - exists (map pe_price (push (priceHistory t) (entryOf (HistoryBar entry)))).
    rewrite addHistoryEntry_shape. fields. split; reflexivity.
Qed.

Lemma applyEvent_price (t : Ticker) (e : Event) :
  price (applyEvent t e)
  = match e with Sample _ p => Some p | HistoryBar _ => price t end.
Proof.
  destruct e as [now p | entry]; cbn [applyEvent].
  - apply acceptSample_price.
  - apply addHistoryEntry_frame.
Qed.

Lemma run_price_origin (events : list Event) (symbol currency : string) (q : float) :
  price (run events (newTicker symbol currency)) = Some q ->
  exists now, In (Sample now q) events.
Proof.
  induction events as [| e events IH] using rev_ind; [discriminate |].
  rewrite run_snoc, applyEvent_price. destruct e as [now p | entry].
  - intros H. injection H as <-. exists now. apply in_snoc_last.
  - intros H. destruct (IH H) as (now & Hin). exists now.
    apply in_or_app. left. exact Hin.
Qed.

(** X7: every support or resistance level was the price of an accepted
    sample and is a number: the closing prices of the refill never become
    levels, and neither does NaN. *)
Theorem levels_are_accepted_prices
  (events : list Event) (symbol currency : string) (level : float) :
  In level (supportLevels (run events (newTicker symbol currency)))
  \/ In level (resistanceLevels (run events (newTicker symbol currency))) ->
  is_nan level = false /\ exists now, In (Sample now level) events.
Proof.
  induction events as [| e events IH] using rev_ind.
  - intros [[] | []].
  - rewrite run_snoc.
    destruct (applyEvent_levels_origin (run events (newTicker symbol currency)) e)
      as (w & -> & ->).
    intros Hin.
    assert (Hcases :
              (In level (supportLevels (run events (newTicker symbol currency)))
               \/ In level (resistanceLevels (run events (newTicker symbol currency))))
              \/ (match e with
                  | Sample _ p => Some p
                  | HistoryBar _ => price (run events (newTicker symbol currency))
                  end = Some level
                  /\ is_nan level = false)).
    { destruct Hin as [Hin | Hin]; apply levelAfter_origin in Hin;
        destruct Hin as [Hin | Hin]; auto. }
    destruct Hcases as [Hold | [Hpr Hnan]].
    + destruct (IH Hold) as (Hn & now & Hs).
      split; [exact Hn |]. exists now. apply in_or_app. left. exact Hs.
    + split; [exact Hnan |]. destruct e as [now p | entry].
      * injection Hpr as <-. exists now. apply in_snoc_last.
      * destruct (run_price_origin events symbol currency level Hpr) as (now & Hs).
        exists now. apply in_or_app. left. exact Hs.
Qed.

Lemma levels_are_accepted_prices_witness :
  (In 5 (supportLevels (run [Sample 0 5] (newTicker "XAU" "USD")))
   \/ In 5 (resistanceLevels (run [Sample 0 5] (newTicker "XAU" "USD"))))
  /\ is_nan 5 = false.
Proof.
  assert (H : In 5 (supportLevels (run [Sample 0 5] (newTicker "XAU" "USD")))
              \/ In 5 (resistanceLevels (run [Sample 0 5] (newTicker "XAU" "USD")))).
  { left. vm_compute. left. reflexivity. }
  split; [exact H |].
  apply (levels_are_accepted_prices [Sample 0 5] "XAU" "USD" 5 H).
Defined.

Lemma addHistoryData_snoc (data : list Bar) (entry : Bar) (t : Ticker) :
  addHistoryData (data ++ [entry]) t = addHistoryEntry (addHistoryData data t) entry.
Proof. unfold addHistoryData. rewrite fold_left_app. reflexivity. Qed.

(** X8: the refill.  [addHistory] leaves the prices, the date, the score,
    the signal history, the trend and the daily extremes as they were; on a
    history of at most 100 entries it leaves the last 100 of the old
    entries followed by the bars (so 100 bars or more replace the history);
    and on a ticker that has no price yet it adds no level. *)
Theorem refill_only_touches_history_and_levels (data : list Bar) (t : Ticker) :
  (List.length (priceHistory t) <= 100)%nat ->
  let t' := addHistoryData data t in
  priceHistory t'
  = lastN 100 (priceHistory t ++ map (fun bar => entryOf (HistoryBar bar)) data)
  /\ price t' = price t /\ previousPrice t' = previousPrice t /\ date t' = date t
  /\ score t' = score t /\ scoreHistory t' = scoreHistory t
  /\ trendDirection t' = trendDirection t
  /\ lowPriceOfTheDay t' = lowPriceOfTheDay t
  /\ highPriceOfTheDay t' = highPriceOfTheDay t
  /\ (price t = None ->
      supportLevels t' = supportLevels t /\ resistanceLevels t' = resistanceLevels t).
Proof.
  intros Hlen. cbv zeta.
  induction data as [| entry data IH] using rev_ind.
  - cbn [addHistoryData fold_left map]. rewrite app_nil_r, lastN_all by exact Hlen.
    repeat match goal with |- _ /\ _ => split end; try reflexivity.
    intros _. split; reflexivity.
  - rewrite addHistoryData_snoc.
    destruct IH as (Hh & Hp & Hpp & Hd & Hs & Hsh & Htr & Hlo & Hhi & Hlv).
    destruct (addHistoryEntry_frame (addHistoryData data t) entry)
      as (Fp & Fpp & Fd & Fs & Fsh & Ftr & Flo & Fhi & _).
    rewrite Fp, Fpp, Fd, Fs, Fsh, Ftr, Flo, Fhi.
    repeat match goal with |- _ /\ _ => split end; try assumption.
    + change (priceHistory (addHistoryEntry (addHistoryData data t) entry))
        with (priceHistory (applyEvent (addHistoryData data t) (HistoryBar entry))).
      rewrite applyEvent_priceHistory, Hh, map_app, app_assoc.
      apply pushBounded_lastN.
    + intros Hnone. destruct (Hlv Hnone) as [Hsup Hres].
      destruct (applyEvent_levels_origin (addHistoryData data t) (HistoryBar entry))
        as (w & Hs' & Hr').
      cbn [applyEvent] in Hs', Hr'. rewrite Hs', Hr', Hp, Hnone, Hsup, Hres.
      split; reflexivity.
Qed.

Lemma refill_only_touches_history_and_levels_witness :
  (List.length (priceHistory (newTicker "XAU" "USD")) <= 100)%nat
  /\ price (addHistoryData [ {| bar_timestamp := 0; bar_close := 4 |} ]
              (newTicker "XAU" "USD")) = None.
Proof.
  split; [cbn; lia |].
  apply (refill_only_touches_history_and_levels
           [ {| bar_timestamp := 0; bar_close := 4 |} ] (newTicker "XAU" "USD")).
  cbn; lia.
Defined.

(** X9: without any price in the history the indicators are NaN, not zero:
    the volatility and the trend strength are NaN and the classifier
    answers NEUTRAL. *)
Theorem empty_history_gives_nan (t : Ticker) :
  priceHistory t = [] ->
  calculateVolatility t = nan
  /\ calculateTrendStrength t = nan
  /\ calculateScore t = NEUTRAL.
Proof.
  intros Hh.
  assert (Hw : getPriceHistory 10 t = []).
  { unfold getPriceHistory. rewrite Hh. reflexivity. }
  assert (Hvol : calculateVolatility t = nan).
  { unfold calculateVolatility; cbv zeta. rewrite Hw. reflexivity. }
  split; [exact Hvol |]. split.
  - unfold calculateTrendStrength; cbv zeta. rewrite Hw.
    change (sum [] / lengthNum (@nil float)) with nan. rewrite sub_nan_r.
    destruct (le _ _); [reflexivity |]. destruct (ge _ _); reflexivity.
  - unfold calculateScore; cbv zeta. rewrite Hvol.
    change (lt nan 0.02) with false. rewrite !andb_false_r. reflexivity.
Qed.

Lemma empty_history_gives_nan_witness :
  priceHistory (newTicker "XAU" "USD") = []
  /\ calculateVolatility (newTicker "XAU" "USD") = nan.
Proof.
  split; [reflexivity |].
  apply (empty_history_gives_nan (newTicker "XAU" "USD")). reflexivity.
Defined.

(** X10: the first sample of a new ticker that has no refill yet becomes
    both its only support and its only resistance level when its price is a
    number, and no level at all when the price is NaN. *)
Theorem first_sample_is_both_levels
  (now : Date) (p : float) (symbol currency : string) :
  let t' := acceptSample now p (newTicker symbol currency) in
  (is_nan p = false -> supportLevels t' = [p] /\ resistanceLevels t' = [p])
  /\ (is_nan p = true -> supportLevels t' = [] /\ resistanceLevels t' = []).
Proof.
  cbv zeta.
  assert (Hh : map pe_price (priceHistory (acceptSample now p (newTicker symbol currency)))
               = [p]).
  { rewrite acceptSample_priceHistory. reflexivity. }
  rewrite acceptSample_supportLevels, acceptSample_resistanceLevels, Hh.
  unfold supportAfter, resistanceAfter, levelAfter.
  cbn [price set_price strictEqOpt toNumber supportLevels resistanceLevels newTicker
       includes existsb negb].
  split; intros Hp.
  - rewrite (Math_min_singleton p Hp), (Math_max_singleton p Hp). split; reflexivity.
  - assert (Hmin : strictEq p (Math_min [p]) = false).
    { unfold Math_min. cbn [minLoop]. rewrite Hp. apply strictEq_nan_r. }
    assert (Hmax : strictEq p (Math_max [p]) = false).
    { unfold Math_max. cbn [maxLoop]. rewrite Hp. apply strictEq_nan_r. }
    rewrite Hmin, Hmax. split; reflexivity.
Qed.

Lemma first_sample_is_both_levels_witness :
  is_nan 5 = false
  /\ supportLevels (acceptSample 0 5 (newTicker "XAU" "USD")) = [5].
Proof.
  split; [reflexivity |].
  apply (first_sample_is_both_levels 0%Z 5 "XAU" "USD"). reflexivity.
Defined.

End CronExtras.

(** ** Further properties of the interval-driven ticker *)

Module IntervalExtras.

Import IntervalTicker IntervalFacts IntervalProperties.

Lemma interval_scoredState_fields (now : Date) (p : float) (t : Ticker) :
  price (scoredState now p t) = Some p
  /\ previousPrice (scoredState now p t) = price t
  /\ trendDirection (scoredState now p t) = trendDirection t
  /\ scoreHistory (scoredState now p t) = scoreHistory t
  /\ date (scoredState now p t) = Some now
  /\ priceHistory (scoredState now p t)
     = pushBounded (priceHistory t) {| pe_price := p; pe_timestamp := Some now |}.
Proof.
  unfold scoredState.
  rewrite interval_storePriceData_shape. unfold assignDate. fields.
  repeat match goal with |- _ /\ _ => split end; reflexivity.
Qed.

Lemma interval_storeScore_frame (s : Ticker) :
  price (storeScore s) = price s
  /\ previousPrice (storeScore s) = previousPrice s
  /\ priceHistory (storeScore s) = priceHistory s
  /\ trendDirection (storeScore s) = trendDirection s
  /\ scoreHistory (storeScore s)
     = pushBounded (scoreHistory s)
         {| se_score := calculateScore s; se_timestamp := date s |}.
Proof.
  rewrite interval_storeScore_shape.
  repeat match goal with |- _ /\ _ => split end; reflexivity.
Qed.

Lemma interval_trend_frame (s : Ticker) :
  scoreHistory (detectCOC (detectBOS s)) = scoreHistory s.
Proof. rewrite interval_detectCOC_shape, interval_detectBOS_shape. reflexivity. Qed.

Lemma interval_detectBOS_with_price_in_window (t : Ticker) (p : float) :
  price t = Some p -> In p (getPriceHistory 10 t) -> detectBOS t = t.
Proof.
  intros Hp Hin. unfold detectBOS; cbv zeta. rewrite Hp. cbn [toNumber].
  rewrite (Math_max_not_below _ p Hin), (Math_min_not_above _ p Hin).
  reflexivity.
Qed.

Lemma interval_detectBOS_in_cycle (now : Date) (p : float) (t : Ticker) :
  detectBOS (storeScore (scoredState now p t)) = storeScore (scoredState now p t).
Proof.
  destruct (interval_scoredState_fields now p t) as (Hp & _ & _ & _ & _ & Hh).
  revert Hp Hh. generalize (scoredState now p t) as s. intros s Hp Hh.
  destruct (interval_storeScore_frame s) as (Hp' & _ & Hh' & _).
  apply (interval_detectBOS_with_price_in_window _ p).
  - rewrite Hp'. exact Hp.
  - unfold getPriceHistory. rewrite Hh', Hh.
    destruct (pushBounded_snoc (priceHistory t)
                {| pe_price := p; pe_timestamp := Some now |}) as (older & ->).
    rewrite slice_negative_snoc by lia. rewrite map_app.
    apply in_or_app. right. left. reflexivity.
Qed.

Lemma interval_trend_step (now : Date) (p : float) (t : Ticker) :
  trendDirection (acceptSample now p t)
  = match trendDirection t with
    | UP => if lt p (toNumber (price t)) then TREND_NEUTRAL else UP
    | DOWN => if gt p (toNumber (price t)) then TREND_NEUTRAL else DOWN
    | TREND_NEUTRAL => TREND_NEUTRAL
    end.
Proof.
  rewrite interval_acceptSample_scored, interval_detectBOS_in_cycle.
  destruct (interval_scoredState_fields now p t) as (Hp & Hpp & Htr & _).
  revert Hp Hpp Htr. generalize (scoredState now p t) as s. intros s Hp Hpp Htr.
  destruct (interval_storeScore_frame s) as (Hp' & Hpp' & _ & Htr' & _).
  rewrite <- Hp', <- Hpp' in *. rewrite <- Htr' in Htr.
  revert Hp Hpp Htr. generalize (storeScore s) as s'. intros s' Hp Hpp Htr.
  unfold detectCOC. rewrite Htr, Hp, Hpp. cbn [toNumber].
  destruct (trendDirection t); [| | exact Htr].
  - destruct (lt p (toNumber (price t))); [reflexivity | exact Htr].
  - destruct (gt p (toNumber (price t))); [reflexivity | exact Htr].
Qed.

Lemma interval_scoredState_neutral (now : Date) (p : float) (t : Ticker) :
  calculateScore (scoredState now p t) = NEUTRAL.
Proof.
  destruct (interval_scoredState_fields now p t) as (Hp & _ & _ & _ & _ & Hh).
  assert (He : endsWithPrice (scoredState now p t)).
  { right. destruct (pushBounded_snoc (priceHistory t)
                       {| pe_price := p; pe_timestamp := Some now |}) as (older & Hs).
    exists older, {| pe_price := p; pe_timestamp := Some now |}.
    rewrite Hh. split; [exact Hs | exact Hp]. }
  assert (Hq := endsWithPrice_not_quiet_and_trending _ He).
  unfold calculateScore; cbv zeta.
  destruct (lt (calculateVolatility (scoredState now p t)) 0.02).
  - destruct (Hq eq_refl) as [-> ->]. rewrite !andb_false_r. reflexivity.
  - rewrite !andb_false_r. reflexivity.
Qed.

Lemma interval_acceptSample_scoreHistory (now : Date) (p : float) (t : Ticker) :
  scoreHistory (acceptSample now p t)
  = pushBounded (scoreHistory t) {| se_score := NEUTRAL; se_timestamp := Some now |}.
Proof.
  rewrite interval_acceptSample_scored, interval_trend_frame.
  destruct (interval_storeScore_frame (scoredState now p t)) as (_ & _ & _ & _ & ->).
  rewrite interval_scoredState_neutral.
  destruct (interval_scoredState_fields now p t) as (_ & _ & _ & -> & -> & _).
  reflexivity.
Qed.

Lemma interval_feed_priceHistory (samples : list (Date * float)) (symbol currency : string) :
  priceHistory (feed samples (newTicker symbol currency))
  = lastN 100 (map (fun s => {| pe_price := snd s; pe_timestamp := Some (fst s) |})
                 samples).
Proof.
  induction samples as [| s samples IH] using rev_ind; [reflexivity |].
  rewrite feed_snoc, interval_acceptSample_priceHistory, IH, map_app.
  apply pushBounded_lastN.
Qed.

(** X11: the price history of the interval-driven ticker.  Over every
    sequence of accepted samples it holds at most 100 entries, the last 100
    samples in arrival order, and for every n >= 1 [getPriceHistory(n)] is
    the last [min(n, length)] prices, oldest first. *)
Theorem interval_history_bounded_fifo_window
  (samples : list (Date * float)) (symbol currency : string) (n : Z) :
  (1 <= n)%Z ->
  let t := feed samples (newTicker symbol currency) in
  (List.length (priceHistory t) <= 100)%nat
  /\ priceHistory t
     = lastN 100 (map (fun s => {| pe_price := snd s; pe_timestamp := Some (fst s) |})
                    samples)
  /\ getPriceHistory n t
     = lastN (Nat.min (Z.to_nat n) (List.length (priceHistory t)))
         (map pe_price (priceHistory t)).
Proof.
  intros Hn. cbv zeta. repeat match goal with |- _ /\ _ => split end.
  - rewrite interval_feed_priceHistory, lastN_length. lia.
  - apply interval_feed_priceHistory.
  - apply interval_getPriceHistory_lastN. exact Hn.
Qed.

Lemma interval_history_bounded_fifo_window_witness :
  (1 <= 2)%Z
  /\ (List.length
        (priceHistory
           (feed [(0%Z, 5%float); (60000%Z, 6%float)] (newTicker "XAU" "USD")))
      <= 100)%nat.
Proof.
  split; [lia |].
  apply (interval_history_bounded_fifo_window
           [(0%Z, 5); (60000%Z, 6)] "XAU" "USD" 2%Z).
  lia.
Defined.

(** X12: the interval-driven ticker never leaves its initial signals.  In
    the update cycle the BOS step changes nothing, from whatever state; and
    over every sequence of accepted samples of a new ticker the trend is
    NEUTRAL, the [score] field is NEUTRAL, and the signal history is the
    last 100 samples' timestamps, each with the signal NEUTRAL. *)
Theorem interval_signals_stay_neutral :
  (forall now p t,
      detectBOS (storeScore (scoredState now p t)) = storeScore (scoredState now p t))
  /\ (forall samples symbol currency,
        let t := feed samples (newTicker symbol currency) in
        trendDirection t = TREND_NEUTRAL
        /\ score t = NEUTRAL
        /\ scoreHistory t
           = lastN 100
               (map (fun s => {| se_score := NEUTRAL; se_timestamp := Some (fst s) |})
                  samples)).
Proof.
  split; [exact interval_detectBOS_in_cycle |].
  intros samples symbol currency. cbv zeta.
  induction samples as [| s samples IH] using rev_ind.
  - repeat match goal with |- _ /\ _ => split end; reflexivity.
  - destruct IH as (Htr & Hs & Hh). rewrite feed_snoc.
    repeat match goal with |- _ /\ _ => split end.
    + rewrite interval_trend_step, Htr. reflexivity.
    + rewrite interval_acceptSample_score. exact Hs.
    + rewrite interval_acceptSample_scoreHistory, Hh, map_app.
      apply pushBounded_lastN.
Qed.

(** X13: [fetchPrice] of the interval-driven ticker has three outcomes.  It
    accepts a sample and reports nothing; or the parse throws, the error is
    reported and the state has only its date and previous price assigned;
    or a guard rejects the answer, the error is reported and the state is
    untouched. *)
Theorem interval_fetchPrice_outcomes
  (parseFloat : string -> float) (answer : option Response) (now : Date) (t : Ticker) :
  let r := fetchPrice parseFloat answer now t in
  (snd r = None /\ exists p, fst r = acceptSample now p t)
  \/ (snd r = Some SplitIsNotAFunction /\ fst r = assignDate now t)
  \/ (fst r = t
      /\ (snd r = Some NetworkError
          \/ (exists status, snd r = Some (RequestFailed status))
          \/ snd r = Some JsonSyntaxError
          \/ snd r = Some InvalidOrEmptyResponse)).
Proof.
  cbv zeta. unfold fetchPrice.
  destruct answer as [response |]; [| right; right; split; [| left]; reflexivity].
  destruct (ok response); cbn [negb];
    [| right; right; split; [| right; left; eexists]; reflexivity].
  destruct (body response) as [data |];
    [| right; right; split; [| right; right; left]; reflexivity].
  destruct (truthy data); cbn [negb];
    [| right; right; split; [| right; right; right]; reflexivity].
  destruct (index0 data) as [first |];
    [| right; right; split; [| right; right; right]; reflexivity].
  destruct (truthy first); cbn [negb];
    [| right; right; split; [| right; right; right]; reflexivity].
  destruct first; try (right; left; split; reflexivity).
  left. cbn [fst snd]. split; [reflexivity |]. eexists. unfold acceptSample. reflexivity.
Qed.

End IntervalExtras.

(** ** Properties of the wallet, the handlers and the window at odd counts *)

(** X14: [getPriceHistory] on a count that is zero or negative returns the
    history without its first [-count] prices: all of it for 0, nothing
    once [-count] reaches the length; in both variants. *)
Theorem getPriceHistory_nonpositive_count
  (n : Z) (tc : CronTicker.Ticker) (ti : IntervalTicker.Ticker) :
  (n <= 0)%Z ->
  CronTicker.getPriceHistory n tc
  = map pe_price (skipn (Z.to_nat (- n)) (CronTicker.priceHistory tc))
  /\ IntervalTicker.getPriceHistory n ti
     = map pe_price (skipn (Z.to_nat (- n)) (IntervalTicker.priceHistory ti)).
Proof.
  intros Hn. unfold CronTicker.getPriceHistory, IntervalTicker.getPriceHistory.
  rewrite !slice_nonnegative by lia. split; reflexivity.
Qed.

Lemma getPriceHistory_nonpositive_count_witness :
  (-1 <= 0)%Z
  /\ CronTicker.getPriceHistory (-1) (CronTicker.newTicker "XAU" "USD")
     = map pe_price
         (skipn (Z.to_nat (- -1)) (CronTicker.priceHistory (CronTicker.newTicker "XAU" "USD"))).
Proof.
  split; [lia |].
  apply (getPriceHistory_nonpositive_count (-1)%Z
           (CronTicker.newTicker "XAU" "USD") (IntervalTicker.newTicker "XAU" "USD")).
  lia.
Defined.

Section WalletFacts.

Variable Ticker : Type.
Variable getSymbol : Ticker -> string.

Local Abbreviation getTicker := (Wallet.getTicker Ticker getSymbol).
Local Abbreviation addTicker := (Wallet.addTicker Ticker).

Lemma getTicker_found (symbol : string) (w : Wallet.Wallet Ticker) (t : Ticker) :
  getTicker symbol w = Some t -> In t w /\ getSymbol t = symbol.
Proof.
  unfold Wallet.getTicker. intros H. apply find_some in H.
  destruct H as [Hin Heq]. split; [exact Hin | apply String.eqb_eq; exact Heq].
Qed.

Lemma getTicker_missing (symbol : string) (w : Wallet.Wallet Ticker) :
  getTicker symbol w = None <-> (forall t, In t w -> getSymbol t <> symbol).
Proof.
  unfold Wallet.getTicker. split.
  - intros H t Hin Heq.
    assert (Hf := find_none _ _ H t Hin). cbn in Hf.
    apply String.eqb_eq in Heq. congruence.
  - intros H. destruct (find _ w) as [t |] eqn:E; [| reflexivity].
    apply find_some in E. destruct E as [Hin Heq].
    apply String.eqb_eq in Heq. exfalso. exact (H t Hin Heq).
Qed.

Lemma getTicker_after_add (symbol : string) (w : Wallet.Wallet Ticker) (t : Ticker) :
  getTicker symbol (addTicker w t)
  = match getTicker symbol w with
    | Some found => Some found
    | None => if String.eqb (getSymbol t) symbol then Some t else None
    end.
Proof.
  unfold Wallet.getTicker, Wallet.addTicker, push.
  induction w as [| a w IH]; [reflexivity |].
  cbn [app find]. destruct (String.eqb (getSymbol a) symbol); [reflexivity | exact IH].
Qed.

(** X15: the wallet.  [getTicker] after [addTicker] finds what it found
    before, and otherwise the added ticker when its symbol is the one
    asked for: the first ticker of a symbol is never shadowed.  What
    [getTicker] finds is in the wallet and has the symbol; it finds nothing
    exactly when no ticker has the symbol; [addTicker] appends, whether or
    not the symbol is already there. *)
Theorem wallet_lookup_after_add :
  (forall symbol w t,
      getTicker symbol (addTicker w t)
      = match getTicker symbol w with
        | Some found => Some found
        | None => if String.eqb (getSymbol t) symbol then Some t else None
        end)
  /\ (forall symbol w t, getTicker symbol w = Some t -> In t w /\ getSymbol t = symbol)
  /\ (forall symbol w,
        getTicker symbol w = None <-> (forall t, In t w -> getSymbol t <> symbol))
  /\ (forall w t,
        Wallet.getTickers Ticker (addTicker w t) = Wallet.getTickers Ticker w ++ [t])
  /\ (forall symbol, getTicker symbol (Wallet.newWallet Ticker) = None).
Proof.
  split; [exact getTicker_after_add |].
  split; [exact getTicker_found |].
  split; [exact getTicker_missing |].
  split; [reflexivity | reflexivity].
Qed.

Variable toUpperCase : string -> string.
Variable construct : string -> Ticker + string.
Variable Snapshot : Type.
Variable getAllData : Ticker -> Snapshot.

Local Abbreviation addTickerHandler :=
  (Wallet.addTickerHandler Ticker getSymbol toUpperCase construct).
Local Abbreviation getHandler := (Wallet.getHandler Ticker getSymbol Snapshot getAllData).

(** The constructor gives the ticker the symbol it is called with. *)
Hypothesis construct_symbol :
  forall symbol t, construct symbol = inl t -> getSymbol t = symbol.

(** X16: the add-ticker handler answers 200, 400 or 500; unless it answers
    200 the wallet is as before; and when it answers 200 the parameter was
    a non-empty string [s] that no ticker had as symbol, the wallet gained
    one ticker, of symbol [toUpperCase(s)], and [GET /get/<toUpperCase(s)>]
    then answers 200 with the data of a ticker of that symbol. *)
Theorem add_ticker_then_get (symbol : option QueryValue) (w : Wallet.Wallet Ticker) :
  let w' := fst (addTickerHandler symbol w) in
  let reply := snd (addTickerHandler symbol w) in
  (reply_status reply = 200%Z \/ reply_status reply = 400%Z
   \/ reply_status reply = 500%Z)
  /\ (reply_status reply <> 200%Z -> w' = w)
  /\ (reply_status reply = 200%Z ->
      exists s t found,
        symbol = Some (QString s) /\ s <> EmptyString
        /\ getTicker s w = None
        /\ w' = w ++ [t] /\ getSymbol t = toUpperCase s
        /\ reply_message reply = String.append (toUpperCase s) " added to the wallet"
        /\ getTicker (toUpperCase s) w' = Some found
        /\ getSymbol found = toUpperCase s
        /\ getHandler (toUpperCase s) w' = (200%Z, inr (getAllData found))).
Proof.
  cbv zeta. unfold Wallet.addTickerHandler.
  destruct symbol as [[s | items |] |];
    try (cbn [fst snd reply_status];
         split; [right; left; reflexivity |]; split; [reflexivity | discriminate]).
  destruct (String.eqb s EmptyString) eqn:Hempty;
    [cbn [fst snd reply_status];
     split; [right; left; reflexivity |]; split; [reflexivity | discriminate] |].
  destruct (getTicker s w) as [old |] eqn:Hold;
    [cbn [fst snd reply_status];
     split; [right; left; reflexivity |]; split; [reflexivity | discriminate] |].
  destruct (construct (toUpperCase s)) as [t | message] eqn:Hc;
    cbn [fst snd reply_status reply_message].
  - split; [left; reflexivity |]. split; [congruence |]. intros _.
    assert (Hsym : getSymbol t = toUpperCase s) by (apply construct_symbol; exact Hc).
    assert (Hfind : exists found,
               getTicker (toUpperCase s) (addTicker w t) = Some found).
    { rewrite getTicker_after_add.
      destruct (getTicker (toUpperCase s) w) as [f |]; [eexists; reflexivity |].
      rewrite Hsym, String.eqb_refl. eexists. reflexivity. }
    destruct Hfind as (found & Hfound).
    exists s, t, found.
    repeat match goal with |- _ /\ _ => split end; try reflexivity.
    + intros ->. discriminate.
    + exact Hold.
    + exact Hsym.
    + exact Hfound.
    + apply (getTicker_found _ _ _ Hfound).
    + unfold Wallet.getHandler. rewrite Hfound. reflexivity.
  - split; [right; right; reflexivity |]. split; [reflexivity | discriminate].
Qed.

(** X17: the duplicate check of the add-ticker handler looks for the
    symbol as typed, while the ticker is stored under the upper-cased
    symbol.  Asking twice for a symbol that differs from its upper-cased
    form adds two tickers of the same symbol; asking twice for a symbol
    that is its own upper-cased form is refused the second time with 400
    and leaves the wallet alone. *)
Theorem duplicate_check_uses_typed_symbol
  (s : string) (w : Wallet.Wallet Ticker) (t : Ticker) :
  s <> EmptyString ->
  getTicker s w = None ->
  construct (toUpperCase s) = inl t ->
  let first := addTickerHandler (Some (QString s)) w in
  let second := addTickerHandler (Some (QString s)) (fst first) in
  reply_status (snd first) = 200%Z
  /\ fst first = w ++ [t]
  /\ (toUpperCase s <> s ->
      reply_status (snd second) = 200%Z /\ fst second = w ++ [t; t])
  /\ (toUpperCase s = s ->
      reply_status (snd second) = 400%Z /\ fst second = w ++ [t]).
Proof.
  intros Hne Hnone Hc. cbv zeta.
  assert (Hempty : String.eqb s EmptyString = false).
  { destruct s; [congruence | reflexivity]. }
  assert (Hsym : getSymbol t = toUpperCase s) by (apply construct_symbol; exact Hc).
  assert (Hfirst : addTickerHandler (Some (QString s)) w
                   = (addTicker w t,
                      {| reply_status := 200;
                         reply_message :=
                           String.append (toUpperCase s) " added to the wallet" |})).
  { unfold Wallet.addTickerHandler. rewrite Hempty, Hnone, Hc. reflexivity. }
  rewrite Hfirst. cbn [fst snd reply_status].
  split; [reflexivity |]. split; [reflexivity |].
  split; intros Hup.
  - assert (Hstill : getTicker s (addTicker w t) = None).
    { rewrite getTicker_after_add, Hnone, Hsym.
      destruct (String.eqb (toUpperCase s) s) eqn:E; [| reflexivity].
      apply String.eqb_eq in E. contradiction. }
    unfold Wallet.addTickerHandler. rewrite Hempty, Hstill, Hc.
    cbn [fst snd reply_status]. split; [reflexivity |].
    unfold Wallet.addTicker, push. rewrite <- app_assoc. reflexivity.
  - assert (Hnow : getTicker s (addTicker w t) = Some t).
    { rewrite getTicker_after_add, Hnone, Hsym, Hup, String.eqb_refl. reflexivity. }
    unfold Wallet.addTickerHandler. rewrite Hempty, Hnow.
    cbn [fst snd reply_status]. split; reflexivity.
Qed.

End WalletFacts.

Lemma add_ticker_then_get_witness :
  (forall symbol t,
      (fun s => @inl CronTicker.Ticker string (CronTicker.newTicker s "USD")) symbol
      = inl t ->
      CronTicker.symbol t = symbol)
  /\ reply_status
       (snd (Wallet.addTickerHandler CronTicker.Ticker CronTicker.symbol
               asciiToUpperCase
               (fun s => inl (CronTicker.newTicker s "USD"))
               (Some (QString "xau")) [])) = 200%Z
  /\ exists s,
       Some (QString "xau") = Some (QString s)
       /\ fst (Wallet.getHandler CronTicker.Ticker CronTicker.symbol
                 CronTicker.Snapshot CronTicker.getAllData
                 (asciiToUpperCase s)
                 (fst (Wallet.addTickerHandler CronTicker.Ticker CronTicker.symbol
                         asciiToUpperCase
                         (fun s => inl (CronTicker.newTicker s "USD"))
                         (Some (QString "xau")) []))) = 200%Z.
Proof.
  assert (H : forall symbol t,
             (fun s => @inl CronTicker.Ticker string (CronTicker.newTicker s "USD")) symbol
             = inl t ->
             CronTicker.symbol t = symbol).
  { intros symbol t Heq. injection Heq as <-. reflexivity. }
  split; [exact H |]. split; [reflexivity |].
  destruct (add_ticker_then_get CronTicker.Ticker CronTicker.symbol asciiToUpperCase
              (fun s => inl (CronTicker.newTicker s "USD"))
              CronTicker.Snapshot CronTicker.getAllData H
              (Some (QString "xau")) []) as (_ & _ & Hadded).
  destruct (Hadded eq_refl) as (s & t & found & Hs & _ & _ & _ & _ & _ & _ & _ & Hget).
  exists s. split; [exact Hs |]. rewrite Hget. reflexivity.
Defined.

Lemma duplicate_check_uses_typed_symbol_witness :
  "xau"%string <> EmptyString
  /\ asciiToUpperCase "xau" <> "xau"%string
  /\ List.length
       (fst (Wallet.addTickerHandler CronTicker.Ticker CronTicker.symbol
               asciiToUpperCase
               (fun s => inl (CronTicker.newTicker s "USD"))
               (Some (QString "xau"))
               (fst (Wallet.addTickerHandler CronTicker.Ticker CronTicker.symbol
                       asciiToUpperCase
                       (fun s => inl (CronTicker.newTicker s "USD"))
                       (Some (QString "xau")) [])))) = 2%nat.
Proof.
  split; [discriminate |]. split; [vm_compute; discriminate |].
  assert (H : forall symbol t,
             (fun s => @inl CronTicker.Ticker string (CronTicker.newTicker s "USD")) symbol
             = inl t ->
             CronTicker.symbol t = symbol).
  { intros symbol t Heq. injection Heq as <-. reflexivity. }
  destruct (duplicate_check_uses_typed_symbol CronTicker.Ticker CronTicker.symbol
              asciiToUpperCase (fun s => inl (CronTicker.newTicker s "USD")) H
              "xau"%string [] (CronTicker.newTicker "XAU" "USD")
              ltac:(discriminate) eq_refl eq_refl) as (_ & _ & Hdiff & _).
  destruct (Hdiff ltac:(vm_compute; discriminate)) as [_ ->]. reflexivity.
Defined.
